(** * Cross-document financial consistency checker

    A shallow embedding of the figure extractor, the document analysis
    aggregator and the cross-document comparator of the checker
    (src/components/analysis/AnalysisEngine.tsx,
    src/components/report/CrossCheckReport.tsx, src/App.tsx), and the
    properties of its specification, each proved on the embedding or
    shown to fail on it at a concrete input.

    Conventions of the embedding:
    - a JavaScript string is a [string], one [ascii] per code unit (the
      embedding covers texts whose code units are below 256);
    - a JavaScript number is an IEEE 754 binary64 value, [spec_float] with
      precision 53 and maximal exponent 1024, computed with the operations
      of the Standard Library's [SpecFloat];
    - a [Set] is a duplicate-free list in insertion order, a plain object
      used as a dictionary is the list of its own properties in the order
      of their enumeration, with its prototype where the code reads the
      object by key;
    - the external collaborators (storage upload, text extraction, clock,
      locale) are fields of an explicit environment. *)

From Stdlib Require Import List String Ascii ZArith Lia Bool Arith.
From Stdlib Require Import Permutation.
From Stdlib Require Import Floats.SpecFloat DecimalString.
Import ListNotations.

Local Open Scope string_scope.
Local Open Scope list_scope.
Local Open Scope nat_scope.

(* ================================================================== *)
(** * JavaScript numbers *)
(* ================================================================== *)

Module Num.

Definition number := spec_float.

Definition prec : Z := 53.
Definition emax : Z := 1024.

Definition NaN : number := S754_nan.
Definition Infinity : number := S754_infinity false.
Definition zero : number := S754_zero false.

Definition add : number -> number -> number := SFadd prec emax.
Definition sub : number -> number -> number := SFsub prec emax.
Definition mul : number -> number -> number := SFmul prec emax.
Definition div : number -> number -> number := SFdiv prec emax.

(** [x < y] and [x > y]; both are false when an operand is NaN. *)
Definition ltb (x y : number) : bool := SFltb x y.
Definition gtb (x y : number) : bool := SFltb y x.

Definition isNaN (x : number) : bool :=
  match x with S754_nan => true | _ => false end.

Definition isFinite (x : number) : bool :=
  match x with
  | S754_zero _ | S754_finite _ _ _ => true
  | _ => false
  end.

(** The number nearest to the rational [n / d] (ties to even), for
    [n >= 0] and [d > 0]: the value of a decimal literal. *)
Definition ofRatio (n : Z) (d : positive) : number :=
  match n with
  | Zpos p => div (S754_finite false p 0) (S754_finite false d 0)
  | _ => zero
  end.

Definition ofZ (n : Z) : number := binary_normalize prec emax n 0 false.
Definition ofNat (n : nat) : number := ofZ (Z.of_nat n).

(** SameValueZero, the equality of [Set] membership: NaN is the same as
    NaN and +0 the same as -0. *)
Definition sameValueZero (x y : number) : bool :=
  match x, y with
  | S754_nan, S754_nan => true
  | _, _ => SFeqb x y
  end.

(** Truthiness of a number: [0], [-0] and [NaN] are falsy. *)
Definition truthy (x : number) : bool :=
  match x with
  | S754_nan | S754_zero _ => false
  | _ => true
  end.

(** [Math.max(...xs)] and [Math.min(...xs)]: NaN if an argument is NaN,
    -Infinity (resp. +Infinity) on no argument; +0 is larger than -0. *)
Definition max2 (x y : number) : number :=
  match x, y with
  | S754_nan, _ | _, S754_nan => S754_nan
  | S754_zero sx, S754_zero sy => S754_zero (andb sx sy)
  | _, _ => if SFltb x y then y else x
  end.

Definition min2 (x y : number) : number :=
  match x, y with
  | S754_nan, _ | _, S754_nan => S754_nan
  | S754_zero sx, S754_zero sy => S754_zero (orb sx sy)
  | _, _ => if SFltb y x then y else x
  end.

Definition max (xs : list number) : number :=
  fold_left max2 xs (S754_infinity true).
Definition min (xs : list number) : number :=
  fold_left min2 xs (S754_infinity false).

End Num.

Import Num.

(* ================================================================== *)
(** * JavaScript strings *)
(* ================================================================== *)

Module Str.

Definition code (c : ascii) : N := N_of_ascii c.

Definition inRange (lo hi : N) (c : ascii) : bool :=
  ((lo <=? code c) && (code c <=? hi))%N.

(** [\d] *)
Definition isDigit (c : ascii) : bool := inRange 48 57 c.

(** [\w] *)
Definition isWord (c : ascii) : bool :=
  inRange 97 122 c || inRange 65 90 c || isDigit c || (code c =? 95)%N.

(** [\s], also the characters removed by [trim]: TAB, LF, VT, FF, CR,
    space and the no-break space. *)
Definition isSpace (c : ascii) : bool :=
  inRange 9 13 c || (code c =? 32)%N || (code c =? 160)%N.

(** Line terminators, which [.] does not match. *)
Definition isLineTerminator (c : ascii) : bool :=
  (code c =? 10)%N || (code c =? 13)%N.

Definition lowerChar (c : ascii) : ascii :=
  if inRange 65 90 c || (inRange 192 222 c && negb (code c =? 215)%N)
  then ascii_of_N (code c + 32) else c.

(** Case folding of the [i] flag: a code unit below 128 is only ever
    identified with its own other case. *)
Definition foldChar (c : ascii) : ascii :=
  if inRange 97 122 c then ascii_of_N (code c - 32) else c.

Fixpoint toLowerCase (s : string) : string :=
  match s with
  | EmptyString => EmptyString
  | String c s' => String (lowerChar c) (toLowerCase s')
  end.

Fixpoint forallb (p : ascii -> bool) (s : string) : bool :=
  match s with
  | EmptyString => true
  | String c s' => p c && forallb p s'
  end.

(** [s.trim().length === 0] *)
Definition isBlank (s : string) : bool := forallb isSpace s.

Fixpoint startsWith (p s : string) : bool :=
  match p, s with
  | EmptyString, _ => true
  | String a p', String b s' => Ascii.eqb a b && startsWith p' s'
  | String _ _, EmptyString => false
  end.

Fixpoint drop (n : nat) (s : string) : string :=
  match n, s with
  | S n', String _ s' => drop n' s'
  | _, _ => s
  end.

Fixpoint take (n : nat) (s : string) : string :=
  match n, s with
  | S n', String c s' => String c (take n' s')
  | _, _ => EmptyString
  end.

(** First offset [>= pos] of the suffix [s] (which starts at offset
    [pos] of the whole text) where [sub] occurs. *)
Fixpoint find (sub s : string) (pos : nat) : option nat :=
  if startsWith sub s then Some pos
  else match s with
       | EmptyString => None
       | String _ s' => find sub s' (S pos)
       end.

(** [s.indexOf(sub, from)]: the result is [-1] when there is no
    occurrence; a negative [from] counts as 0. *)
Definition indexOf (s sub : string) (from : Z) : Z :=
  let k := Z.to_nat from in
  if (String.length s <? k)%nat then
    (if startsWith sub EmptyString then Z.of_nat (String.length s) else (-1)%Z)
  else
    match find sub (drop k s) k with
    | Some i => Z.of_nat i
    | None => (-1)%Z
    end.

(** [s.substring(a, b)]: both bounds are clamped to [0, length] and
    swapped when [a > b]. *)
Definition substring (s : string) (a b : Z) : string :=
  let len := Z.of_nat (String.length s) in
  let a' := Z.min (Z.max a 0) len in
  let b' := Z.min (Z.max b 0) len in
  let lo := Z.min a' b' in
  let hi := Z.max a' b' in
  take (Z.to_nat (hi - lo)) (drop (Z.to_nat lo) s).

(** [s.split('.').pop()]: what follows the last dot, or all of [s]. *)
Fixpoint lastSegment (acc s : string) : string :=
  match s with
  | EmptyString => acc
  | String c s' =>
      if Ascii.eqb c "."%char then lastSegment EmptyString s'
      else lastSegment (acc ++ String c EmptyString) s'
  end.

Definition extensionOf (fileName : string) : string :=
  lastSegment EmptyString (toLowerCase fileName).

(** [s.replace(/,/g, '')] *)
Fixpoint removeCommas (s : string) : string :=
  match s with
  | EmptyString => EmptyString
  | String c s' =>
      if Ascii.eqb c ","%char then removeCommas s'
      else String c (removeCommas s')
  end.

(** [String(n)] for an integer [n]: its decimal digits, after a minus
    sign when it is negative. *)
Definition ofN (n : N) : string := NilZero.string_of_uint (N.to_uint n).

Definition ofZ (n : Z) : string :=
  match n with
  | Zneg p => "-" ++ ofN (Npos p)
  | _ => ofN (Z.to_N n)
  end.

(** Order of strings by code units, the default order of
    [Array.prototype.sort]. *)
Fixpoint leb (a b : string) : bool :=
  match a, b with
  | EmptyString, _ => true
  | String _ _, EmptyString => false
  | String x a', String y b' =>
      if (code x <? code y)%N then true
      else if (code y <? code x)%N then false
      else leb a' b'
  end.

Fixpoint insertSorted (x : string) (l : list string) : list string :=
  match l with
  | [] => [x]
  | y :: l' => if leb x y then x :: l else y :: insertSorted x l'
  end.

Definition sort (l : list string) : list string :=
  fold_right insertSorted [] l.

End Str.


(* ================================================================== *)
(** * Regular expressions *)
(* ================================================================== *)

(** The fragment of the regular expression language that the patterns of
    the extractors are written in, matched by backtracking as the
    language prescribes: greedy quantifiers, leftmost match, one capture
    group. *)
Module Regex.

Inductive regex : Type :=
| Chr (p : ascii -> bool)        (* a class, or one character *)
| Cat (r1 r2 : regex)            (* r1 r2 *)
| Opt (r : regex)                (* r?  *)
| Star (p : ascii -> bool)       (* [class]* *)
| Plus (p : ascii -> bool)       (* [class]+ *)
| Group (r : regex).             (* ( r ), capture group 1 *)

(** A match in progress: the end offset reached and the text of the
    capture group, if it took part. *)
Definition result : Type := nat * option string.

Definition cont : Type := string -> nat -> option string -> option result.

(** [class]* against the suffix [s] at offset [pos]: the longest run
    first, then shorter ones, until the continuation succeeds. *)
Fixpoint star (p : ascii -> bool) (s : string) (pos : nat)
         (cap : option string) (k : cont) : option result :=
  match s with
  | String c s' =>
      if p c then
        match star p s' (S pos) cap k with
        | Some r => Some r
        | None => k s pos cap
        end
      else k s pos cap
  | EmptyString => k s pos cap
  end.

Fixpoint run (r : regex) (s : string) (pos : nat) (cap : option string)
         (k : cont) : option result :=
  match r with
  | Chr p =>
      match s with
      | String c s' => if p c then k s' (S pos) cap else None
      | EmptyString => None
      end
  | Cat r1 r2 => run r1 s pos cap (fun s' pos' cap' => run r2 s' pos' cap' k)
  | Opt r1 =>
      match run r1 s pos cap k with
      | Some res => Some res
      | None => k s pos cap
      end
  | Star p => star p s pos cap k
  | Plus p =>
      match s with
      | String c s' => if p c then star p s' (S pos) cap k else None
      | EmptyString => None
      end
  | Group r1 =>
      run r1 s pos cap
          (fun s' pos' _ => k s' pos' (Some (Str.take (pos' - pos) s)))
  end.

(** A match of [r] that starts exactly at offset [pos], where the
    suffix [s] of the text starts. *)
Definition matchHere (r : regex) (s : string) (pos : nat) : option result :=
  run r s pos None (fun _ pos' cap => Some (pos', cap)).

(** What [exec] and [match] return for a match: [index], the matched
    text ([m[0]]) and the capture ([m[1]], the empty string standing
    for a group that did not take part). *)
Record rmatch : Type := {
  index : nat;
  whole : string;
  capture : string;
}.

Definition mkMatch (s : string) (pos : nat) (res : result) : rmatch :=
  {| index := pos;
     whole := Str.take (fst res - pos) s;
     capture := match snd res with Some c => c | None => EmptyString end |}.

(** The leftmost match at or after [pos]: [text.match(r)] for a regex
    without the [g] flag, with [s] the whole text and [pos = 0]. *)
Fixpoint search (r : regex) (s : string) (pos : nat) : option rmatch :=
  match matchHere r s pos with
  | Some res => Some (mkMatch s pos res)
  | None =>
      match s with
      | EmptyString => None
      | String _ s' => search r s' (S pos)
      end
  end.

Definition firstMatch (r : regex) (text : string) : option rmatch :=
  search r text 0.

(** The successive results of [r.exec(text)] for a regex with the [g]
    flag, until [null]: each call resumes at [lastIndex], the end of
    the previous match. [skip] counts the characters that remain
    before [lastIndex]. *)
Fixpoint execFrom (r : regex) (s : string) (pos skip : nat) : list rmatch :=
  match skip with
  | S skip' =>
      match s with
      | EmptyString => []
      | String _ s' => execFrom r s' (S pos) skip'
      end
  | O =>
      match matchHere r s pos with
      | Some res =>
          mkMatch s pos res ::
          match s with
          | EmptyString => []
          | String _ s' => execFrom r s' (S pos) (fst res - pos - 1)
          end
      | None =>
          match s with
          | EmptyString => []
          | String _ s' => execFrom r s' (S pos) 0
          end
      end
  end.

Definition execAll (r : regex) (text : string) : list rmatch :=
  execFrom r text 0 0.

(** The same loop as the source writes it. [exec] is one call of
    [r.exec(text)] for a regex whose [lastIndex] is [lastIndex]: the
    match with the new [lastIndex], the end of the match, or [null] with
    [lastIndex] reset to 0. [execLoop] is
    [while ((match = pattern.exec(text)) !== null)] for at most [fuel]
    rounds. *)
Definition exec (r : regex) (text : string) (lastIndex : nat)
  : option rmatch * nat :=
  if String.length text <? lastIndex then (None, 0)
  else
    match search r (Str.drop lastIndex text) lastIndex with
    | Some m => (Some m, index m + String.length (whole m))
    | None => (None, 0)
    end.

Fixpoint execLoop (fuel : nat) (r : regex) (text : string) (lastIndex : nat)
  : list rmatch :=
  match fuel with
  | O => []
  | S fuel' =>
      match exec r text lastIndex with
      | (Some m, lastIndex') => m :: execLoop fuel' r text lastIndex'
      | (None, _) => []
      end
  end.

(** A regex that begins with a character or a class: each of its
    matches takes at least one character. *)
Definition consuming (r : regex) : bool :=
  match r with
  | Chr _ | Plus _ | Cat (Chr _) _ | Cat (Plus _) _ => true
  | _ => false
  end.

(** ** The pieces the patterns are built from *)

Definition chr (c : ascii) : regex := Chr (Ascii.eqb c).

(** A character under the [i] flag. *)
Definition chrI (c : ascii) : regex :=
  Chr (fun x => Ascii.eqb (Str.foldChar x) (Str.foldChar c)).

(** [.] *)
Definition dot : regex := Chr (fun c => negb (Str.isLineTerminator c)).

(** A literal word under the [i] flag, followed by [rest]. *)
Fixpoint litI (w : string) (rest : regex) : regex :=
  match w with
  | EmptyString => rest
  | String c w' => Cat (chrI c) (litI w' rest)
  end.

Definition isColon (c : ascii) : bool := Ascii.eqb c ":"%char.
Definition isComma (c : ascii) : bool := Ascii.eqb c ","%char.

(** [[:\s]] , [[:\s\w]] and [[\d,]] *)
Definition sep (c : ascii) : bool := isColon c || Str.isSpace c.
Definition sepWord (c : ascii) : bool :=
  isColon c || Str.isSpace c || Str.isWord c.
Definition digitComma (c : ascii) : bool := Str.isDigit c || isComma c.

(** [20\d{2}] *)
Definition year : regex :=
  Cat (chr "2") (Cat (chr "0") (Cat (Chr Str.isDigit) (Chr Str.isDigit))).

End Regex.

Import Regex.

(* ================================================================== *)
(** * parseFloat *)
(* ================================================================== *)

Module Parse.

Fixpoint skipSpace (s : string) : string :=
  match s with
  | String c s' => if Str.isSpace c then skipSpace s' else s
  | EmptyString => s
  end.

Definition digitVal (c : ascii) : Z := Z.of_N (Str.code c) - 48.

(** The longest run of decimal digits at the head of [s]: the value of
    [acc] extended by them, how many there are, and what follows. *)
Fixpoint digits (s : string) (acc : Z) (n : nat) : Z * nat * string :=
  match s with
  | String c s' =>
      if Str.isDigit c then digits s' (10 * acc + digitVal c) (S n)
      else (acc, n, s)
  | EmptyString => (acc, n, s)
  end.

(** An exponent part [e], [e+] or [e-] followed by at least one digit;
    anything else is not part of the literal. *)
Definition exponent (s : string) : Z :=
  match s with
  | String c s' =>
      if Ascii.eqb c "e"%char || Ascii.eqb c "E"%char then
        match s' with
        | String sg s'' =>
            if Ascii.eqb sg "-"%char then
              let '(x, n, _) := digits s'' 0 0 in
              if (0 <? n)%nat then - x else 0
            else if Ascii.eqb sg "+"%char then
              let '(x, n, _) := digits s'' 0 0 in
              if (0 <? n)%nat then x else 0
            else
              let '(x, n, _) := digits s' 0 0 in x
        | EmptyString => 0
        end
      else 0
  | EmptyString => 0
  end%Z.

(** The number denoted by the digits [m] scaled by [10 ^ x]. *)
Definition scale (m x : Z) : number :=
  match x with
  | Zneg p => ofRatio m (Pos.pow 10 p)
  | _ => ofRatio (m * 10 ^ x) 1
  end.

Definition unsignedLiteral (s : string) : number :=
  if Str.startsWith "Infinity" s then Infinity
  else
    let '(i, ni, rest) := digits s 0 0 in
    let '(m, nf, rest') :=
      match rest with
      | String c r =>
          if Ascii.eqb c "."%char then digits r i 0 else (i, O, rest)
      | EmptyString => (i, O, rest)
      end in
    if (ni + nf =? 0)%nat then NaN
    else scale m (exponent rest' - Z.of_nat nf).

(** [parseFloat(s)]: the value of the longest prefix of [s], leading
    white space skipped, that is a decimal literal; NaN if there is
    none. *)
Definition parseFloat (s : string) : number :=
  match skipSpace s with
  | String c s' =>
      if Ascii.eqb c "-"%char then SFopp (unsignedLiteral s')
      else if Ascii.eqb c "+"%char then unsignedLiteral s'
      else unsignedLiteral (String c s')
  | EmptyString => NaN
  end.

End Parse.

Import Parse.

(* ================================================================== *)
(** * Sets and dictionary objects *)
(* ================================================================== *)

(** A [Set]: its elements without duplicates, in insertion order. *)
Module JSet.
Section WithEq.
Context {A : Type} (same : A -> A -> bool).

Definition has (l : list A) (x : A) : bool := existsb (same x) l.

Definition add (l : list A) (x : A) : list A :=
  if has l x then l else l ++ [x].

(** [new Set(xs)] *)
Definition ofList (xs : list A) : list A := fold_left add xs [].
End WithEq.
End JSet.

(** A plain object used as a dictionary with string keys.

    [Obj.t] holds the own enumerable properties of the object in the
    order in which [Object.keys], [Object.values] and [Object.entries]
    enumerate them: first the keys that are array indices (canonical
    decimal numerals below 2^32 - 1) in ascending numeric order, then the
    other keys in order of creation. Assigning to an existing key changes
    its value and keeps its place.

    The key [__proto__] is not a property of an object created by a
    literal: reading and writing it reach the accessor of
    [Object.prototype]. Writing an object or [null] replaces the
    prototype of the object, writing a number does nothing, and in
    neither case is a property created. Once the prototype is [null] the
    accessor is out of reach and [__proto__] is a key like any other. *)
Module Obj.

(** The value of a string of decimal digits. *)
Fixpoint numeral (s : string) (acc : N) : option N :=
  match s with
  | EmptyString => Some acc
  | String c s' =>
      if Str.isDigit c then numeral s' (10 * acc + (Str.code c - 48))%N
      else None
  end.

(** A key that is an array index: [ToString(ToUint32(k)) === k] and the
    number is not 2^32 - 1. *)
Definition arrayIndex (k : string) : option N :=
  match k with
  | EmptyString => None
  | String c rest =>
      if Ascii.eqb c "0"%char && negb (String.eqb rest EmptyString) then None
      else
        match numeral k 0 with
        | Some n => if (n <? 4294967295)%N then Some n else None
        | None => None
        end
  end.

(** A new key [k] is enumerated before the key [k'] already there. *)
Definition before (k k' : string) : bool :=
  match arrayIndex k, arrayIndex k' with
  | Some n, Some n' => (n <? n')%N
  | Some _, None => true
  | None, _ => false
  end.

(** The names of the properties of [Object.prototype], which every
    object created by a literal inherits. *)
Definition inherited (k : string) : bool :=
  existsb (String.eqb k)
    [ "constructor"; "__defineGetter__"; "__defineSetter__"; "hasOwnProperty";
      "__lookupGetter__"; "__lookupSetter__"; "isPrototypeOf";
      "propertyIsEnumerable"; "toString"; "valueOf"; "__proto__";
      "toLocaleString" ].

Section WithValue.
Context {V : Type}.

Definition t : Type := list (string * V).

Definition empty : t := [].

(** [Object.hasOwn(o, k)] *)
Definition has (o : t) (k : string) : bool :=
  existsb (fun e => String.eqb (fst e) k) o.

(** The own property [k] of [o], if it has one. *)
Fixpoint get (o : t) (k : string) : option V :=
  match o with
  | [] => None
  | (k', v') :: o' => if String.eqb k' k then Some v' else get o' k
  end.

Fixpoint replace (o : t) (k : string) (v : V) : t :=
  match o with
  | [] => []
  | (k', v') :: o' =>
      if String.eqb k' k then (k', v) :: o' else (k', v') :: replace o' k v
  end.

Fixpoint insert (o : t) (k : string) (v : V) : t :=
  match o with
  | [] => [(k, v)]
  | (k', v') :: o' =>
      if before k k' then (k, v) :: o else (k', v') :: insert o' k v
  end.

(** The own property [k] of [o] set to [v]: changed where it is, or
    created at its place in the enumeration. *)
Definition define (o : t) (k : string) (v : V) : t :=
  if has o k then replace o k v else insert o k v.

(** [o[k] = v] for a value [v] that is an object, here an array, and an
    object [o] created by a literal: under [__proto__] the array
    becomes the prototype of [o] and no property is created. The
    accessor stays in reach through the array, so this holds for every
    later assignment too. *)
Definition setObject (o : t) (k : string) (v : V) : t :=
  if String.eqb k "__proto__" && negb (has o k) then o else define o k v.

Definition keys (o : t) : list string := map fst o.
Definition values (o : t) : list V := map snd o.
Definition entries (o : t) : list (string * V) := o.

End WithValue.
Arguments t : clear implicits.

Section Dictionary.
Context {V : Type}.

(** An object created by [{}] that is assigned numbers and [null],
    [None] standing for [null]: its own properties, and whether its
    prototype has been replaced by [null]. *)
Record dict : Type := {
  props : t (option V);
  detached : bool;
}.

(** [{}] *)
Definition fresh : dict := {| props := empty; detached := false |}.

(** [d[k] = v]: under [__proto__] the accessor is reached when the
    object has no property of that name and its prototype still is
    [Object.prototype]. *)
Definition assign (d : dict) (k : string) (v : option V) : dict :=
  if String.eqb k "__proto__" && negb (detached d) && negb (has (props d) k)
  then
    match v with
    | None => {| props := props d; detached := true |}
    | Some _ => d
    end
  else {| props := define (props d) k v; detached := detached d |}.

(** What [d[k]] evaluates to: an own property, a property of
    [Object.prototype], or [undefined]. *)
Inductive slot : Type :=
| Own (v : option V)
| Inherited
| Undefined.

Definition lookup (d : dict) (k : string) : slot :=
  match get (props d) k with
  | Some v => Own v
  | None =>
      if negb (detached d) && inherited k then Inherited else Undefined
  end.

End Dictionary.
Arguments dict : clear implicits.
Arguments slot : clear implicits.

End Obj.

(* ================================================================== *)
(** * The data model (src/types/financial.ts) *)
(* ================================================================== *)

Module ExtractedFigure.
Record t : Type := {
  category : string;
  year : string;
  value : number;
  label : string;
  documentName : string;
  location : string;
  confidence : number;
}.
End ExtractedFigure.

Inductive ExtractionStatus : Type := success | partial | failed.

Module DocumentAnalysis.
Record t : Type := {
  fileName : string;
  extractedFigures : list ExtractedFigure.t;
  extractionStatus : ExtractionStatus;
  errorMessage : option string;
}.
End DocumentAnalysis.

Module ComparisonResult.
Record t : Type := {
  year : string;
  field : string;
  values : Obj.dict number;   (* its entries: a number or [null] *)
  consistent : bool;
  category : string;
}.
End ComparisonResult.

Module CrossCheckReport.
Record summary_t : Type := {
  totalComparisons : nat;
  consistentCount : nat;
  discrepancyCount : nat;
  keyDiscrepancies : list string;
  consistentSections : list string;
}.
Record t : Type := {
  documentAnalyses : list DocumentAnalysis.t;
  comparisons : list ComparisonResult.t;
  summary : summary_t;
}.
End CrossCheckReport.

(* ================================================================== *)
(** * The figure extractor of AnalysisEngine (confidence 0.85) *)
(* ================================================================== *)

Module AnalysisEngine.

Import ExtractedFigure.

(** [([\d,]+(?:\.\d{2})?)] *)
Definition amount : regex :=
  Group (Cat (Plus digitComma)
             (Opt (Cat (chr ".") (Cat (Chr Str.isDigit) (Chr Str.isDigit))))).

(** [[:\s]+\$?([\d,]+(?:\.\d{2})?)], what every pattern ends
    with. *)
Definition tail : regex := Cat (Plus sep) (Cat (Opt (chr "$")) amount).

(** [/word[:\s]+\$?([\d,]+(?:\.\d{2})?)/gi] *)
Definition pat (word : string) : regex := litI word tail.

(** [/word1.? word2[:\s]+.../gi], as in [shareholders.? equity]. *)
Definition pat2 (word1 word2 : string) : regex :=
  litI word1 (Cat (Opt dot) (litI word2 tail)).

Record entry : Type := {
  e_category : string;
  e_field : string;
  e_patterns : list regex;
}.

Definition patterns : list entry :=
  [ {| e_category := "Income Statement"; e_field := "Revenue";
       e_patterns := [pat "revenue"; pat "sales"; pat "total revenue"] |};
    {| e_category := "Income Statement"; e_field := "EBITDA";
       e_patterns := [pat "ebitda"; pat "earnings before"] |};
    {| e_category := "Income Statement"; e_field := "Net Income";
       e_patterns := [pat "net income"; pat "net profit";
                      pat "profit after tax"] |};
    {| e_category := "Balance Sheet"; e_field := "Total Assets";
       e_patterns := [pat "total assets"; pat "assets"] |};
    {| e_category := "Balance Sheet"; e_field := "Total Liabilities";
       e_patterns := [pat "total liabilities"; pat "liabilities"] |};
    {| e_category := "Balance Sheet"; e_field := "Equity";
       e_patterns := [pat "equity"; pat2 "shareholders" " equity";
                      pat2 "stockholders" " equity"] |};
    {| e_category := "Cash Flow Statement"; e_field := "Operating Cash Flow";
       e_patterns := [pat "operating cash flow"; pat "cash from operations"] |};
    {| e_category := "Cash Flow Statement"; e_field := "Investing Cash Flow";
       e_patterns := [pat "investing cash flow"; pat "cash from investing"] |};
    {| e_category := "Cash Flow Statement"; e_field := "Financing Cash Flow";
       e_patterns := [pat "financing cash flow"; pat "cash from financing"] |};
    {| e_category := "Cash Flow Statement"; e_field := "Net Change in Cash";
       e_patterns := [pat "net change in cash"; pat "net cash flow"] |} ].

(** [foundYears]: the matches of [/20\d{2}/g] in order of first
    appearance or, when there is none, the current year and the year
    before it. [currentYear] is [new Date().getFullYear()]. *)
Definition foundYears (currentYear : Z) (text : string) : list string :=
  let found := JSet.ofList String.eqb (map whole (execAll Regex.year text)) in
  match found with
  | [] =>
      JSet.add String.eqb
        (JSet.add String.eqb [] (Str.ofZ currentYear))
        (Str.ofZ (currentYear - 1))
  | _ => found
  end.

(** One round of [foundYears.forEach]: the state is [closestYear] and
    [closestDistance], [None] being [Infinity]. *)
Definition closer (text : string) (matchIndex : Z)
           (st : string * option Z) (year : string) : string * option Z :=
  let yearIndex := Str.indexOf text year (Z.max 0 (matchIndex - 200)) in
  if negb (yearIndex =? -1)%Z then
    let distance := Z.abs (yearIndex - matchIndex) in
    let below :=
      match snd st with
      | None => true
      | Some closestDistance => (distance <? closestDistance)%Z
      end in
    if below && (distance <? 300)%Z then (year, Some distance) else st
  else st.

(** [Array.from(foundYears)[0]]; [foundYears] is never empty. *)
Definition firstYear (years : list string) : string := hd EmptyString years.

Definition closestYear (text : string) (years : list string)
           (matchIndex : Z) : string :=
  fst (fold_left (closer text matchIndex) years (firstYear years, None)).

Definition locationOf (fileName : string) (matchIndex : Z) : string :=
  let extension := Str.extensionOf fileName in
  if String.eqb extension "pdf" then
    ("PDF page " ++ Str.ofZ (matchIndex / 2000 + 1))%string
  else if String.eqb extension "xlsx" then "Excel worksheet"
  else if String.eqb extension "docx" then "Word document"
  else "Document content".

Definition baseConfidence : number := ofRatio 85 100.

(** The body of the [while] loop for one match: the figure pushed, or
    [None] when the match is rejected. *)
Definition figureOfMatch (text fileName : string) (years : list string)
           (category field : string) (m : rmatch) : option ExtractedFigure.t :=
  let valueStr := Str.removeCommas (capture m) in
  let value := parseFloat valueStr in
  if negb (isNaN value) && gtb value zero then
    let matchIndex := Z.of_nat (index m) in
    Some {| category := category;
            year := closestYear text years matchIndex;
            value := value;
            label := field;
            documentName := fileName;
            location := locationOf fileName matchIndex;
            confidence := baseConfidence |}
  else None.

Fixpoint somes {A : Type} (l : list (option A)) : list A :=
  match l with
  | [] => []
  | Some a :: l' => a :: somes l'
  | None :: l' => somes l'
  end.

Definition figuresOfPattern (text fileName : string) (years : list string)
           (category field : string) (pattern : regex) : list ExtractedFigure.t :=
  somes (map (figureOfMatch text fileName years category field)
             (execAll pattern text)).

Definition extractFinancialFigures (currentYear : Z) (text fileName : string)
  : list ExtractedFigure.t :=
  let years := foundYears currentYear text in
  flat_map (fun e =>
    flat_map (figuresOfPattern text fileName years (e_category e) (e_field e))
             (e_patterns e))
    patterns.

End AnalysisEngine.

(* ================================================================== *)
(** * The comparator of CrossCheckReport and App.generateComparisons *)
(* ================================================================== *)

Module Comparator.

Import DocumentAnalysis ComparisonResult CrossCheckReport.

(** [analysis.extractedFigures.find(f => f.label === field && f.year === year)] *)
Definition matches (field year : string) (f : ExtractedFigure.t) : bool :=
  String.eqb (ExtractedFigure.label f) field &&
  String.eqb (ExtractedFigure.year f) year.

Definition findFigure (analysis : DocumentAnalysis.t) (field year : string)
  : option ExtractedFigure.t :=
  find (matches field year) (extractedFigures analysis).

(** The labels and the years of all figures of all documents, in order
    of first appearance. *)
Definition allFigures (analyses : list DocumentAnalysis.t) : list ExtractedFigure.t :=
  flat_map extractedFigures analyses.

Definition allFields (analyses : list DocumentAnalysis.t) : list string :=
  JSet.ofList String.eqb (map ExtractedFigure.label (allFigures analyses)).

Definition allYears (analyses : list DocumentAnalysis.t) : list string :=
  JSet.ofList String.eqb (map ExtractedFigure.year (allFigures analyses)).

(** One round of the inner [analyses.forEach]: the state is the
    [values] object and the variable [category]. *)
Definition visit (field year : string)
           (st : Obj.dict number * string) (analysis : DocumentAnalysis.t)
  : Obj.dict number * string :=
  let figure := findFigure analysis field year in
  (Obj.assign (fst st) (fileName analysis)
              (option_map ExtractedFigure.value figure),
   match figure with
   | Some f => ExtractedFigure.category f
   | None => snd st
   end).

Definition gather (analyses : list DocumentAnalysis.t) (field year : string)
  : Obj.dict number * string :=
  fold_left (visit field year) analyses (Obj.fresh, "Income Statement").

(** [Object.values(values).filter(v => v !== null)] *)
Definition nonNullValues (values : Obj.dict number) : list number :=
  AnalysisEngine.somes (Obj.values (Obj.props values)).

(** The comparison pushed for one field and one year, if any. *)
Definition compareOne (analyses : list DocumentAnalysis.t) (field year : string)
  : option ComparisonResult.t :=
  let '(values, category) := gather analyses field year in
  let nonNull := nonNullValues values in
  if (2 <=? List.length nonNull)%nat then
    let uniqueValues := JSet.ofList sameValueZero nonNull in
    Some {| year := year;
            field := field;
            values := values;
            consistent := (List.length uniqueValues =? 1)%nat;
            category := category |}
  else None.

(** [generateComparisons] of App.tsx; the report of CrossCheckReport
    builds its [comparisons] with the same statements. *)
Definition generateComparisons (analyses : list DocumentAnalysis.t)
  : list ComparisonResult.t :=
  flat_map (fun field =>
    AnalysisEngine.somes (map (compareOne analyses field) (allYears analyses)))
    (allFields analyses).

Section Report.
(** [Number.prototype.toLocaleString] of the host, which depends on
    its locale. *)
Variable toLocaleString : number -> string.

Fixpoint join (sep : string) (l : list string) : string :=
  match l with
  | [] => EmptyString
  | [x] => x
  | x :: l' => (x ++ sep ++ join sep l')%string
  end.

Definition present (e : string * option number) : option (string * number) :=
  match snd e with
  | Some v => Some (fst e, v)
  | None => None
  end.

Definition describe (c : ComparisonResult.t) : string :=
  let docValues :=
    join ", "
      (map (fun e => (fst e ++ ": $" ++ toLocaleString (snd e))%string)
           (AnalysisEngine.somes
              (map present (Obj.entries (Obj.props (values c)))))) in
  (field c ++ " for " ++ year c ++ " differs (" ++ docValues ++ ")")%string.

Definition report (analyses : list DocumentAnalysis.t) : CrossCheckReport.t :=
  let comparisons := generateComparisons analyses in
  let totalComparisons := List.length comparisons in
  let consistentCount := List.length (filter consistent comparisons) in
  let discrepancyCount := totalComparisons - consistentCount in
  let keyDiscrepancies :=
    map describe
        (firstn 5 (filter (fun c => negb (consistent c)) comparisons)) in
  let consistentSections :=
    JSet.ofList String.eqb (map category (filter consistent comparisons)) in
  {| documentAnalyses := analyses;
     comparisons := comparisons;
     summary := {| totalComparisons := totalComparisons;
                   consistentCount := consistentCount;
                   discrepancyCount := discrepancyCount;
                   keyDiscrepancies := keyDiscrepancies;
                   consistentSections := consistentSections |} |}.
End Report.

End Comparator.

(* ================================================================== *)
(** * The callback of the report, statement by statement *)
(* ================================================================== *)

(** The callback of [useMemo] in CrossCheckReport.tsx (lines 18 to 96)
    as the statements it runs on a store that outlives the call: the
    variables it declares are cells of the store, written by their
    declaration, and the object of a [values] literal lives in a heap,
    where a pushed comparison refers to it by its address. Arrays and
    sets are kept by value in their cell. [Comparator.report] above is
    the same callback as a function of the analyses. *)
Module Memo.

Import DocumentAnalysis.

(** The objects created by [{}], by address. *)
Module Heap.
Definition t : Type := list (Obj.dict number).

Definition alloc (h : t) : t * nat := (h ++ [Obj.fresh], List.length h).

Definition read (h : t) (a : nat) : Obj.dict number := nth a h Obj.fresh.

Fixpoint write (h : t) (a : nat) (d : Obj.dict number) : t :=
  match h, a with
  | [], _ => []
  | _ :: h', O => d :: h'
  | x :: h', S a' => x :: write h' a' d
  end.
End Heap.

(** The object pushed to [comparisons]: [values] is a reference. *)
Record pushed : Type := {
  p_year : string;
  p_field : string;
  p_values : nat;
  p_consistent : bool;
  p_category : string;
}.

Record store : Type := {
  heap : Heap.t;
  comparisons : list pushed;      (* const comparisons *)
  allFields : list string;        (* const allFields *)
  allYears : list string;         (* const allYears *)
  values : nat;                   (* const values, a reference *)
  category : string;              (* let category *)
}.

(** Lines 20 to 22: the three declarations. *)
Definition declare (s : store) : store :=
  {| heap := heap s; comparisons := []; allFields := []; allYears := [];
     values := values s; category := category s |}.

(** Lines 27 and 28 *)
Definition addFigure (s : store) (figure : ExtractedFigure.t) : store :=
  {| heap := heap s; comparisons := comparisons s;
     allFields := JSet.add String.eqb (allFields s) (ExtractedFigure.label figure);
     allYears := JSet.add String.eqb (allYears s) (ExtractedFigure.year figure);
     values := values s; category := category s |}.

(** Lines 25 to 30 *)
Definition collect (analyses : list DocumentAnalysis.t) (s : store) : store :=
  fold_left (fun s analysis => fold_left addFigure (extractedFigures analysis) s)
            analyses s.

(** Lines 35 and 36: [const values = {}] and [let category]. *)
Definition enter (s : store) : store :=
  let '(h, a) := Heap.alloc (heap s) in
  {| heap := h; comparisons := comparisons s;
     allFields := allFields s; allYears := allYears s;
     values := a; category := "Income Statement" |}.

(** Lines 39 to 43 *)
Definition visit (field year : string) (s : store)
           (analysis : DocumentAnalysis.t) : store :=
  let figure := Comparator.findFigure analysis field year in
  {| heap :=
       Heap.write (heap s) (values s)
         (Obj.assign (Heap.read (heap s) (values s)) (fileName analysis)
                     (option_map ExtractedFigure.value figure));
     comparisons := comparisons s;
     allFields := allFields s; allYears := allYears s;
     values := values s;
     category := match figure with
                 | Some f => ExtractedFigure.category f
                 | None => category s
                 end |}.

(** Lines 47 to 59 *)
Definition push (field year : string) (s : store) : store :=
  let nonNullValues :=
    Comparator.nonNullValues (Heap.read (heap s) (values s)) in
  if (2 <=? List.length nonNullValues)%nat then
    let uniqueValues := JSet.ofList sameValueZero nonNullValues in
    {| heap := heap s;
       comparisons :=
         comparisons s ++
         [ {| p_year := year; p_field := field; p_values := values s;
              p_consistent := (List.length uniqueValues =? 1)%nat;
              p_category := category s |} ];
       allFields := allFields s; allYears := allYears s;
       values := values s; category := category s |}
  else s.

(** The body of the inner callback, lines 35 to 59. *)
Definition compare (analyses : list DocumentAnalysis.t) (field year : string)
           (s : store) : store :=
  push field year (fold_left (visit field year) analyses (enter s)).

(** Lines 33 to 61 *)
Definition compareAll (analyses : list DocumentAnalysis.t) (s : store) : store :=
  fold_left
    (fun s field =>
       fold_left (fun s year => compare analyses field year s) (allYears s) s)
    (allFields s) s.

(** The object returned, its comparisons still references. *)
Record returned : Type := {
  r_documentAnalyses : list DocumentAnalysis.t;
  r_comparisons : list pushed;
  r_summary : CrossCheckReport.summary_t;
}.

(** A pushed comparison read in a heap. *)
Definition load (h : Heap.t) (p : pushed) : ComparisonResult.t :=
  {| ComparisonResult.year := p_year p;
     ComparisonResult.field := p_field p;
     ComparisonResult.values := Heap.read h (p_values p);
     ComparisonResult.consistent := p_consistent p;
     ComparisonResult.category := p_category p |}.

Section Run.
Variable toLocaleString : number -> string.

(** Lines 64 to 83 *)
Definition summarize (s : store) : CrossCheckReport.summary_t :=
  let totalComparisons := List.length (comparisons s) in
  let consistentCount := List.length (filter p_consistent (comparisons s)) in
  {| CrossCheckReport.totalComparisons := totalComparisons;
     CrossCheckReport.consistentCount := consistentCount;
     CrossCheckReport.discrepancyCount := totalComparisons - consistentCount;
     CrossCheckReport.keyDiscrepancies :=
       map (fun p => Comparator.describe toLocaleString (load (heap s) p))
           (firstn 5 (filter (fun p => negb (p_consistent p)) (comparisons s)));
     CrossCheckReport.consistentSections :=
       JSet.ofList String.eqb (map p_category (filter p_consistent (comparisons s))) |}.

(** One call of the callback: the store it leaves and what it
    returns. *)
Definition run (analyses : list DocumentAnalysis.t) (s : store)
  : store * returned :=
  let s' := compareAll analyses (collect analyses (declare s)) in
  (s', {| r_documentAnalyses := analyses;
          r_comparisons := comparisons s';
          r_summary := summarize s' |}).
End Run.

(** What a returned report shows in a heap. *)
Definition view (h : Heap.t) (r : returned) : CrossCheckReport.t :=
  {| CrossCheckReport.documentAnalyses := r_documentAnalyses r;
     CrossCheckReport.comparisons := map (load h) (r_comparisons r);
     CrossCheckReport.summary := r_summary r |}.

End Memo.


(* ================================================================== *)
(** * The external collaborators *)
(* ================================================================== *)

Module World.

(** What the code reads of a browser [File]. *)
Record File : Type := {
  name : string;
  size : Z;
  type : string;
}.

(** The outcome of a call that may throw; [Throws] carries the message
    of the error. *)
Inductive outcome (A : Type) : Type :=
| Returns (a : A)
| Throws (message : string).
Arguments Returns {A} a.
Arguments Throws {A} message.

(** The storage and data services of the platform client, and the
    clock. *)
Record t : Type := {
  currentYear : Z;                              (* new Date().getFullYear() *)
  upload : File -> outcome string;              (* storage.upload, to publicUrl *)
  extractFromUrl : string -> outcome string;    (* data.extractFromUrl *)
  extractFromBlob : File -> outcome string;     (* data.extractFromBlob *)
}.

(** The calls made to the collaborators, in order. *)
Inductive event : Type :=
| Upload (file : File)
| ExtractFromUrl (url : string)
| ExtractFromBlob (file : File).

(** A computation that logs its calls and may throw. *)
Definition M (A : Type) : Type := list event * outcome A.

Definition ret {A} (a : A) : M A := ([], Returns a).
Definition throw {A} (message : string) : M A := ([], Throws message).

Definition bind {A B} (m : M A) (f : A -> M B) : M B :=
  match m with
  | (log, Returns a) => let '(log', r) := f a in (log ++ log', r)
  | (log, Throws e) => (log, Throws e)
  end.

(** [try { m } catch (e) { handler e }] *)
Definition tryCatch {A} (m : M A) (handler : string -> M A) : M A :=
  match m with
  | (log, Throws e) => let '(log', r) := handler e in (log ++ log', r)
  | _ => m
  end.

Definition call {A} (ev : event) (result : outcome A) : M A := ([ev], result).

Definition callUpload (w : t) (file : File) : M string :=
  call (Upload file) (upload w file).
Definition callExtractFromUrl (w : t) (url : string) : M string :=
  call (ExtractFromUrl url) (extractFromUrl w url).
Definition callExtractFromBlob (w : t) (file : File) : M string :=
  call (ExtractFromBlob file) (extractFromBlob w file).

Module Notations.
Notation "x <- m ;; k" := (bind m (fun x => k))
  (at level 61, m at next level, right associativity).
Notation "'ensure' b 'orThrow' msg ;; k" :=
  (bind (if b then ret tt else throw msg) (fun _ => k))
  (at level 61, b at next level, msg at next level, right associativity).
End Notations.

End World.

(* ================================================================== *)
(** * The aggregator of AnalysisEngine: analyzeDocument *)
(* ================================================================== *)

Module Aggregator.

Import World World.Notations DocumentAnalysis.

Definition supported (extension : string) : bool :=
  existsb (String.eqb extension) ["pdf"; "docx"; "xlsx"].

(** The text of the document: the URL method first (upload, then
    extraction from the public URL), the blob method when it throws. *)
Definition extractText (w : World.t) (file : File) : M string :=
  tryCatch
    (publicUrl <- callUpload w file ;;
     callExtractFromUrl w publicUrl)
    (fun urlError =>
       tryCatch
         (callExtractFromBlob w file)
         (fun blobError =>
            throw ("Unable to extract content from " ++ name file ++
                   ". The file may be corrupted, password-protected, or contain only images. Please ensure the file contains readable text content.")%string)).

(** The object returned at the end of the [try] block, for the text
    extracted. *)
Definition analysisOf (w : World.t) (file : File) (extractedText : string)
  : DocumentAnalysis.t :=
  let figures :=
    AnalysisEngine.extractFinancialFigures (currentYear w) extractedText (name file) in
  {| fileName := name file;
     extractedFigures := figures;
     extractionStatus := if (0 <? List.length figures)%nat then success else partial;
     errorMessage :=
       if (List.length figures =? 0)%nat
       then Some "No financial figures found in document. Please ensure the document contains financial data with clear labels and values."
       else None |}.

(** The body of the outer [try] block. *)
Definition analyzeBody (w : World.t) (file : File) : M DocumentAnalysis.t :=
  ensure negb (size file =? 0)%Z
    orThrow ("Invalid file: " ++ name file ++ " - file is empty or corrupted")%string ;;
  ensure negb (50 * 1024 * 1024 <? size file)%Z
    orThrow ("File too large: " ++ name file ++ " - maximum size is 50MB")%string ;;
  let extension := Str.extensionOf (name file) in
  ensure supported extension
    orThrow ("Unsupported file type: " ++ extension ++
             " - only PDF, DOCX, and XLSX files are supported")%string ;;
  extractedText <- extractText w file ;;
  ensure negb (Str.isBlank extractedText)
    orThrow ("No readable text content found in " ++ name file ++
             ". The document may be empty, corrupted, or contain only images.")%string ;;
  ret (analysisOf w file extractedText).

(** [analyzeDocument]: the calls made and the analysis returned; the
    [catch] clause turns any error into a failed analysis. *)
Definition analyzeDocument (w : World.t) (file : File)
  : list event * DocumentAnalysis.t :=
  match analyzeBody w file with
  | (log, Returns analysis) => (log, analysis)
  | (log, Throws message) =>
      (log, {| fileName := name file;
               extractedFigures := [];
               extractionStatus := failed;
               errorMessage := Some message |})
  end.

(** [startAnalysis]: the documents one after the other. *)
Definition startAnalysis (w : World.t) (files : list File)
  : list event * list DocumentAnalysis.t :=
  fold_left (fun acc file =>
               let '(log, analysis) := analyzeDocument w file in
               (fst acc ++ log, snd acc ++ [analysis]))
            files ([], []).

End Aggregator.

(* ================================================================== *)
(** * AnalysisDashboard: the second extractor (confidence 0.9), its
      aggregator and its comparator *)
(* ================================================================== *)

Module Dashboard.

Import World World.Notations.

(** The figure of this variant has no label: the category is the line
    item. Its type declaration is not part of the sources at hand; the
    fields are those of the object literal the extractor pushes. *)
Module Figure.
Record t : Type := {
  category : string;
  value : number;
  year : string;
  documentName : string;
  location : string;
  confidence : number;
}.
End Figure.
Import Figure.

(** [/word[:\s]+\$?([\d,]+)/i] *)
Definition pat (word : string) : regex :=
  litI word (Cat (Plus sep) (Cat (Opt (chr "$")) (Group (Plus digitComma)))).

(** [/word[:\s\w]*\$?([\d,]+)/i] *)
Definition patLoose (word : string) : regex :=
  litI word (Cat (Star sepWord) (Cat (Opt (chr "$")) (Group (Plus digitComma)))).

Definition financialPatterns : list (string * list regex) :=
  [ ("Revenue", [pat "revenue"; pat "sales"; pat "total revenue"]);
    ("EBITDA", [pat "ebitda"; patLoose "earnings before"]);
    ("Net Income", [pat "net income"; pat "net profit"; pat "profit"]);
    ("Total Assets", [pat "total assets"; pat "assets"]);
    ("Total Liabilities", [pat "total liabilities"; pat "liabilities"]);
    ("Cash Flow", [pat "cash flow"; pat "operating cash flow"]) ].

(** [[...new Set(yearMatches)].sort().reverse()] *)
Definition yearsOf (text : string) : list string :=
  rev (Str.sort (JSet.ofList String.eqb (map whole (execAll Regex.year text)))).

Definition highConfidence : number := ofRatio 9 10.

(** The body of [patterns.forEach] for one pattern: the figure pushed,
    if any. *)
Definition figureOfPattern (text fileName : string) (years : list string)
           (category : string) (pattern : regex) : option Figure.t :=
  match firstMatch pattern text with
  | Some matches =>
      if negb (String.eqb (capture matches) EmptyString) then
        let value := parseFloat (Str.removeCommas (capture matches)) in
        if negb (isNaN value) then
          let matchIndex := Str.indexOf text (whole matches) 0 in
          let contextBefore :=
            Str.substring text (Z.max 0 (matchIndex - 100)) matchIndex in
          let contextAfter :=
            Str.substring text matchIndex
              (Z.min (Z.of_nat (String.length text)) (matchIndex + 100)) in
          let context := (contextBefore ++ whole matches ++ contextAfter)%string in
          let year :=
            match firstMatch Regex.year context with
            | Some yearInContext => whole yearInContext
            | None => hd "2024" years
            end in
          Some {| category := category;
                  value := value;
                  year := year;
                  documentName := fileName;
                  location := "Found in document text";
                  confidence := highConfidence |}
        else None
      else None
  | None => None
  end.

Definition extractFinancialFigures (text fileName : string) : list Figure.t :=
  let years := yearsOf text in
  flat_map (fun cp =>
    AnalysisEngine.somes
      (map (figureOfPattern text fileName years (fst cp)) (snd cp)))
    financialPatterns.

(** ** The report *)

Record DocValue : Type := {
  dv_documentName : string;
  dv_value : number;
  dv_location : string;
}.

Record Discrepancy : Type := {
  d_category : string;
  d_year : string;
  d_values : list DocValue;
  d_status : string;
  d_variance : number;
  d_suggestion : string;
}.

Record Match : Type := {
  m_category : string;
  m_year : string;
  m_value : number;
  m_documents : list string;
  m_status : string;
}.

Record Summary : Type := {
  totalDocuments : nat;
  totalFiguresFound : nat;
  discrepancyCount : nat;
  matchCount : nat;
  consistencyScore : number;
}.

(** The fields [id] and [createdAt], two readings of the clock, are
    left out. *)
Record AnalysisReport : Type := {
  documentNames : list string;
  extractedFigures : Obj.t (list Figure.t);
  discrepancies : list Discrepancy;
  matches : list Match;
  summary : Summary;
}.

(** The sample text used when both extraction methods throw, for the
    document at position [i]. *)
Definition nl : string := String (ascii_of_nat 10) EmptyString.
Definition indent : string := "              ".

Definition sampleText (i : nat) (fileName : string) : string :=
  let n (base step : N) := Str.ofN (base + N.of_nat i * step) in
  ("Sample Financial Data for " ++ fileName ++ ":" ++ nl ++
   indent ++ "Revenue: " ++ n 1200000%N 20000%N ++ " (2024)" ++ nl ++
   indent ++ "EBITDA: " ++ n 300000%N 5000%N ++ " (2024)" ++ nl ++
   indent ++ "Net Income: " ++ n 150000%N 3000%N ++ " (2024)" ++ nl ++
   indent ++ "Total Assets: " ++ n 2500000%N 50000%N ++ " (2024)" ++ nl ++
   indent ++ "Total Liabilities: " ++ n 1000000%N 10000%N ++ " (2024)" ++ nl ++
   indent ++ "Cash Flow: " ++ n 200000%N 8000%N ++ " (2024)")%string.

(** Steps 1 and 2 of the loop body: upload, then the text by URL, by
    blob when that throws, the sample text when that throws too. *)
Definition extractText (w : World.t) (i : nat) (file : File) : M string :=
  publicUrl <- callUpload w file ;;
  tryCatch
    (callExtractFromUrl w publicUrl)
    (fun extractError =>
       tryCatch
         (callExtractFromBlob w file)
         (fun blobError => ret (sampleText i (name file)))).

(** The [for] loop: [allExtractedData] after the documents from
    position [i] on. *)
Fixpoint extractAll (w : World.t) (i : nat) (files : list File)
         (allExtractedData : Obj.t (list Figure.t)) : M (Obj.t (list Figure.t)) :=
  match files with
  | [] => ret allExtractedData
  | file :: files' =>
      extractedText <- extractText w i file ;;
      let figures := extractFinancialFigures extractedText (name file) in
      extractAll w (S i) files' (Obj.setObject allExtractedData (name file) figures)
  end.

Definition figuresOf (data : Obj.t (list Figure.t)) : list Figure.t :=
  flat_map (fun x => x) (Obj.values data).

Definition allCategories (data : Obj.t (list Figure.t)) : list string :=
  JSet.ofList String.eqb (map category (figuresOf data)).

Definition allYears (data : Obj.t (list Figure.t)) : list string :=
  JSet.ofList String.eqb (map year (figuresOf data)).

(** [figuresForCategoryYear]: for each document that has one, its
    first figure of the category and the year. *)
Definition figuresForCategoryYear (data : Obj.t (list Figure.t))
           (cat yr : string) : list (string * Figure.t) :=
  AnalysisEngine.somes
    (map (fun e =>
            match find (fun f => String.eqb (category f) cat &&
                                 String.eqb (year f) yr) (snd e) with
            | Some figure => Some (fst e, figure)
            | None => None
            end)
         (Obj.entries data)).

Section Compare.
Variable toLocaleString : number -> string.

Definition mkMatch (cat yr : string) (found : list (string * Figure.t))
           (uniqueValues : list number) : Match :=
  {| m_category := cat;
     m_year := yr;
     m_value := hd NaN uniqueValues;
     m_documents := map fst found;
     m_status := "match" |}.

Definition mkDiscrepancy (cat yr : string) (found : list (string * Figure.t))
  : Discrepancy :=
  let values := map (fun item => value (snd item)) found in
  let variance := sub (Num.max values) (Num.min values) in
  {| d_category := cat;
     d_year := yr;
     d_values :=
       map (fun item => {| dv_documentName := fst item;
                           dv_value := value (snd item);
                           dv_location := location (snd item) |}) found;
     d_status := "discrepancy";
     d_variance := variance;
     d_suggestion :=
       (cat ++ " (" ++ yr ++ ") values differ across documents. Range: " ++
        toLocaleString (Num.min values) ++ " - " ++
        toLocaleString (Num.max values) ++ " (variance: " ++
        toLocaleString variance ++
        "). Please verify which figure is correct.")%string |}.

(** What one category and one year add to the report: a match, a
    discrepancy, or nothing. *)
Inductive finding : Type :=
| FoundMatch (m : Match)
| FoundDiscrepancy (d : Discrepancy)
| Nothing.

Definition compareOne (data : Obj.t (list Figure.t)) (cat yr : string) : finding :=
  let found := figuresForCategoryYear data cat yr in
  if (1 <? List.length found)%nat then
    let values := map (fun item => value (snd item)) found in
    let uniqueValues := JSet.ofList sameValueZero values in
    if (List.length uniqueValues =? 1)%nat
    then FoundMatch (mkMatch cat yr found uniqueValues)
    else FoundDiscrepancy (mkDiscrepancy cat yr found)
  else Nothing.

Definition findings (data : Obj.t (list Figure.t)) : list finding :=
  flat_map (fun cat => map (compareOne data cat) (allYears data))
           (allCategories data).

Fixpoint discrepanciesOf (l : list finding) : list Discrepancy :=
  match l with
  | [] => []
  | FoundDiscrepancy d :: l' => d :: discrepanciesOf l'
  | _ :: l' => discrepanciesOf l'
  end.

Fixpoint matchesOf (l : list finding) : list Match :=
  match l with
  | [] => []
  | FoundMatch m :: l' => m :: matchesOf l'
  | _ :: l' => matchesOf l'
  end.

(** What [analyzeDocuments] ends with: the report handed to
    [onAnalysisComplete], or the error message shown instead. *)
Inductive result : Type :=
| Completed (report : AnalysisReport)
| Failed (error : string).

Definition buildReport (files : list File) (data : Obj.t (list Figure.t))
  : result :=
  let totalFigures := List.length (figuresOf data) in
  if (totalFigures =? 0)%nat then
    Failed ("No financial figures were found in the uploaded documents. Please ensure your documents contain financial data such as Revenue, EBITDA, Net Income, Assets, Liabilities, or Cash Flow figures." ++
            nl ++ "        " ++ nl ++ "        Documents processed: " ++
            Comparator.join ", " (map name files))%string
  else
    let found := findings data in
    let discrepancies := discrepanciesOf found in
    let matches := matchesOf found in
    let nm := ofNat (List.length matches) in
    let nd := ofNat (List.length discrepancies) in
    Completed
      {| documentNames := map name files;
         extractedFigures := data;
         discrepancies := discrepancies;
         matches := matches;
         summary :=
           {| totalDocuments := List.length files;
              totalFiguresFound := totalFigures;
              discrepancyCount := List.length discrepancies;
              matchCount := List.length matches;
              consistencyScore := mul (div nm (add nm nd)) (ofZ 100) |} |}.

Definition analyzeDocuments (w : World.t) (files : list File)
  : list event * result :=
  match extractAll w 0 files Obj.empty with
  | (log, Returns data) => (log, buildReport files data)
  | (log, Throws _) =>
      (log, Failed "Analysis failed. Please try again or contact support if the issue persists.")
  end.

(** [Math.round(report.summary.consistencyScore || 0)] of
    DiscrepancyReport, before rounding. *)
Definition shownScore (s : Summary) : number :=
  if truthy (consistencyScore s) then consistencyScore s else zero.
End Compare.

End Dashboard.




(* ================================================================== *)
(** * The earlier analyzeDocument (the AnalysisEngine of part_000) *)
(* ================================================================== *)

(** The same component in an earlier state: no check of the file, the
    upload outside the inner [try], shorter messages. Its extractor is
    the one of [AnalysisEngine]. *)
Module Legacy.

Import World World.Notations DocumentAnalysis.

Definition extractText (w : World.t) (file : File) (publicUrl : string) : M string :=
  tryCatch
    (callExtractFromUrl w publicUrl)
    (fun urlError =>
       tryCatch
         (callExtractFromBlob w file)
         (fun blobError =>
            throw ("Failed to extract content from " ++ name file)%string)).

Definition analysisOf (w : World.t) (file : File) (extractedText : string)
  : DocumentAnalysis.t :=
  let figures :=
    AnalysisEngine.extractFinancialFigures (currentYear w) extractedText (name file) in
  {| fileName := name file;
     extractedFigures := figures;
     extractionStatus := if (0 <? List.length figures)%nat then success else partial;
     errorMessage :=
       if (List.length figures =? 0)%nat
       then Some "No financial figures found in document"
       else None |}.

Definition analyzeBody (w : World.t) (file : File) : M DocumentAnalysis.t :=
  publicUrl <- callUpload w file ;;
  extractedText <- extractText w file publicUrl ;;
  ensure negb (Str.isBlank extractedText)
    orThrow ("No text content found in " ++ name file)%string ;;
  ret (analysisOf w file extractedText).

Definition analyzeDocument (w : World.t) (file : File)
  : list event * DocumentAnalysis.t :=
  match analyzeBody w file with
  | (log, Returns analysis) => (log, analysis)
  | (log, Throws message) =>
      (log, {| fileName := name file;
               extractedFigures := [];
               extractionStatus := failed;
               errorMessage := Some message |})
  end.

End Legacy.

(* ================================================================== *)
(** * DocumentUpload: the list of files *)
(* ================================================================== *)

Module Upload.

Import World.

(** ** src/components/upload/DocumentUpload.tsx *)

Definition hasSupportedExtension (file : File) : bool :=
  Aggregator.supported (Str.extensionOf (name file)).

(** [handleFileSelect] and [handleDrop]: the list handed to
    [onFilesChange]. *)
Definition handleFileSelect (files selectedFiles : list File) : list File :=
  let validFiles := filter hasSupportedExtension selectedFiles in
  files ++ validFiles.

Definition handleDrop (files droppedFiles : list File) : list File :=
  let validFiles := filter hasSupportedExtension droppedFiles in
  files ++ validFiles.

(** [files.filter((_, i) => i !== index)], with [i] the position of the
    head of [files]. *)
Fixpoint dropIndex (i index : nat) (files : list File) : list File :=
  match files with
  | [] => []
  | file :: files' =>
      if (i =? index)%nat then dropIndex (S i) index files'
      else file :: dropIndex (S i) index files'
  end.

Definition removeFile (files : list File) (index : nat) : list File :=
  dropIndex 0 index files.

(** ** The later DocumentUpload (part_001) *)

Definition isDuplicate (files : list File) (file : File) : bool :=
  existsb (fun existingFile =>
             String.eqb (name existingFile) (name file) &&
             (size existingFile =? size file)%Z)
          files.

(** The callback of [selectedFiles.filter]. *)
Definition accepts (files : list File) (file : File) : bool :=
  if (size file =? 0)%Z then false
  else if (50 * 1024 * 1024 <? size file)%Z then false
  else if negb (Aggregator.supported (Str.extensionOf (name file))) then false
  else if isDuplicate files file then false
  else true.

(** The list of files after [handleFileSelect] or [handleDrop]:
    [onFilesChange] is only called when a file is accepted. *)
Definition addFiles (files selectedFiles : list File) : list File :=
  let validFiles := filter (accepts files) selectedFiles in
  if (0 <? List.length validFiles)%nat then files ++ validFiles else files.

End Upload.

(* ================================================================== *)
(** * App: notifications and exports *)
(* ================================================================== *)

Module App.

Import World DocumentAnalysis ComparisonResult.

Record Toast : Type := {
  title : string;
  description : string;
  destructive : bool;
}.

(** ** handleFilesChange *)

Definition isInvalid (file : File) : bool :=
  negb (Aggregator.supported (Str.extensionOf (name file))) ||
  (size file =? 0)%Z ||
  (50 * 1024 * 1024 <? size file)%Z.

Definition invalidFiles (newFiles : list File) : list File :=
  filter isInvalid newFiles.

Definition ofCount (n : nat) : string := Str.ofN (N.of_nat n).

(** The toast of [handleFilesChange], if any. *)
Definition filesWarning (newFiles : list File) : option Toast :=
  if (0 <? List.length (invalidFiles newFiles))%nat then
    Some {| title := "File Validation Warning";
            description :=
              (ofCount (List.length (invalidFiles newFiles)) ++
               " file(s) may have issues. Check console for details.")%string;
            destructive := true |}
  else None.

(** ** handleStartAnalysis: whether the analysis starts. *)
Definition handleStartAnalysis (files : list File) : bool :=
  negb (List.length files <? 2)%nat.

(** ** handleAnalysisComplete *)

Definition hasStatus (st : ExtractionStatus) (r : DocumentAnalysis.t) : bool :=
  match extractionStatus r, st with
  | success, success | partial, partial | failed, failed => true
  | _, _ => false
  end.

Definition successCount (results : list DocumentAnalysis.t) : nat :=
  List.length (filter (hasStatus success) results).
Definition partialCount (results : list DocumentAnalysis.t) : nat :=
  List.length (filter (hasStatus partial) results).
Definition failedCount (results : list DocumentAnalysis.t) : nat :=
  List.length (filter (hasStatus failed) results).

Definition handleAnalysisComplete (results : list DocumentAnalysis.t) : Toast :=
  let totalCount := List.length results in
  if (successCount results =? 0)%nat && (partialCount results =? 0)%nat then
    {| title := "Analysis Failed";
       description :=
         ("Unable to extract financial data from any of the " ++ ofCount totalCount ++
          " documents. Please check that your files contain readable financial information.")%string;
       destructive := true |}
  else if (0 <? failedCount results)%nat then
    {| title := "Analysis Partially Complete";
       description :=
         ("Successfully processed " ++
          ofCount (successCount results + partialCount results) ++ " of " ++
          ofCount totalCount ++ " documents. " ++ ofCount (failedCount results) ++
          " documents failed to process.")%string;
       destructive := true |}
  else
    {| title := "Analysis Complete";
       description :=
         ("Successfully analyzed " ++ ofCount (successCount results) ++ " of " ++
          ofCount totalCount ++
          " documents with financial data extracted.")%string;
       destructive := false |}.

(** ** generateCSVContent and generateReportContent *)

Fixpoint mapM {A B} (f : A -> outcome B) (l : list A) : outcome (list B) :=
  match l with
  | [] => Returns []
  | a :: l' =>
      match f a with
      | Returns b =>
          match mapM f l' with
          | Returns bs => Returns (b :: bs)
          | Throws e => Throws e
          end
      | Throws e => Throws e
      end
  end.

Definition quote : string := String (ascii_of_nat 34) EmptyString.
Definition quoted (s : string) : string := (quote ++ s ++ quote)%string.
Definition yesNo (b : bool) : string := if b then "Yes" else "No".

Section Exports.
(** [Number.prototype.toString] and [toLocaleString] of the host, the
    text of [new Date().toLocaleString()], and the bullet that starts a
    key discrepancy, a character outside the code units of the
    embedding. [inheritedText name] is the text of
    [Object.prototype[name].toString()], which is [[object Object]] for
    [__proto__] and the host's rendering of a native function for the
    other names. *)
Variable numberToString : number -> string.
Variable toLocaleString : number -> string.
Variable now : string.
Variable bullet : string.
Variable inheritedText : string -> string.

(** [c.values[name] !== null ? c.values[name]!.toString() : ''], which
    throws when [c.values[name]] is [undefined]. *)
Definition csvCell (c : ComparisonResult.t) (name : string) : outcome string :=
  match Obj.lookup (values c) name with
  | Obj.Own (Some v) => Returns (numberToString v)
  | Obj.Own None => Returns EmptyString
  | Obj.Inherited => Returns (inheritedText name)
  | Obj.Undefined =>
      Throws "TypeError: Cannot read properties of undefined (reading 'toString')"
  end.

Definition csvHeader (documentNames : list string) : list string :=
  ["Year"; "Field"; "Category"] ++ documentNames ++ ["Consistent"].

Definition csvRow (documentNames : list string) (c : ComparisonResult.t)
  : outcome (list string) :=
  match mapM (csvCell c) documentNames with
  | Returns cells =>
      Returns ([ComparisonResult.year c; quoted (field c); quoted (category c)]
               ++ cells ++ [yesNo (consistent c)])
  | Throws e => Throws e
  end.

(** The rows of the file, the header first, before they are joined. *)
Definition csvRows (analyses : list DocumentAnalysis.t) : outcome (list (list string)) :=
  let documentNames := map fileName analyses in
  match mapM (csvRow documentNames) (Comparator.generateComparisons analyses) with
  | Returns rows => Returns (csvHeader documentNames :: rows)
  | Throws e => Throws e
  end.

Definition nl : string := String (ascii_of_nat 10) EmptyString.

Definition generateCSVContent (analyses : list DocumentAnalysis.t) : outcome string :=
  match csvRows analyses with
  | Returns rows => Returns (Comparator.join nl (map (Comparator.join ",") rows))
  | Throws e => Throws e
  end.

Fixpoint repeat (s : string) (n : nat) : string :=
  match n with
  | O => EmptyString
  | S n' => (s ++ repeat s n')%string
  end.

Definition upperChar (c : ascii) : ascii :=
  if Str.inRange 97 122 c then ascii_of_N (Str.code c - 32) else c.

(** [toUpperCase], applied to the three category names only. *)
Fixpoint toUpperCase (s : string) : string :=
  match s with
  | EmptyString => EmptyString
  | String c s' => String (upperChar c) (toUpperCase s')
  end.

Definition categories : list string :=
  ["Income Statement"; "Balance Sheet"; "Cash Flow Statement"].

Definition docValues (c : ComparisonResult.t) : string :=
  Comparator.join ", "
    (map (fun e => (fst e ++ ": $" ++ toLocaleString (snd e))%string)
         (AnalysisEngine.somes
            (map Comparator.present (Obj.entries (Obj.props (values c)))))).

Definition keyLines (allComparisons : list ComparisonResult.t) : list string :=
  map (fun c => (bullet ++ " " ++ field c ++ " for " ++ ComparisonResult.year c ++
                 ": " ++ docValues c)%string)
      (firstn 10 (filter (fun c => negb (consistent c)) allComparisons)).

Definition valueLine (e : string * option number) : string :=
  ("  " ++ fst e ++ ": " ++
   match snd e with
   | Some value => "$" ++ toLocaleString value
   | None => "N/A"
   end)%string.

Definition detailLines (c : ComparisonResult.t) : list string :=
  [(ComparisonResult.year c ++ " - " ++ field c ++ ":")%string]
  ++ map valueLine (Obj.entries (Obj.props (values c)))
  ++ [("  Consistent: " ++ yesNo (consistent c))%string; EmptyString].

Definition categoryComparisons (allComparisons : list ComparisonResult.t)
           (cat : string) : list ComparisonResult.t :=
  filter (fun c => String.eqb (category c) cat) allComparisons.

Definition sectionLines (allComparisons : list ComparisonResult.t)
           (cat : string) : list string :=
  let comparisons := categoryComparisons allComparisons cat in
  if (0 <? List.length comparisons)%nat then
    [toUpperCase cat; EmptyString] ++ flat_map detailLines comparisons
  else [].

(** The comparisons the detailed part of the report shows, in the order
    it shows them. *)
Definition detailed (allComparisons : list ComparisonResult.t)
  : list ComparisonResult.t :=
  flat_map (categoryComparisons allComparisons) categories.

Definition reportLines (analyses : list DocumentAnalysis.t) : list string :=
  let allComparisons := Comparator.generateComparisons analyses in
  let consistentCount := List.length (filter consistent allComparisons) in
  let discrepancyCount := List.length allComparisons - consistentCount in
  [ "DOCUMENT CROSS-CHECKER REPORT"; repeat "=" 50; EmptyString;
    ("Generated: " ++ now)%string;
    ("Documents Analyzed: " ++ ofCount (List.length analyses))%string;
    EmptyString;
    "EXECUTIVE SUMMARY"; repeat "-" 20;
    ("Total Comparisons: " ++ ofCount (List.length allComparisons))%string;
    ("Consistent Values: " ++ ofCount consistentCount)%string;
    ("Discrepancies Found: " ++ ofCount discrepancyCount)%string;
    EmptyString ]
  ++ (if (0 <? discrepancyCount)%nat
      then ["KEY DISCREPANCIES:"] ++ keyLines allComparisons ++ [EmptyString]
      else [])
  ++ [ "DETAILED COMPARISON RESULTS"; repeat "-" 30; EmptyString ]
  ++ flat_map (sectionLines allComparisons) categories.

Definition generateReportContent (analyses : list DocumentAnalysis.t) : string :=
  Comparator.join nl (reportLines analyses).

End Exports.

End App.

(* ================================================================== *)
(** * CrossCheckReport: the view of the report *)
(* ================================================================== *)

Module ReportView.

Import World DocumentAnalysis ComparisonResult.

(** [groups[comparison.category].push(comparison)]: a category that is
    not a key of [groups] has no array to push to, and the call throws,
    on [undefined] or on a property of [Object.prototype], which has no
    [push]. The prototype of [groups] is never replaced. *)
Definition pushInto (groups : Obj.t (list ComparisonResult.t))
           (comparison : ComparisonResult.t)
  : outcome (Obj.t (list ComparisonResult.t)) :=
  match Obj.get groups (category comparison) with
  | Some group =>
      Returns (Obj.replace groups (category comparison) (group ++ [comparison]))
  | None =>
      if Obj.inherited (category comparison)
      then Throws "TypeError: groups[comparison.category].push is not a function"
      else Throws "TypeError: Cannot read properties of undefined (reading 'push')"
  end.

Fixpoint pushAll (groups : Obj.t (list ComparisonResult.t))
         (comparisons : list ComparisonResult.t)
  : outcome (Obj.t (list ComparisonResult.t)) :=
  match comparisons with
  | [] => Returns groups
  | c :: rest =>
      match pushInto groups c with
      | Returns groups' => pushAll groups' rest
      | Throws e => Throws e
      end
  end.

Definition emptyGroups : Obj.t (list ComparisonResult.t) :=
  [ ("Income Statement", []); ("Balance Sheet", []); ("Cash Flow Statement", []) ].

Definition groupedComparisons (comparisons : list ComparisonResult.t)
  : outcome (Obj.t (list ComparisonResult.t)) :=
  pushAll emptyGroups comparisons.

(** [analyses.some(a => a.extractedFigures.length > 0)] *)
Definition hasAnyFinancialData (analyses : list DocumentAnalysis.t) : bool :=
  existsb (fun a => (0 <? List.length (extractedFigures a))%nat) analyses.

Section Format.
Variable toLocaleString : number -> string.

Definition formatValue (value : option number) : string :=
  match value with
  | None => "N/A"
  | Some v => ("$" ++ toLocaleString v)%string
  end.
End Format.

End ReportView.

(* ================================================================== *)
(** * DiscrepancyReport: the comparison table *)
(* ================================================================== *)

Module DiscrepancyReport.

Import Dashboard Dashboard.Figure.

(** What [comparisonData] stores for a category under the keys
    [<year>_data], [<year>_hasDiscrepancy] and [<year>_variance]. *)
Record Cell : Type := {
  data : list (string * Figure.t);
  hasDiscrepancy : bool;
  variance : number;
}.

Definition sortedCategories (extracted : Obj.t (list Figure.t)) : list string :=
  Str.sort (allCategories extracted).

Definition sortedYears (extracted : Obj.t (list Figure.t)) : list string :=
  rev (Str.sort (allYears extracted)).

(** The entries written for one category and one year, none when no
    document has a figure for them. *)
Definition cellOf (extracted : Obj.t (list Figure.t)) (cat yr : string)
  : option Cell :=
  let found := figuresForCategoryYear extracted cat yr in
  if (0 <? List.length found)%nat then
    let values := map (fun item => value (snd item)) found in
    let uniqueValues := JSet.ofList sameValueZero values in
    Some {| data := found;
            hasDiscrepancy := (1 <? List.length uniqueValues)%nat;
            variance := if (1 <? List.length uniqueValues)%nat
                        then sub (Num.max values) (Num.min values)
                        else ofZ 0 |}
  else None.

(** One element of [comparisonData]: the category and, for each year
    that has a cell, that cell. *)
Definition categoryData (extracted : Obj.t (list Figure.t)) (cat : string)
  : string * list (string * Cell) :=
  (cat,
   AnalysisEngine.somes
     (map (fun yr => option_map (fun cell => (yr, cell)) (cellOf extracted cat yr))
          (sortedYears extracted))).

Definition comparisonData (extracted : Obj.t (list Figure.t))
  : list (string * list (string * Cell)) :=
  map (categoryData extracted) (sortedCategories extracted).

Inductive color : Type := green | yellow | red.

(** [getVarianceColor] *)
Definition getVarianceColor (variance : number) : color :=
  if SFeqb variance (ofZ 0) then green
  else if ltb variance (ofZ 50000) then yellow
  else red.

End DiscrepancyReport.

(* ================================================================== *)
(** * Vocabulary of the properties *)
(* ================================================================== *)

Module Spec.

Import DocumentAnalysis.

Definition isZero (x : number) : bool :=
  match x with S754_zero _ => true | _ => false end.

(** The number of entries of an object that are not [null]. *)
Definition count {V} (o : Obj.t (option V)) : nat :=
  List.length (AnalysisEngine.somes (Obj.values o)).

(** The figures of a document for a field and a year: those that carry
    that label and that year, in the order of the document. *)
Definition isFor (field year : string) (f : ExtractedFigure.t) : bool :=
  String.eqb (ExtractedFigure.label f) field &&
  String.eqb (ExtractedFigure.year f) year.

Definition figuresFor (field year : string) (a : DocumentAnalysis.t)
  : list ExtractedFigure.t :=
  filter (isFor field year) (extractedFigures a).

(** A document has a value for a field and a year when it has a figure
    for them. *)
Definition hasValue (field year : string) (a : DocumentAnalysis.t) : bool :=
  negb (List.length (figuresFor field year a) =? 0)%nat.

(** The last analysis of the list with a given file name. *)
Definition lastNamed (analyses : list DocumentAnalysis.t) (n : string)
  : option DocumentAnalysis.t :=
  find (fun a => String.eqb (fileName a) n) (rev analyses).

(** The entry of a document for a field and a year: the value of the
    first of its figures for them, or [null]. *)
Definition entryOf (field year : string) (a : DocumentAnalysis.t) : option number :=
  option_map ExtractedFigure.value (hd_error (figuresFor field year a)).

(** The values of the documents that have one for a field and a year,
    in the order of the documents. *)
Definition presentValues (field year : string)
           (analyses : list DocumentAnalysis.t) : list number :=
  AnalysisEngine.somes (map (entryOf field year) analyses).


(** A successful run has called its continuation on a suffix of its
    input. *)
Definition reaches (s : string) (pos : nat) (k : cont) (res : result)
           (strict : bool) : Prop :=
  exists s' pos' cap',
    k s' pos' cap' = Some res /\
    (if strict then pos < pos' else pos <= pos') /\
    pos' + String.length s' = pos + String.length s.

(** The string [sub] occurs in [text] at offset [Y]. *)
Definition occursAt (text sub : string) (Y : nat) : Prop :=
  Y <= String.length text /\ Str.startsWith sub (Str.drop Y text) = true.

(** An exhaustive check of the offsets of a text establishes that a
    candidate has no occurrence near a match. *)
Definition farCheck (text y : string) (M : Z) : bool :=
  List.forallb
    (fun Y => negb (Str.startsWith y (Str.drop Y text)) ||
              (300 <=? Z.abs (M - Z.of_nat Y))%Z)
    (seq 0 (S (String.length text))).

(** A strictly positive number: a positive finite one, or +Infinity. *)
Definition strictlyPositive (x : number) : Prop :=
  x = Infinity \/ exists m e, x = S754_finite false m e.

(** The checks of [analyzeDocument] before any call to a collaborator:
    the file is not empty, not above 50 MB, and has a supported
    extension. *)
Definition valid (file : World.File) : bool :=
  negb (World.size file =? 0)%Z &&
  negb (50 * 1024 * 1024 <? World.size file)%Z &&
  Aggregator.supported (Str.extensionOf (World.name file)).

(** The URL method: upload to storage, then extraction from the public
    URL. It throws when either call throws. *)
Definition urlMethod (w : World.t) (file : World.File) : World.outcome string :=
  match World.upload w file with
  | World.Returns publicUrl => World.extractFromUrl w publicUrl
  | World.Throws e => World.Throws e
  end.

Definition throws {A} (o : World.outcome A) : bool :=
  match o with World.Throws _ => true | World.Returns _ => false end.

(** The text the two methods yield: that of the URL method, that of the
    blob method when the URL method throws, none when both throw. *)
Definition obtainedText (w : World.t) (file : World.File) : option string :=
  match urlMethod w file with
  | World.Returns t => Some t
  | World.Throws _ =>
      match World.extractFromBlob w file with
      | World.Returns t => Some t
      | World.Throws _ => None
      end
  end.

(** The calls of the URL-then-blob strategy of AnalysisEngine. *)
Definition engineCalls (w : World.t) (file : World.File) : list World.event :=
  match World.upload w file with
  | World.Throws _ => [World.Upload file; World.ExtractFromBlob file]
  | World.Returns url =>
      match World.extractFromUrl w url with
      | World.Returns _ => [World.Upload file; World.ExtractFromUrl url]
      | World.Throws _ =>
          [World.Upload file; World.ExtractFromUrl url; World.ExtractFromBlob file]
      end
  end.

(** All elements of a list are the same value. *)
Definition allSame (l : list number) : Prop :=
  forall v w, In v l -> In w l -> sameValueZero v w = true.

End Spec.

(* ================================================================== *)
(** * Example inputs *)
(* ================================================================== *)

Module Examples.

Import World.

(** A stand-in for the host's [toLocaleString]. *)
Definition hostLocale (x : number) : string :=
  match x with
  | S754_nan => "NaN"
  | S754_infinity false => "Infinity"
  | S754_infinity true => "-Infinity"
  | _ => "#"
  end.

Definition pdf (n : string) : File :=
  {| name := n; size := 2048; type := "application/pdf" |}.

Definition lookup (docs : list (string * string)) (key : string) : outcome string :=
  match find (fun d => String.eqb (fst d) key) docs with
  | Some d => Returns (snd d)
  | None => Throws "not found"
  end.

(** A world where every upload succeeds and the URL method returns the
    text of each document of [docs]. *)
Definition served (docs : list (string * string)) : World.t :=
  {| currentYear := 2026;
     upload := fun f => Returns (name f);
     extractFromUrl := lookup docs;
     extractFromBlob := fun f => lookup docs (name f) |}.

(** A world whose storage is down: every upload throws; the blob
    method returns the text of the document. *)
Definition storageDown (docs : list (string * string)) : World.t :=
  {| currentYear := 2026;
     upload := fun _ => Throws "storage unavailable";
     extractFromUrl := lookup docs;
     extractFromBlob := fun f => lookup docs (name f) |}.

(** A world whose URL method returns an empty text, while the blob
    method would return the text of the document. *)
Definition emptyByUrl (docs : list (string * string)) : World.t :=
  {| currentYear := 2026;
     upload := fun f => Returns (name f);
     extractFromUrl := fun _ => Returns EmptyString;
     extractFromBlob := fun f => lookup docs (name f) |}.

(** A world where both methods throw for every document. *)
Definition unreadable : World.t :=
  {| currentYear := 2026;
     upload := fun f => Returns (name f);
     extractFromUrl := fun _ => Throws "unsupported";
     extractFromBlob := fun _ => Throws "unsupported" |}.

Definition emptyFile : File :=
  {| name := "empty.pdf"; size := 0; type := "application/pdf" |}.

Definition twoReports : list (string * string) :=
  [ ("a.pdf", "Revenue: $1,000,000 (2024)");
    ("b.pdf", "Revenue: $1,200,000 (2024)") ].

Definition twoFiles : list File := [pdf "a.pdf"; pdf "b.pdf"].

(** Two documents with no line item in common. *)
Definition disjointReports : list (string * string) :=
  [ ("a.pdf", "Revenue: $1,000,000 (2024)");
    ("b.pdf", "EBITDA: $300,000 (2024)") ].

Definition revenueOf (doc : string) (v : Z) : Dashboard.Figure.t :=
  {| Dashboard.Figure.category := "Revenue";
     Dashboard.Figure.value := ofZ v;
     Dashboard.Figure.year := "2024";
     Dashboard.Figure.documentName := doc;
     Dashboard.Figure.location := "Found in document text";
     Dashboard.Figure.confidence := Dashboard.highConfidence |}.

(** What the extractor of AnalysisDashboard finds in the two reports. *)
Definition twoExtracted : Obj.t (list Dashboard.Figure.t) :=
  [ ("a.pdf", [revenueOf "a.pdf" 1000000]);
    ("b.pdf", [revenueOf "b.pdf" 1200000]) ].

(** The analyses of the two documents, as the aggregator of
    AnalysisEngine returns them. *)
Definition twoAnalyses : list DocumentAnalysis.t :=
  snd (Aggregator.startAnalysis (served twoReports) twoFiles).

Fixpoint repeatChar (c : ascii) (n : nat) : string :=
  match n with
  | O => EmptyString
  | S n' => String c (repeatChar c n')
  end.

(** An amount of 310 digits, beyond the range of the numbers. *)
Definition hugeAmount : string :=
  ("Revenue: 1" ++ repeatChar "0" 309)%string.

Definition nearYear : string := "FY 2024 results. Revenue: $1,000,000".

(** A text whose only year stands more than 300 characters before the
    amount. *)
Definition farYear : string :=
  ("FY 2024" ++ repeatChar " " 400 ++ "Revenue: $1,000,000")%string.

Definition revenueEntry : AnalysisEngine.entry :=
  {| AnalysisEngine.e_category := "Income Statement";
     AnalysisEngine.e_field := "Revenue";
     AnalysisEngine.e_patterns :=
       [AnalysisEngine.pat "revenue"; AnalysisEngine.pat "sales";
        AnalysisEngine.pat "total revenue"] |}.

Definition nearMatch : rmatch :=
  {| index := 17; whole := "Revenue: $1,000,000"; capture := "1,000,000" |}.

Definition farMatch : rmatch :=
  {| index := 407; whole := "Revenue: $1,000,000"; capture := "1,000,000" |}.

Definition revenueFigure : ExtractedFigure.t :=
  {| ExtractedFigure.category := "Income Statement";
     ExtractedFigure.year := "2024";
     ExtractedFigure.value := ofZ 1000000;
     ExtractedFigure.label := "Revenue";
     ExtractedFigure.documentName := "a.pdf";
     ExtractedFigure.location := "PDF page 1";
     ExtractedFigure.confidence := AnalysisEngine.baseConfidence |}.

Definition figureOf (doc fieldName yearName : string) (v : Z) : ExtractedFigure.t :=
  {| ExtractedFigure.category := "Income Statement";
     ExtractedFigure.year := yearName;
     ExtractedFigure.value := ofZ v;
     ExtractedFigure.label := fieldName;
     ExtractedFigure.documentName := doc;
     ExtractedFigure.location := "PDF page 1";
     ExtractedFigure.confidence := AnalysisEngine.baseConfidence |}.

Definition analysisNamed (doc : string) (figures : list ExtractedFigure.t)
  : DocumentAnalysis.t :=
  {| DocumentAnalysis.fileName := doc;
     DocumentAnalysis.extractedFigures := figures;
     DocumentAnalysis.extractionStatus := success;
     DocumentAnalysis.errorMessage := None |}.

(** Three analyses, the first and the last under the same file name. *)
Definition sameName : list DocumentAnalysis.t :=
  [ analysisNamed "a.pdf" [figureOf "a.pdf" "Revenue" "2024" 10];
    analysisNamed "b.pdf" [figureOf "b.pdf" "Revenue" "2024" 10];
    analysisNamed "a.pdf" [figureOf "a.pdf" "Revenue" "2024" 12] ].

Definition revenue2024 : ComparisonResult.t :=
  {| ComparisonResult.year := "2024";
     ComparisonResult.field := "Revenue";
     ComparisonResult.values :=
       {| Obj.props :=
            [("a.pdf", Some (ofZ 1000000)); ("b.pdf", Some (ofZ 1200000))];
          Obj.detached := false |};
     ComparisonResult.consistent := false;
     ComparisonResult.category := "Income Statement" |}.

End Examples.

(* ================================================================== *)
(** * Further vocabulary and examples *)
(* ================================================================== *)

Module Spec2.

Import World DocumentAnalysis.

(** How the loop of the year attribution sees a candidate from a match
    at offset [M]: the distance of its first occurrence at or after
    [M - 200], when that distance is below 300. *)
Definition seenAt (text year : string) (M : Z) : option Z :=
  let yearIndex := Str.indexOf text year (Z.max 0 (M - 200)) in
  if (yearIndex =? -1)%Z then None
  else
    let distance := Z.abs (yearIndex - M) in
    if (distance <? 300)%Z then Some distance else None.

(** The invariant of that loop, after the candidates [seen]: either no
    candidate was seen and [closestYear] is still the initial one, or
    [closestYear] is a candidate seen at [closestDistance], and no
    candidate was seen at a smaller distance. *)
Definition closest (text : string) (M : Z) (initial : string)
           (seen : list string) (st : string * option Z) : Prop :=
  match snd st with
  | Some d =>
      In (fst st) seen /\ seenAt text (fst st) M = Some d /\
      forall c d', In c seen -> seenAt text c M = Some d' -> (d <= d')%Z
  | None =>
      fst st = initial /\ forall c, In c seen -> seenAt text c M = None
  end.

(** Matches in increasing order that do not overlap, none empty, the
    first at or after [from], all within [bound]. *)
Fixpoint inOrder (from bound : nat) (ms : list rmatch) : Prop :=
  match ms with
  | [] => True
  | m :: ms' =>
      from <= index m /\
      index m < index m + String.length (whole m) <= bound /\
      inOrder (index m + String.length (whole m)) bound ms'
  end.

(** A string without a dot. *)
Definition noDot (s : string) : bool :=
  Str.forallb (fun c => negb (Ascii.eqb c "."%char)) s.

(** The three statements a category names. *)
Definition statements : list string :=
  ["Income Statement"; "Balance Sheet"; "Cash Flow Statement"].

(** The table of the patterns names one of the three statements in
    each entry, and gives a field a single category. *)
Definition tableCheck : bool :=
  forallb (fun e =>
    existsb (String.eqb (AnalysisEngine.e_category e)) statements &&
    forallb (fun e' =>
               implb (String.eqb (AnalysisEngine.e_field e) (AnalysisEngine.e_field e'))
                     (String.eqb (AnalysisEngine.e_category e) (AnalysisEngine.e_category e')))
            AnalysisEngine.patterns)
    AnalysisEngine.patterns.

(** The numbers with the sign bit set: negative ones and -0. *)
Definition signed (x : number) : bool :=
  match x with
  | S754_zero s | S754_infinity s | S754_finite s _ _ => s
  | S754_nan => false
  end.

(** A regex without a capture group. *)
Fixpoint groupFree (r : regex) : bool :=
  match r with
  | Group _ => false
  | Cat r1 r2 => groupFree r1 && groupFree r2
  | Opt r1 => groupFree r1
  | Chr _ | Star _ | Plus _ => true
  end.

(** A pattern that ends with [\$?([\d,]+)] after a word and a part
    without a group. *)
Definition amountLast (r : regex) : Prop :=
  exists word middle,
    groupFree middle = true /\
    r = litI word
          (Cat middle (Cat (Opt (chr "$")) (Group (Plus digitComma)))).

(** The files the loop of AnalysisDashboard gets to: all of them, or
    those up to the first one whose upload throws. *)
Fixpoint attempted (w : World.t) (files : list File) : list File :=
  match files with
  | [] => []
  | file :: files' =>
      match upload w file with
      | Returns _ => file :: attempted w files'
      | Throws _ => [file]
      end
  end.

(** The values of the figures found for a category and a year. *)
Definition valuesOf (found : list (string * Dashboard.Figure.t)) : list number :=
  map (fun item => Dashboard.Figure.value (snd item)) found.

(** A figure of AnalysisDashboard is for a line item and a year. *)
Definition carries (cat yr : string) (f : Dashboard.Figure.t) : bool :=
  String.eqb (Dashboard.Figure.category f) cat &&
  String.eqb (Dashboard.Figure.year f) yr.

(** The documents that have a figure for a line item and a year, in
    the order of the extracted data, and the value each of them gives:
    that of the first of its figures for them. *)
Definition holders (data : Obj.t (list Dashboard.Figure.t)) (cat yr : string)
  : list string :=
  map fst (filter (fun e => existsb (carries cat yr) (snd e)) (Obj.entries data)).

Definition heldValues (data : Obj.t (list Dashboard.Figure.t)) (cat yr : string)
  : list number :=
  flat_map (fun e => match filter (carries cat yr) (snd e) with
                     | f :: _ => [Dashboard.Figure.value f]
                     | [] => []
                     end)
           (Obj.entries data).

(** The calls of the aggregator of AnalysisDashboard for a file whose
    upload returns. *)
Definition dashboardCalls (w : World.t) (file : File) : list event :=
  match upload w file with
  | Throws _ => [Upload file]
  | Returns url =>
      match extractFromUrl w url with
      | Returns _ => [Upload file; ExtractFromUrl url]
      | Throws _ => [Upload file; ExtractFromUrl url; ExtractFromBlob file]
      end
  end.

(** The object of [groupedComparisons] with its three arrays. *)
Definition grouped (income balance cash : list ComparisonResult.t)
  : Obj.t (list ComparisonResult.t) :=
  [ ("Income Statement", income); ("Balance Sheet", balance);
    ("Cash Flow Statement", cash) ].

(** The field and the year of a comparison. *)
Definition pairOf (c : ComparisonResult.t) : string * string :=
  (ComparisonResult.field c, ComparisonResult.year c).

(** The text of a cell of the CSV file. *)
Definition cellText (numberToString : number -> string) (v : option number)
  : string :=
  match v with
  | Some x => numberToString x
  | None => EmptyString
  end.

(** The value a comparison of a field and a year shows under a file
    name: that of the last analysis of the name. *)
Definition shownValue (analyses : list DocumentAnalysis.t)
           (field year name : string) : option number :=
  match Spec.lastNamed analyses name with
  | Some a => Spec.entryOf field year a
  | None => None
  end.

(** The row of the CSV file for a comparison. *)
Definition csvLine (numberToString : number -> string)
           (analyses : list DocumentAnalysis.t) (c : ComparisonResult.t)
  : list string :=
  [ ComparisonResult.year c; App.quoted (ComparisonResult.field c);
    App.quoted (ComparisonResult.category c) ]
  ++ map (fun a => cellText numberToString
                     (shownValue analyses (ComparisonResult.field c)
                                 (ComparisonResult.year c) (fileName a)))
         analyses
  ++ [ App.yesNo (ComparisonResult.consistent c) ].

(** The pairs of a field and a year in the order of the two loops. *)
Definition pairsOf (fields years : list string) : list (string * string) :=
  flat_map (fun f => map (pair f) years) fields.

(** The objects the loops create for these pairs. *)
Definition createdFor (analyses : list DocumentAnalysis.t)
           (pairs : list (string * string)) : list (Obj.dict number) :=
  map (fun fy => fst (Comparator.gather analyses (fst fy) (snd fy))) pairs.

(** The comparisons the loops push for these pairs when the heap holds
    [base] objects before them. *)
Fixpoint pushedFrom (analyses : list DocumentAnalysis.t) (base : nat)
         (pairs : list (string * string)) : list Memo.pushed :=
  match pairs with
  | [] => []
  | fy :: rest =>
      match Comparator.compareOne analyses (fst fy) (snd fy) with
      | Some c =>
          [ {| Memo.p_year := snd fy; Memo.p_field := fst fy;
               Memo.p_values := base;
               Memo.p_consistent := ComparisonResult.consistent c;
               Memo.p_category := ComparisonResult.category c |} ]
      | None => []
      end ++ pushedFrom analyses (S base) rest
  end.

(** What a run of pairs of the loops does to a store. *)
Definition advanced (analyses : list DocumentAnalysis.t)
           (pairs : list (string * string)) (s s' : Memo.store) : Prop :=
  Memo.heap s' = Memo.heap s ++ createdFor analyses pairs /\
  Memo.comparisons s' =
    Memo.comparisons s ++ pushedFrom analyses (List.length (Memo.heap s)) pairs /\
  Memo.allFields s' = Memo.allFields s /\
  Memo.allYears s' = Memo.allYears s.

(** Every figure of every analysis belongs to one of the three
    statements. *)
Definition categorised (analyses : list DocumentAnalysis.t) : Prop :=
  forall a f, In a analyses -> In f (extractedFigures a) ->
              In (ExtractedFigure.category f) statements.

End Spec2.

Module Examples2.

Import World.

(** A text with two years near the amount. *)
Definition twoYears : string := "FY 2023 and 2024. Revenue: $100".

(** The match of the revenue pattern in that text. *)
Definition twoYearsMatch : rmatch :=
  {| index := 18; whole := "Revenue: $100"; capture := "100" |}.

Definition smallFile : File :=
  {| name := "Report.PDF"; size := 1; type := "application/pdf" |}.

Definition bigFile : File :=
  {| name := "big.pdf"; size := 50 * 1024 * 1024 + 1; type := "application/pdf" |}.

Definition twoYearsFigure : ExtractedFigure.t :=
  {| ExtractedFigure.category := "Income Statement";
     ExtractedFigure.year := "2024";
     ExtractedFigure.value := ofZ 100;
     ExtractedFigure.label := "Revenue";
     ExtractedFigure.documentName := "a.pdf";
     ExtractedFigure.location := "PDF page 1";
     ExtractedFigure.confidence := AnalysisEngine.baseConfidence |}.

(** An analysis whose figure names a statement that does not exist. *)
Definition oddCategory (doc : string) : DocumentAnalysis.t :=
  {| DocumentAnalysis.fileName := doc;
     DocumentAnalysis.extractedFigures :=
       [ {| ExtractedFigure.category := "Notes";
            ExtractedFigure.year := "2024";
            ExtractedFigure.value := ofZ 5;
            ExtractedFigure.label := "Headcount";
            ExtractedFigure.documentName := doc;
            ExtractedFigure.location := "Word document";
            ExtractedFigure.confidence := AnalysisEngine.baseConfidence |} ];
     DocumentAnalysis.extractionStatus := success;
     DocumentAnalysis.errorMessage := None |}.

(** Two documents in which nothing was found. *)
Definition noFigures : list DocumentAnalysis.t :=
  [ Examples.analysisNamed "a.pdf" []; Examples.analysisNamed "b.pdf" [] ].

(** Two documents that agree, and a third one named [__proto__]. *)
Definition protoNamed : list DocumentAnalysis.t :=
  [ Examples.analysisNamed "a.pdf" [Examples.figureOf "a.pdf" "Revenue" "2024" 10];
    Examples.analysisNamed "b.pdf" [Examples.figureOf "b.pdf" "Revenue" "2024" 10];
    Examples.analysisNamed "__proto__"
      [Examples.figureOf "__proto__" "Revenue" "2024" 12] ].

(** The same, the third one without any figure. *)
Definition protoEmpty : list DocumentAnalysis.t :=
  [ Examples.analysisNamed "a.pdf" [Examples.figureOf "a.pdf" "Revenue" "2024" 10];
    Examples.analysisNamed "b.pdf" [Examples.figureOf "b.pdf" "Revenue" "2024" 10];
    Examples.analysisNamed "__proto__" [] ].

(** The text of a property of [Object.prototype]; only that of
    [__proto__] is fixed by the language. *)
Definition objectText (name : string) : string :=
  if String.eqb name "__proto__" then "[object Object]"
  else ("function " ++ name ++ "() { [native code] }")%string.

Definition textFile : File :=
  {| name := "notes.txt"; size := 10; type := "text/plain" |}.

End Examples2.

(* ================================================================== *)
(** * Facts about numbers, sets and objects *)
(* ================================================================== *)

Module Facts.

Import Spec.


(** SameValueZero identifies two numbers exactly when they are the same
    value or both are a zero. *)
Lemma compare_cont_Eq_eq (p q : positive) :
  Pos.compare_cont Eq p q = Eq -> p = q.
Proof. apply Pos.compare_eq. Qed.

Lemma sameValueZero_spec (x y : number) :
  sameValueZero x y = true <-> x = y \/ (isZero x = true /\ isZero y = true).
Proof.
  split.
  - destruct x as [[]|[]| |[] mx ex], y as [[]|[]| |[] my ey];
      cbn; intros H; try discriminate H; auto;
      unfold SFeqb, SFcompare in H;
      destruct (Z.compare ex ey) eqn:E; try discriminate H;
      apply Z.compare_eq in E; subst ey;
      destruct (Pos.compare_cont Eq mx my) eqn:F; try discriminate H;
      apply compare_cont_Eq_eq in F; subst my; auto.
  - intros [<- | [Hx Hy]].
    + destruct x as [sx|sx| |sx mx ex]; cbn; auto.
      * destruct sx; reflexivity.
      * unfold SFeqb, SFcompare.
        rewrite Z.compare_refl.
        destruct sx; rewrite Pos.compare_cont_refl; reflexivity.
    + destruct x, y; try discriminate; reflexivity.
Qed.

Lemma sameValueZero_refl (x : number) : sameValueZero x x = true.
Proof. apply sameValueZero_spec; auto. Qed.

Lemma sameValueZero_sym (x y : number) :
  sameValueZero x y = true -> sameValueZero y x = true.
Proof.
  rewrite !sameValueZero_spec. intros [-> | [? ?]]; auto.
Qed.

Lemma sameValueZero_trans (x y z : number) :
  sameValueZero x y = true -> sameValueZero y z = true ->
  sameValueZero x z = true.
Proof.
  rewrite !sameValueZero_spec.
  intros [-> | [Hx Hy]] [-> | [Hy' Hz]]; auto.
Qed.

(** ** Sets *)

Section SetFacts.
Context {A : Type} (same : A -> A -> bool).

Lemma add_length (l : list A) (x : A) :
  List.length l <= List.length (JSet.add same l x) <= S (List.length l).
Proof.
  unfold JSet.add. destruct (JSet.has same l x).
  - lia.
  - rewrite length_app. cbn. lia.
Qed.

Lemma fold_add_length_ge (xs l : list A) :
  List.length l <= List.length (fold_left (JSet.add same) xs l).
Proof.
  revert l. induction xs as [|x xs IH]; intros l; cbn.
  - lia.
  - specialize (IH (JSet.add same l x)).
    pose proof (add_length l x). lia.
Qed.

(** A set built from a list has one element exactly when every element
    of the list is the same as the first. *)
Lemma fold_add_singleton (xs : list A) (v : A) :
  List.length (fold_left (JSet.add same) xs [v]) = 1 <->
  forallb (fun w => same w v) xs = true.
Proof.
  induction xs as [|x xs IH]; cbn.
  - tauto.
  - unfold JSet.add at 2. cbn. rewrite orb_false_r.
    destruct (same x v) eqn:E; cbn.
    + exact IH.
    + split; [|discriminate].
      intros H. pose proof (fold_add_length_ge xs [v; x]) as G.
      cbn in G. lia.
Qed.

Lemma ofList_singleton (v : A) (xs : list A) :
  List.length (JSet.ofList same (v :: xs)) = 1 <->
  forallb (fun w => same w v) xs = true.
Proof.
  unfold JSet.ofList. cbn. apply fold_add_singleton.
Qed.

Lemma ofList_nil : JSet.ofList same [] = [].
Proof. reflexivity. Qed.

End SetFacts.

(** Sets of strings. *)
Lemma has_In (l : list string) (x : string) :
  JSet.has String.eqb l x = true <-> In x l.
Proof.
  unfold JSet.has. rewrite existsb_exists. split.
  - intros (y & Hy & E). apply String.eqb_eq in E. now subst.
  - intros H. exists x. split; [assumption | apply String.eqb_refl].
Qed.

Lemma add_In (l : list string) (x y : string) :
  In y (JSet.add String.eqb l x) <-> In y l \/ y = x.
Proof.
  unfold JSet.add. destruct (JSet.has String.eqb l x) eqn:E.
  - apply has_In in E. split; [auto | intros [?| ->]; auto].
  - rewrite in_app_iff. cbn. split; intros [?|?]; auto.
    + destruct H; auto. contradiction.
Qed.

Lemma fold_add_In (xs l : list string) (y : string) :
  In y (fold_left (JSet.add String.eqb) xs l) <-> In y l \/ In y xs.
Proof.
  revert l. induction xs as [|x xs IH]; intros l; cbn.
  - tauto.
  - rewrite IH, add_In. intuition.
Qed.

Lemma ofList_In (xs : list string) (y : string) :
  In y (JSet.ofList String.eqb xs) <-> In y xs.
Proof.
  unfold JSet.ofList. rewrite fold_add_In. cbn. tauto.
Qed.

Lemma add_NoDup (l : list string) (x : string) :
  NoDup l -> NoDup (JSet.add String.eqb l x).
Proof.
  intros H. unfold JSet.add. destruct (JSet.has String.eqb l x) eqn:E.
  - assumption.
  - apply NoDup_app; [assumption | repeat constructor; auto | ].
    intros a Ha [<- | []].
    apply has_In in Ha. congruence.
Qed.

Lemma fold_add_NoDup (xs l : list string) :
  NoDup l -> NoDup (fold_left (JSet.add String.eqb) xs l).
Proof.
  revert l. induction xs as [|x xs IH]; intros l H; cbn; auto using add_NoDup.
Qed.

(** ** Lists of optional values *)

Lemma somes_app {A} (l1 l2 : list (option A)) :
  AnalysisEngine.somes (l1 ++ l2) =
  AnalysisEngine.somes l1 ++ AnalysisEngine.somes l2.
Proof.
  induction l1 as [|[a|] l1 IH]; cbn; congruence.
Qed.

Lemma In_somes {A} (l : list (option A)) (a : A) :
  In a (AnalysisEngine.somes l) <-> In (Some a) l.
Proof.
  induction l as [|[b|] l IH]; cbn.
  - tauto.
  - rewrite IH. split; intros [H|H]; auto; left; congruence.
  - rewrite IH. split; [auto | intros [H|H]; [discriminate | auto]].
Qed.

(** ** Objects *)

Lemma has_keys {V} (o : Obj.t V) (k : string) :
  Obj.has o k = true <-> In k (Obj.keys o).
Proof.
  unfold Obj.has, Obj.keys. rewrite existsb_exists. split.
  - intros (e & He & E). apply String.eqb_eq in E. subst k. now apply in_map.
  - intros H. apply in_map_iff in H. destruct H as (e & <- & He).
    exists e. split; [assumption | apply String.eqb_refl].
Qed.


Lemma has_cons {V} (o : Obj.t V) (k k' : string) (v' : V) :
  Obj.has ((k', v') :: o) k = String.eqb k' k || Obj.has o k.
Proof. reflexivity. Qed.

Lemma get_replace {V} (o : Obj.t V) (k n : string) (v : V) :
  Obj.has o k = true ->
  Obj.get (Obj.replace o k v) n = if String.eqb k n then Some v else Obj.get o n.
Proof.
  induction o as [|[k' v'] o IH]; [discriminate|].
  rewrite has_cons. cbn [Obj.replace Obj.get].
  destruct (String.eqb k' k) eqn:E; cbn [orb Obj.get].
  - intros _. apply String.eqb_eq in E. subst k'.
    destruct (String.eqb k n); reflexivity.
  - intros H. rewrite (IH H).
    destruct (String.eqb k' n) eqn:F; [|reflexivity].
    apply String.eqb_eq in F. subst k'.
    rewrite String.eqb_sym in E. now rewrite E.
Qed.

Lemma get_insert {V} (o : Obj.t V) (k n : string) (v : V) :
  Obj.has o k = false ->
  Obj.get (Obj.insert o k v) n = if String.eqb k n then Some v else Obj.get o n.
Proof.
  induction o as [|[k' v'] o IH]; [reflexivity|].
  rewrite has_cons. intros H. apply orb_false_elim in H. destruct H as [E H].
  cbn [Obj.insert]. destruct (Obj.before k k'); cbn [Obj.get]; [reflexivity|].
  rewrite (IH H).
  destruct (String.eqb k' n) eqn:F; [|reflexivity].
  apply String.eqb_eq in F. subst k'.
  rewrite String.eqb_sym in E. now rewrite E.
Qed.

Lemma get_define {V} (o : Obj.t V) (k n : string) (v : V) :
  Obj.get (Obj.define o k v) n = if String.eqb k n then Some v else Obj.get o n.
Proof.
  unfold Obj.define. destruct (Obj.has o k) eqn:H.
  - now apply get_replace.
  - now apply get_insert.
Qed.

Lemma keys_replace {V} (o : Obj.t V) (k : string) (v : V) :
  Obj.keys (Obj.replace o k v) = Obj.keys o.
Proof.
  unfold Obj.keys. induction o as [|[k' v'] o IH]; cbn; [reflexivity|].
  destruct (String.eqb k' k); cbn; congruence.
Qed.

Lemma In_replace {V} (o : Obj.t V) (k : string) (v : V) (e : string * V) :
  In e (Obj.replace o k v) -> e = (k, v) \/ In e o.
Proof.
  induction o as [|[k' v'] o IH]; cbn; [tauto|].
  destruct (String.eqb k' k) eqn:E; cbn.
  - apply String.eqb_eq in E. subst k'. intros [<- | H]; auto.
  - intros [<- | H]; auto. apply IH in H. tauto.
Qed.

Lemma insert_permutation {V} (o : Obj.t V) (k : string) (v : V) :
  Permutation (Obj.insert o k v) ((k, v) :: o).
Proof.
  induction o as [|[k' v'] o IH]; cbn; [reflexivity|].
  destruct (Obj.before k k'); [reflexivity|].
  rewrite IH. apply perm_swap.
Qed.


Lemma In_define {V} (o : Obj.t V) (k : string) (v : V) (e : string * V) :
  In e (Obj.define o k v) -> e = (k, v) \/ In e o.
Proof.
  unfold Obj.define. destruct (Obj.has o k).
  - apply In_replace.
  - intros H. apply (Permutation_in _ (insert_permutation o k v)) in H.
    destruct H as [<- | H]; auto.
Qed.

Lemma keys_define_In {V} (o : Obj.t V) (k n : string) (v : V) :
  In n (Obj.keys (Obj.define o k v)) <-> n = k \/ In n (Obj.keys o).
Proof.
  unfold Obj.define. destruct (Obj.has o k) eqn:H.
  - rewrite keys_replace. apply has_keys in H. split; [auto|].
    intros [-> | K]; assumption.
  - unfold Obj.keys.
    pose proof (Permutation_map fst (insert_permutation o k v)) as P.
    split; intros K.
    + apply (Permutation_in _ P) in K. destruct K as [<- | K]; auto.
    + apply (Permutation_in _ (Permutation_sym P)). cbn.
      destruct K as [-> | K]; auto.
Qed.

Lemma keys_define_NoDup {V} (o : Obj.t V) (k : string) (v : V) :
  NoDup (Obj.keys o) -> NoDup (Obj.keys (Obj.define o k v)).
Proof.
  intros N. unfold Obj.define. destruct (Obj.has o k) eqn:H.
  - now rewrite keys_replace.
  - unfold Obj.keys.
    apply (Permutation_NoDup
             (Permutation_sym (Permutation_map fst (insert_permutation o k v)))).
    cbn. constructor; [|exact N].
    intros K. apply has_keys in K. congruence.
Qed.


Lemma count_replace {V} (o : Obj.t (option V)) (k : string) (v : option V) :
  count (Obj.replace o k v)
  <= count o + (match v with Some _ => 1 | None => 0 end).
Proof.
  unfold count, Obj.values.
  induction o as [|[k' v'] o IH]; cbn [Obj.replace map snd].
  - cbn. lia.
  - destruct (String.eqb k' k); cbn [map snd AnalysisEngine.somes].
    + destruct v, v'; cbn [AnalysisEngine.somes List.length]; lia.
    + destruct v'; cbn [AnalysisEngine.somes List.length]; lia.
Qed.

Lemma count_insert {V} (o : Obj.t (option V)) (k : string) (v : option V) :
  count (Obj.insert o k v)
  = count o + (match v with Some _ => 1 | None => 0 end).
Proof.
  unfold count, Obj.values.
  induction o as [|[k' v'] o IH]; cbn [Obj.insert map snd].
  - destruct v; reflexivity.
  - destruct (Obj.before k k'); cbn [map snd AnalysisEngine.somes].
    + destruct v, v'; cbn [AnalysisEngine.somes List.length]; lia.
    + destruct v'; cbn [AnalysisEngine.somes List.length]; lia.
Qed.

Lemma count_define {V} (o : Obj.t (option V)) (k : string) (v : option V) :
  count (Obj.define o k v)
  <= count o + (match v with Some _ => 1 | None => 0 end).
Proof.
  unfold Obj.define. destruct (Obj.has o k).
  - apply count_replace.
  - rewrite count_insert. lia.
Qed.

(** ** Objects that hold numbers and [null] *)

Lemma assign_cases {V} (d : Obj.dict V) (k : string) (v : option V) :
  Obj.props (Obj.assign d k v) = Obj.props d \/
  Obj.props (Obj.assign d k v) = Obj.define (Obj.props d) k v.
Proof.
  unfold Obj.assign.
  destruct (String.eqb k "__proto__" && negb (Obj.detached d) &&
            negb (Obj.has (Obj.props d) k)); [|auto].
  destruct v; auto.
Qed.

Lemma assign_plain {V} (d : Obj.dict V) (k : string) (v : option V) :
  k <> "__proto__" ->
  Obj.assign d k v =
  {| Obj.props := Obj.define (Obj.props d) k v; Obj.detached := Obj.detached d |}.
Proof.
  intros N. unfold Obj.assign.
  destruct (String.eqb_spec k "__proto__"); [contradiction | reflexivity].
Qed.

Lemma get_assign {V} (d : Obj.dict V) (k n : string) (v : option V) :
  n <> "__proto__" ->
  Obj.get (Obj.props (Obj.assign d k v)) n =
  if String.eqb k n then Some v else Obj.get (Obj.props d) n.
Proof.
  intros N. destruct (String.eqb_spec k "__proto__") as [-> | K].
  - destruct (String.eqb_spec "__proto__" n) as [E | _]; [congruence|].
    destruct (assign_cases d "__proto__" v) as [-> | ->]; [reflexivity|].
    rewrite get_define.
    destruct (String.eqb_spec "__proto__" n); [congruence | reflexivity].
  - rewrite assign_plain by exact K. apply get_define.
Qed.

Lemma In_assign {V} (d : Obj.dict V) (k : string) (v : option V)
      (e : string * option V) :
  In e (Obj.props (Obj.assign d k v)) -> e = (k, v) \/ In e (Obj.props d).
Proof.
  destruct (assign_cases d k v) as [-> | ->]; [auto | apply In_define].
Qed.

Lemma keys_assign_incl {V} (d : Obj.dict V) (k n : string) (v : option V) :
  In n (Obj.keys (Obj.props (Obj.assign d k v))) ->
  n = k \/ In n (Obj.keys (Obj.props d)).
Proof.
  destruct (assign_cases d k v) as [-> | ->]; [auto | apply keys_define_In].
Qed.


Lemma keys_assign_NoDup {V} (d : Obj.dict V) (k : string) (v : option V) :
  NoDup (Obj.keys (Obj.props d)) ->
  NoDup (Obj.keys (Obj.props (Obj.assign d k v))).
Proof.
  destruct (assign_cases d k v) as [-> | ->];
    [auto | apply keys_define_NoDup].
Qed.

Lemma count_assign {V} (d : Obj.dict V) (k : string) (v : option V) :
  count (Obj.props (Obj.assign d k v))
  <= count (Obj.props d) + (match v with Some _ => 1 | None => 0 end).
Proof.
  destruct (assign_cases d k v) as [-> | ->]; [lia | apply count_define].
Qed.

Lemma detached_assign {V} (d : Obj.dict V) (k : string) (v : option V) :
  k <> "__proto__" ->
  Obj.detached (Obj.assign d k v) = Obj.detached d.
Proof. intros N. now rewrite assign_plain. Qed.

End Facts.

(* ================================================================== *)
(** * The [exec] loop *)
(* ================================================================== *)

(** The list of matches computed by recursion on the text is the one
    the [while] loop over [exec] collects, for every pattern whose
    matches are not empty: the loop then ends within as many rounds as
    the text has characters, plus one. *)
Module RegexFacts.

Import Spec.

Lemma take_length (n : nat) (s : string) :
  n <= String.length s -> String.length (Str.take n s) = n.
Proof.
  revert s. induction n as [|n IH]; intros [|c s] H; cbn in *; try lia.
  rewrite IH; lia.
Qed.

Lemma drop_S (n : nat) (c : ascii) (s : string) :
  Str.drop (S n) (String c s) = Str.drop n s.
Proof. reflexivity. Qed.

Lemma drop_add (n k : nat) (s : string) :
  n <= String.length s -> Str.drop k (Str.drop n s) = Str.drop (n + k) s.
Proof.
  revert s. induction n as [|n IH]; intros s H.
  - reflexivity.
  - destruct s as [|c s]; cbn in H; [lia|].
    cbn [Nat.add]. rewrite !drop_S. apply IH. lia.
Qed.

Lemma drop_length (n : nat) (s : string) :
  n <= String.length s -> String.length (Str.drop n s) = String.length s - n.
Proof.
  revert s. induction n as [|n IH]; intros [|c s] H; cbn in *; try lia.
  apply IH. lia.
Qed.

Lemma star_reaches (p : ascii -> bool) (s : string) (pos : nat)
      (cap : option string) (k : cont) (res : result) :
  star p s pos cap k = Some res -> reaches s pos k res false.
Proof.
  revert pos. induction s as [|c s IH]; intros pos; cbn.
  - intros H. exists EmptyString, pos, cap. auto.
  - destruct (p c).
    + destruct (star p s (S pos) cap k) as [r|] eqn:E.
      * intros [= ->]. apply IH in E.
        destruct E as (s' & pos' & cap' & K & L & N).
        exists s', pos', cap'. cbn in *. repeat split; auto; lia.
      * intros H. exists (String c s), pos, cap. auto.
    + intros H. exists (String c s), pos, cap. auto.
Qed.

Lemma run_reaches (r : regex) :
  forall s pos cap k res,
    run r s pos cap k = Some res -> reaches s pos k res false.
Proof.
  induction r as [p|r1 IH1 r2 IH2|r1 IH1|p|p|r1 IH1]; intros s pos cap k res; cbn.
  - destruct s as [|c s]; [discriminate|].
    destruct (p c); [|discriminate].
    intros H. exists s, (S pos), cap. cbn. repeat split; auto; lia.
  - intros H. apply IH1 in H. destruct H as (s1 & pos1 & cap1 & K & L & N).
    apply IH2 in K. destruct K as (s2 & pos2 & cap2 & K & L' & N').
    exists s2, pos2, cap2. cbn in *. repeat split; auto; lia.
  - destruct (run r1 s pos cap k) as [x|] eqn:E.
    + intros [= ->]. apply IH1 in E. exact E.
    + intros H. exists s, pos, cap. cbn. auto.
  - apply star_reaches.
  - destruct s as [|c s]; [discriminate|].
    destruct (p c); [|discriminate].
    intros H. apply star_reaches in H.
    destruct H as (s' & pos' & cap' & K & L & N).
    exists s', pos', cap'. cbn in *. repeat split; auto; lia.
  - intros H. apply IH1 in H. destruct H as (s1 & pos1 & cap1 & K & L & N).
    exists s1, pos1, (Some (Str.take (pos1 - pos) s)). auto.
Qed.

Lemma run_consuming (r : regex) :
  consuming r = true ->
  forall s pos cap k res,
    run r s pos cap k = Some res -> reaches s pos k res true.
Proof.
  intros C s pos cap k res H.
  destruct r as [p|r1 r2|r1|p|p|r1]; try discriminate C.
  - cbn in H. destruct s as [|c s]; [discriminate|].
    destruct (p c); [|discriminate].
    exists s, (S pos), cap. cbn. repeat split; auto; lia.
  - destruct r1 as [p| | | |p| ]; try discriminate C; cbn in H.
    + destruct s as [|c s]; [discriminate|].
      destruct (p c); [|discriminate].
      apply run_reaches in H. destruct H as (s' & pos' & cap' & K & L & N).
      exists s', pos', cap'. cbn in *. repeat split; auto; lia.
    + destruct s as [|c s]; [discriminate|].
      destruct (p c); [|discriminate].
      apply star_reaches in H. destruct H as (s1 & pos1 & cap1 & K & L & N).
      apply run_reaches in K. destruct K as (s' & pos' & cap' & K & L' & N').
      exists s', pos', cap'. cbn in *. repeat split; auto; lia.
  - cbn in H. destruct s as [|c s]; [discriminate|].
    destruct (p c); [|discriminate].
    apply star_reaches in H. destruct H as (s' & pos' & cap' & K & L & N).
    exists s', pos', cap'. cbn in *. repeat split; auto; lia.
Qed.

(** A match of a consuming pattern ends after its start, within the
    text. *)
Lemma matchHere_advances (r : regex) (s : string) (pos : nat) (res : result) :
  consuming r = true ->
  matchHere r s pos = Some res ->
  pos < fst res <= pos + String.length s.
Proof.
  intros C H. apply (run_consuming r C) in H.
  destruct H as (s' & pos' & cap' & [= <-] & L & N). cbn. lia.
Qed.

Lemma search_bounds (r : regex) (s : string) (pos : nat) (m : rmatch) :
  consuming r = true ->
  search r s pos = Some m ->
  pos <= index m /\
  index m < index m + String.length (whole m) <= pos + String.length s.
Proof.
  intros C. revert pos. induction s as [|c s IH]; intros pos; cbn.
  - destruct (matchHere r "" pos) as [res|] eqn:E; [|discriminate].
    apply (matchHere_advances r _ _ _ C) in E. cbn in E. lia.
  - destruct (matchHere r (String c s) pos) as [res|] eqn:E.
    + intros [= <-]. apply (matchHere_advances r _ _ _ C) in E.
      cbn [index whole mkMatch]. rewrite take_length; cbn in *; lia.
    + intros H. apply IH in H. lia.
Qed.

Lemma execFrom_skip (r : regex) (skip : nat) :
  forall s pos,
    skip <= String.length s ->
    execFrom r s pos skip = execFrom r (Str.drop skip s) (pos + skip) 0.
Proof.
  induction skip as [|skip IH]; intros s pos H.
  - rewrite Nat.add_0_r. destruct s; reflexivity.
  - destruct s as [|c s]; cbn in H; [lia|].
    rewrite drop_S, Nat.add_succ_r. cbn [execFrom]. apply IH. lia.
Qed.

(** One round: the leftmost match from the current offset, then the
    loop from the end of that match. *)
Lemma execFrom_search (r : regex) (s : string) :
  consuming r = true ->
  forall pos,
    execFrom r s pos 0 =
    match search r s pos with
    | None => []
    | Some m =>
        let lastIndex := index m + String.length (whole m) in
        m :: execFrom r (Str.drop (lastIndex - pos) s) lastIndex 0
    end.
Proof.
  intros C. induction s as [|c s IH]; intros pos.
  - cbn. destruct (matchHere r "" pos) as [res|] eqn:E; [|reflexivity].
    apply (matchHere_advances r _ _ _ C) in E. cbn in E. lia.
  - cbn [execFrom search].
    destruct (matchHere r (String c s) pos) as [res|] eqn:E.
    + apply (matchHere_advances r _ _ _ C) in E. cbn in E.
      cbv zeta. cbn [index whole mkMatch].
      rewrite take_length by (cbn; lia).
      replace (pos + (fst res - pos) - pos) with (S (fst res - pos - 1)) by lia.
      rewrite drop_S, execFrom_skip by lia.
      do 2 f_equal. lia.
    + rewrite IH. destruct (search r s (S pos)) as [m|] eqn:F; [|reflexivity].
      destruct (search_bounds r _ _ _ C F) as [L _].
      cbv zeta.
      replace (index m + String.length (whole m) - pos)
        with (S (index m + String.length (whole m) - S pos)) by lia.
      rewrite drop_S. reflexivity.
Qed.

Lemma execLoop_execFrom (r : regex) (text : string) :
  consuming r = true ->
  forall fuel pos,
    pos <= String.length text ->
    String.length text - pos < fuel ->
    execLoop fuel r text pos = execFrom r (Str.drop pos text) pos 0.
Proof.
  intros C. induction fuel as [|fuel IH]; intros pos Hpos Hfuel; [lia|].
  cbn [execLoop]. unfold exec.
  replace (String.length text <? pos) with false
    by (symmetry; apply Nat.ltb_ge; lia).
  rewrite execFrom_search by assumption.
  destruct (search r (Str.drop pos text) pos) as [m|] eqn:F; [|reflexivity].
  destruct (search_bounds r _ _ _ C F) as [L [Lt Le]].
  rewrite drop_length in Le by assumption.
  cbv zeta. rewrite drop_add by assumption.
  replace (pos + (index m + String.length (whole m) - pos))
    with (index m + String.length (whole m)) by lia.
  f_equal. apply IH; lia.
Qed.

(** The loop of the source, given as many rounds as the text has
    characters plus one, or more, ends with [exec] returning [null], and
    has collected the matches of [execAll]. *)
Theorem execLoop_execAll (r : regex) (text : string) (fuel : nat) :
  consuming r = true ->
  String.length text < fuel ->
  execLoop fuel r text 0 = execAll r text.
Proof.
  intros C H. rewrite execLoop_execFrom by (assumption || lia).
  destruct text; reflexivity.
Qed.

(** Every pattern of the table of AnalysisEngine is consuming, and so
    is the pattern of the years. *)
Lemma patterns_consuming :
  forallb (fun e => forallb consuming (AnalysisEngine.e_patterns e))
          AnalysisEngine.patterns = true /\
  consuming Regex.year = true.
Proof. split; reflexivity. Qed.

End RegexFacts.

(* ================================================================== *)
(** * Properties of the comparator of CrossCheckReport *)
(* ================================================================== *)

Module ComparatorFacts.

Import Spec Facts Comparator DocumentAnalysis ComparisonResult CrossCheckReport.

(** ** The lookup of a figure *)

Lemma find_filter {A} (p : A -> bool) (l : list A) :
  find p l = hd_error (filter p l).
Proof.
  induction l as [|x l IH]; cbn; [reflexivity|].
  destruct (p x); [reflexivity | exact IH].
Qed.

(** [find] returns the first figure of the document for the field and
    the year. *)
Lemma findFigure_first (a : DocumentAnalysis.t) (f y : string) :
  findFigure a f y = hd_error (figuresFor f y a).
Proof.
  unfold findFigure, figuresFor. rewrite find_filter. reflexivity.
Qed.

Lemma findFigure_entry (a : DocumentAnalysis.t) (f y : string) :
  option_map ExtractedFigure.value (findFigure a f y) = entryOf f y a.
Proof. unfold entryOf. now rewrite findFigure_first. Qed.

Lemma hasValue_entry (a : DocumentAnalysis.t) (f y : string) :
  hasValue f y a = true <-> exists v, entryOf f y a = Some v.
Proof.
  unfold hasValue, entryOf.
  destruct (figuresFor f y a) as [|g l]; cbn.
  - split; [discriminate | intros [v H]; discriminate H].
  - split; [eauto | reflexivity].
Qed.

Lemma entry_count (a : DocumentAnalysis.t) (f y : string) :
  List.length (if hasValue f y a then [a] else []) =
  match entryOf f y a with Some _ => 1 | None => 0 end.
Proof.
  unfold hasValue, entryOf. destruct (figuresFor f y a); reflexivity.
Qed.

(** ** The [values] object of a field and a year *)

Section Gather.
Variables field year : string.

Lemma gather_snoc (l : list DocumentAnalysis.t) (a : DocumentAnalysis.t) :
  gather (l ++ [a]) field year = visit field year (gather l field year) a.
Proof. unfold gather. now rewrite fold_left_app. Qed.

Lemma visit_values (st : Obj.dict number * string) (a : DocumentAnalysis.t) :
  fst (visit field year st a) =
  Obj.assign (fst st) (fileName a) (entryOf field year a).
Proof. unfold visit. cbn [fst]. now rewrite findFigure_entry. Qed.

(** Every entry is the entry of a document of that name. *)
Lemma gather_entries (l : list DocumentAnalysis.t) (n : string)
      (v : option number) :
  In (n, v) (Obj.props (fst (gather l field year))) ->
  exists a, In a l /\ fileName a = n /\ entryOf field year a = v.
Proof.
  induction l as [|a l IH] using rev_ind.
  - intros [].
  - rewrite gather_snoc, visit_values. intros H. apply In_assign in H.
    destruct H as [[= -> ->] | H].
    + exists a. split; [apply in_or_app; cbn; auto | auto].
    + destruct (IH H) as (b & Hb & E). exists b.
      split; [apply in_or_app; auto | exact E].
Qed.

Lemma gather_keys_incl (l : list DocumentAnalysis.t) (n : string) :
  In n (Obj.keys (Obj.props (fst (gather l field year)))) ->
  In n (map fileName l).
Proof.
  unfold Obj.keys. intros H. apply in_map_iff in H.
  destruct H as ([n' v] & E & H). cbn in E. subst n'.
  apply gather_entries in H. destruct H as (a & Ha & Na & _).
  rewrite <- Na. now apply in_map.
Qed.


Lemma gather_NoDup (l : list DocumentAnalysis.t) :
  NoDup (Obj.keys (Obj.props (fst (gather l field year)))).
Proof.
  induction l as [|a l IH] using rev_ind.
  - constructor.
  - rewrite gather_snoc, visit_values. now apply keys_assign_NoDup.
Qed.

(** The entry under a name other than [__proto__] is that of the last
    document of that name. *)
Lemma gather_get (l : list DocumentAnalysis.t) (n : string) :
  n <> "__proto__" ->
  Obj.get (Obj.props (fst (gather l field year))) n =
  option_map (entryOf field year) (lastNamed l n).
Proof.
  intros N. unfold lastNamed.
  induction l as [|a l IH] using rev_ind.
  - reflexivity.
  - rewrite gather_snoc, visit_values, rev_app_distr, (get_assign _ _ _ _ N).
    cbn [app rev find].
    destruct (String.eqb (fileName a) n); [reflexivity | exact IH].
Qed.

Lemma gather_count (l : list DocumentAnalysis.t) :
  count (Obj.props (fst (gather l field year))) <=
  List.length (filter (hasValue field year) l).
Proof.
  induction l as [|a l IH] using rev_ind.
  - cbn. lia.
  - rewrite gather_snoc, visit_values, filter_app, length_app. cbn [filter].
    pose proof (count_assign (fst (gather l field year)) (fileName a)
                  (entryOf field year a)) as H.
    pose proof (entry_count a field year) as E. lia.
Qed.


(** With distinct names, none of them [__proto__], the entries are
    those of the documents, one each. *)
Lemma gather_permutation (l : list DocumentAnalysis.t) :
  NoDup (map fileName l) ->
  (forall a, In a l -> fileName a <> "__proto__") ->
  Permutation (Obj.props (fst (gather l field year)))
              (map (fun a => (fileName a, entryOf field year a)) l).
Proof.
  induction l as [|a l IH] using rev_ind; intros N P.
  - reflexivity.
  - rewrite map_app in N. apply NoDup_remove in N. cbn in N.
    rewrite app_nil_r in N. destruct N as [N Fresh].
    rewrite gather_snoc, visit_values.
    rewrite assign_plain by (apply P, in_or_app; cbn; auto).
    cbn [Obj.props]. unfold Obj.define.
    destruct (Obj.has (Obj.props (fst (gather l field year))) (fileName a))
      eqn:H.
    + apply has_keys, gather_keys_incl in H. contradiction.
    + rewrite insert_permutation, map_app. cbn [map].
      rewrite Permutation_app_comm. cbn [app]. constructor.
      apply IH; [exact N | intros b Hb; apply P, in_or_app; auto].
Qed.

End Gather.

(** Every comparison emitted is the one built for its own field and
    year. *)
Lemma compareOne_Some (analyses : list DocumentAnalysis.t) (f y : string)
      (c : ComparisonResult.t) :
  compareOne analyses f y = Some c ->
  field c = f /\ year c = y /\
  values c = fst (gather analyses f y) /\
  category c = snd (gather analyses f y) /\
  2 <= List.length (nonNullValues (values c)) /\
  consistent c =
    (List.length (JSet.ofList sameValueZero (nonNullValues (values c))) =? 1)%nat.
Proof.
  unfold compareOne.
  destruct (gather analyses f y) as [vals cat].
  destruct (2 <=? List.length (nonNullValues vals)) eqn:E; [|discriminate].
  intros [= <-]. cbn. apply Nat.leb_le in E. auto 7.
Qed.

Lemma generateComparisons_In (analyses : list DocumentAnalysis.t)
      (c : ComparisonResult.t) :
  In c (generateComparisons analyses) <->
  exists f y, In f (allFields analyses) /\ In y (allYears analyses) /\
              compareOne analyses f y = Some c.
Proof.
  unfold generateComparisons. rewrite in_flat_map. split.
  - intros (f & Hf & H). apply In_somes, in_map_iff in H.
    destruct H as (y & E & Hy). eauto.
  - intros (f & y & Hf & Hy & E). exists f. split; [assumption|].
    apply In_somes, in_map_iff. eauto.
Qed.

Lemma compared_field_year (analyses : list DocumentAnalysis.t)
      (c : ComparisonResult.t) :
  In c (generateComparisons analyses) ->
  compareOne analyses (field c) (year c) = Some c.
Proof.
  intros H. apply generateComparisons_In in H.
  destruct H as (f & y & _ & _ & E).
  destruct (compareOne_Some _ _ _ _ E) as (<- & <- & _). exact E.
Qed.


Lemma unique_one_allSame (l : list number) :
  l <> [] ->
  (List.length (JSet.ofList sameValueZero l) = 1 <-> allSame l).
Proof.
  destruct l as [|h l]; [congruence|]. intros _.
  rewrite ofList_singleton, forallb_forall. unfold allSame. split.
  - intros H v w Hv Hw.
    assert (G : forall x, In x (h :: l) -> sameValueZero x h = true).
    { intros x [<- | Hx]; [apply sameValueZero_refl | auto]. }
    eapply sameValueZero_trans; [apply G, Hv|].
    apply sameValueZero_sym, G, Hw.
  - intros H x Hx. apply H; cbn; auto.
Qed.

Lemma generateComparisons_two_example :
  generateComparisons Examples.twoAnalyses = [Examples.revenue2024].
Proof. vm_compute. reflexivity. Qed.

(** ** Entries that are not null *)

Lemma one_entry {V} (o : Obj.t (option V)) :
  1 <= count o -> exists n v, In (n, Some v) o.
Proof.
  unfold count, Obj.values.
  induction o as [|[k [x|]] o IH]; cbn; intros H.
  - lia.
  - exists k, x. auto.
  - destruct (IH H) as (n & v & Hin). eauto.
Qed.

Lemma two_entries {V} (o : Obj.t (option V)) :
  NoDup (Obj.keys o) -> 2 <= count o ->
  exists n1 n2 v1 v2,
    n1 <> n2 /\ In (n1, Some v1) o /\ In (n2, Some v2) o.
Proof.
  unfold count, Obj.values, Obj.keys.
  induction o as [|[k [x|]] o IH]; cbn; intros N H.
  - lia.
  - inversion N as [|? ? Hk N']; subst.
    destruct (one_entry o) as (n & v & Hin); [unfold count, Obj.values; lia|].
    exists k, n, x, v. split; [|auto].
    intros ->. apply Hk. apply in_map_iff. exists (n, Some v). auto.
  - inversion N as [|? ? Hk N']; subst.
    destruct (IH N' H) as (n1 & n2 & v1 & v2 & D & H1 & H2).
    exists n1, n2, v1, v2. auto.
Qed.

Lemma In_nonNull (d : Obj.dict number) (v : number) :
  In v (nonNullValues d) <-> exists n, In (n, Some v) (Obj.props d).
Proof.
  unfold nonNullValues, Obj.values. rewrite In_somes, in_map_iff. split.
  - intros ([n w] & E & H). cbn in E. subst w. eauto.
  - intros (n & H). exists (n, Some v). auto.
Qed.

Lemma somes_permutation {A} (l l' : list (option A)) :
  Permutation l l' ->
  Permutation (AnalysisEngine.somes l) (AnalysisEngine.somes l').
Proof.
  induction 1 as [|x l l' P IH|x y l|l l' l'' P IH P' IH'].
  - constructor.
  - destruct x; cbn; [now constructor | exact IH].
  - destruct x, y; cbn; try reflexivity. apply perm_swap.
  - now transitivity (AnalysisEngine.somes l').
Qed.

Lemma allSame_permutation (l l' : list number) :
  Permutation l l' -> (allSame l <-> allSame l').
Proof.
  intros P. unfold allSame. split; intros H v w Hv Hw; apply H.
  - apply (Permutation_in _ (Permutation_sym P)), Hv.
  - apply (Permutation_in _ (Permutation_sym P)), Hw.
  - apply (Permutation_in _ P), Hv.
  - apply (Permutation_in _ P), Hw.
Qed.

(** C1. The comparator emits a comparison for a field and a year only
    when at least two documents have a value for them: two analyses of
    different file names each have a figure that carries the label and
    the year. Each present value of the comparison is the value of the
    first such figure of an analysis. The [consistent] flag is true
    exactly when the set of the present values has one element, that is
    when all present values are the same; when the file names are
    distinct and none is [__proto__], the present values are those of
    all the analyses that have one. For a list of fewer than two
    analyses, in particular for a single document, no comparison is
    emitted. *)
Theorem comparison_needs_two_values (toLocaleString : number -> string)
        (analyses : list DocumentAnalysis.t) :
  (forall c, In c (comparisons (report toLocaleString analyses)) ->
     (exists a b,
        In a analyses /\ In b analyses /\ fileName a <> fileName b /\
        hasValue (field c) (year c) a = true /\
        hasValue (field c) (year c) b = true) /\
     (forall v, In v (nonNullValues (values c)) ->
        exists a, In a analyses /\ entryOf (field c) (year c) a = Some v) /\
     (consistent c = true <->
      List.length (JSet.ofList sameValueZero (nonNullValues (values c))) = 1) /\
     (consistent c = true <-> allSame (nonNullValues (values c))) /\
     (NoDup (map fileName analyses) ->
      (forall a, In a analyses -> fileName a <> "__proto__") ->
      Permutation (nonNullValues (values c))
                  (presentValues (field c) (year c) analyses) /\
      (consistent c = true <->
       allSame (presentValues (field c) (year c) analyses)))) /\
  (List.length analyses < 2 -> comparisons (report toLocaleString analyses) = []).
Proof.
  assert (Shape : forall c, In c (generateComparisons analyses) ->
            values c = fst (gather analyses (field c) (year c)) /\
            2 <= List.length (nonNullValues (values c)) /\
            (consistent c = true <->
             List.length (JSet.ofList sameValueZero (nonNullValues (values c))) = 1)).
  { intros c Hc. apply compared_field_year in Hc.
    destruct (compareOne_Some _ _ _ _ Hc) as (_ & _ & Hv & _ & H2 & Hk).
    repeat split; try assumption; rewrite Hk; apply Nat.eqb_eq. }
  split.
  - intros c Hc. cbn in Hc. destruct (Shape c Hc) as (Hv & H2 & Hone).
    assert (Hsame : consistent c = true <-> allSame (nonNullValues (values c))).
    { rewrite Hone. apply unique_one_allSame.
      intros E. rewrite E in H2. cbn in H2. lia. }
    split; [|split; [|split; [exact Hone | split; [exact Hsame|]]]].
    + destruct (two_entries (Obj.props (values c)))
        as (n1 & n2 & v1 & v2 & D & H1 & H2').
      { rewrite Hv. apply gather_NoDup. }
      { exact H2. }
      rewrite Hv in H1, H2'.
      apply gather_entries in H1, H2'.
      destruct H1 as (a & Ha & Na & Ea). destruct H2' as (b & Hb & Nb & Eb).
      exists a, b. repeat split; try assumption.
      * congruence.
      * apply hasValue_entry. eauto.
      * apply hasValue_entry. eauto.
    + intros v Hin. apply In_nonNull in Hin. destruct Hin as (n & Hin).
      rewrite Hv in Hin. apply gather_entries in Hin.
      destruct Hin as (a & Ha & _ & Ea). eauto.
    + intros N P.
      assert (Q : Permutation (nonNullValues (values c))
                    (presentValues (field c) (year c) analyses)).
      { unfold nonNullValues, presentValues, Obj.values. rewrite Hv.
        apply somes_permutation.
        rewrite (Permutation_map snd
                   (gather_permutation (field c) (year c) analyses N P)).
        rewrite map_map. reflexivity. }
      split; [exact Q|]. rewrite Hsame. now apply allSame_permutation.
  - intros Hlen. cbn.
    destruct (generateComparisons analyses) as [|c l] eqn:E; [reflexivity|].
    destruct (Shape c) as (Hv & H2 & _); [now left|].
    pose proof (gather_count (field c) (year c) analyses) as G.
    rewrite <- Hv in G. unfold count in G. unfold nonNullValues in H2.
    pose proof (filter_length_le (hasValue (field c) (year c)) analyses). lia.
Qed.

Lemma comparison_needs_two_values_witness :
  (exists a b,
     In a Examples.twoAnalyses /\ In b Examples.twoAnalyses /\
     fileName a <> fileName b /\
     hasValue "Revenue" "2024" a = true /\ hasValue "Revenue" "2024" b = true) /\
  Permutation (nonNullValues (values Examples.revenue2024))
              (presentValues "Revenue" "2024" Examples.twoAnalyses) /\
  ~ allSame (presentValues "Revenue" "2024" Examples.twoAnalyses).
Proof.
  destruct (comparison_needs_two_values Examples.hostLocale Examples.twoAnalyses)
    as [H _].
  destruct (H Examples.revenue2024) as (Two & _ & _ & _ & Present).
  - vm_compute. left. reflexivity.
  - destruct Present as [P Same].
    + vm_compute. repeat constructor; cbn; intuition discriminate.
    + vm_compute. intros a [<- | [<- | []]]; discriminate.
    + split; [exact Two|]. split; [exact P|].
      intros S. apply Same in S. discriminate S.
Defined.

(** C6. In every report the number of discrepancies and the number of
    consistent comparisons add up to the number of comparisons, where the
    total is the number of emitted comparisons and the consistent count
    the number of those whose [consistent] flag is true. *)
Theorem summary_counts_add_up (toLocaleString : number -> string)
        (analyses : list DocumentAnalysis.t) :
  let r := report toLocaleString analyses in
  discrepancyCount (summary r) + consistentCount (summary r)
    = totalComparisons (summary r) /\
  totalComparisons (summary r) = List.length (comparisons r) /\
  consistentCount (summary r) = List.length (filter consistent (comparisons r)).
Proof.
  cbn. repeat split.
  pose proof (filter_length_le consistent (generateComparisons analyses)). lia.
Qed.

(** With two analyses under one name, the later one gives the entry of
    that name, at the place of the earlier one. *)
Lemma generateComparisons_sameName_example :
  map (fun c => Obj.props (values c)) (generateComparisons Examples.sameName)
  = [[("a.pdf", Some (ofZ 12)); ("b.pdf", Some (ofZ 10))]].
Proof. vm_compute. reflexivity. Qed.




End ComparatorFacts.

(* ================================================================== *)
(** * The callback of the report leaves no state behind *)
(* ================================================================== *)

Module MemoFacts.

Import Spec Spec2 Facts Memo ComparatorFacts.

(** ** The heap *)

Lemma read_last (h e : Heap.t) (d : Obj.dict number) :
  Heap.read (h ++ d :: e) (List.length h) = d.
Proof. unfold Heap.read. apply nth_middle. Qed.

Lemma read_end (h : Heap.t) (d : Obj.dict number) :
  Heap.read (h ++ [d]) (List.length h) = d.
Proof. apply read_last. Qed.

Lemma write_last (h : Heap.t) (x d : Obj.dict number) :
  Heap.write (h ++ [x]) (List.length h) d = h ++ [d].
Proof. induction h as [|y h IH]; cbn; [reflexivity | now rewrite IH]. Qed.

(** ** The statements *)

Lemma store_eta (s : store) :
  s = {| heap := heap s; comparisons := comparisons s;
         allFields := allFields s; allYears := allYears s;
         values := values s; category := category s |}.
Proof. destruct s. reflexivity. Qed.

Lemma addFigures (figures : list ExtractedFigure.t) (s : store) :
  fold_left addFigure figures s =
  {| heap := heap s; comparisons := comparisons s;
     allFields := fold_left (JSet.add String.eqb)
                            (map ExtractedFigure.label figures) (allFields s);
     allYears := fold_left (JSet.add String.eqb)
                           (map ExtractedFigure.year figures) (allYears s);
     values := values s; category := category s |}.
Proof.
  revert s. induction figures as [|g figures IH]; intros s; cbn [fold_left map].
  - apply store_eta.
  - rewrite IH. reflexivity.
Qed.

Lemma collect_sets (analyses : list DocumentAnalysis.t) (s : store) :
  collect analyses s =
  {| heap := heap s; comparisons := comparisons s;
     allFields :=
       fold_left (JSet.add String.eqb)
                 (map ExtractedFigure.label (Comparator.allFigures analyses))
                 (allFields s);
     allYears :=
       fold_left (JSet.add String.eqb)
                 (map ExtractedFigure.year (Comparator.allFigures analyses))
                 (allYears s);
     values := values s; category := category s |}.
Proof.
  unfold collect, Comparator.allFigures. revert s.
  induction analyses as [|a analyses IH]; intros s; cbn [fold_left flat_map].
  - apply store_eta.
  - rewrite IH, addFigures. cbn [heap comparisons allFields allYears values category].
    now rewrite !map_app, !fold_left_app.
Qed.

Lemma visits (field year : string) (analyses : list DocumentAnalysis.t) :
  forall (pre : Heap.t) (x : Obj.dict number) (s : store),
    heap s = pre ++ [x] -> values s = List.length pre ->
    fold_left (visit field year) analyses s =
    let g := fold_left (Comparator.visit field year) analyses (x, category s) in
    {| heap := pre ++ [fst g]; comparisons := comparisons s;
       allFields := allFields s; allYears := allYears s;
       values := List.length pre; category := snd g |}.
Proof.
  induction analyses as [|a analyses IH]; intros pre x s H V; cbn [fold_left].
  - cbv zeta. cbn [fst snd]. rewrite <- H, <- V. apply store_eta.
  - rewrite (IH pre
               (Obj.assign x (DocumentAnalysis.fileName a)
                  (option_map ExtractedFigure.value
                     (Comparator.findFigure a field year)))).
    + reflexivity.
    + unfold visit. cbn [heap]. rewrite H, V, read_end. apply write_last.
    + unfold visit. cbn [values]. exact V.
Qed.

Lemma compare_advanced (analyses : list DocumentAnalysis.t) (f y : string)
      (s : store) :
  advanced analyses [(f, y)] s (compare analyses f y s).
Proof.
  unfold compare, enter, Heap.alloc.
  rewrite (visits f y analyses (heap s) Obj.fresh) by reflexivity.
  cbv zeta. cbn [category].
  change (fold_left (Comparator.visit f y) analyses (Obj.fresh, "Income Statement"))
    with (Comparator.gather analyses f y).
  unfold push. cbn [heap values category comparisons allFields allYears].
  rewrite !read_end.
  unfold advanced, createdFor, pushedFrom, Comparator.compareOne.
  cbn [map fst snd].
  destruct (Comparator.gather analyses f y) as [vals cat]. cbn [fst snd].
  destruct (2 <=? List.length (Comparator.nonNullValues vals));
    cbn [heap comparisons allFields allYears
         ComparisonResult.consistent ComparisonResult.category];
    rewrite ?app_nil_r; auto.
Qed.

Lemma pushedFrom_app (analyses : list DocumentAnalysis.t)
      (p1 p2 : list (string * string)) (base : nat) :
  pushedFrom analyses base (p1 ++ p2) =
  pushedFrom analyses base p1 ++
  pushedFrom analyses (base + List.length p1) p2.
Proof.
  revert base. induction p1 as [|fy p1 IH]; intros base; cbn [pushedFrom app].
  - now rewrite Nat.add_0_r.
  - rewrite IH, <- app_assoc. cbn [List.length].
    now rewrite Nat.add_succ_r.
Qed.

Lemma advanced_nil (analyses : list DocumentAnalysis.t) (s : store) :
  advanced analyses [] s s.
Proof. unfold advanced. cbn. now rewrite !app_nil_r. Qed.

Lemma advanced_trans (analyses : list DocumentAnalysis.t)
      (p1 p2 : list (string * string)) (s s1 s2 : store) :
  advanced analyses p1 s s1 -> advanced analyses p2 s1 s2 ->
  advanced analyses (p1 ++ p2) s s2.
Proof.
  intros (H1 & C1 & F1 & Y1) (H2 & C2 & F2 & Y2). unfold advanced.
  rewrite H2, C2, F2, Y2, H1, C1, F1, Y1.
  unfold createdFor. rewrite pushedFrom_app, map_app, !length_app, length_map.
  now rewrite <- !app_assoc.
Qed.

Lemma years_advanced (analyses : list DocumentAnalysis.t) (f : string)
      (years : list string) :
  forall s,
    advanced analyses (map (pair f) years) s
      (fold_left (fun s year => compare analyses f year s) years s).
Proof.
  induction years as [|y years IH]; intros s; cbn [fold_left map].
  - apply advanced_nil.
  - apply (advanced_trans analyses [(f, y)] (map (pair f) years) s
             (compare analyses f y s)).
    + apply compare_advanced.
    + apply IH.
Qed.

Lemma fields_advanced (analyses : list DocumentAnalysis.t)
      (fields : list string) :
  forall s,
    advanced analyses (pairsOf fields (allYears s)) s
      (fold_left
         (fun s field =>
            fold_left (fun s year => compare analyses field year s) (allYears s) s)
         fields s).
Proof.
  induction fields as [|f fields IH]; intros s; cbn [fold_left].
  - apply advanced_nil.
  - unfold pairsOf. cbn [flat_map].
    pose proof (years_advanced analyses f (allYears s) s) as A.
    eapply advanced_trans; [exact A|].
    destruct A as (_ & _ & _ & Y).
    specialize (IH (fold_left (fun s year => compare analyses f year s)
                              (allYears s) s)).
    rewrite Y in IH. exact IH.
Qed.

(** ** What the pushed comparisons show *)

Lemma load_pushed (analyses : list DocumentAnalysis.t)
      (pairs : list (string * string)) :
  forall (pre extra : Heap.t),
    map (load (pre ++ createdFor analyses pairs ++ extra))
        (pushedFrom analyses (List.length pre) pairs) =
    AnalysisEngine.somes
      (map (fun fy => Comparator.compareOne analyses (fst fy) (snd fy)) pairs).
Proof.
  induction pairs as [|[f y] pairs IH]; intros pre extra;
    cbn [pushedFrom createdFor map fst snd]; [reflexivity|].
  rewrite map_app.
  specialize (IH (pre ++ [fst (Comparator.gather analyses f y)]) extra).
  rewrite length_app, Nat.add_comm in IH. cbn [List.length Nat.add] in IH.
  rewrite <- app_assoc in IH. cbn [app] in IH. unfold createdFor in IH.
  cbn [app]. rewrite IH.
  unfold Comparator.compareOne.
  destruct (Comparator.gather analyses f y) as [vals cat] eqn:G. cbn [fst].
  destruct (2 <=? List.length (Comparator.nonNullValues vals));
    cbn [map AnalysisEngine.somes app]; [|reflexivity].
  unfold load at 1.
  cbn [p_year p_field p_values p_consistent p_category
       ComparisonResult.consistent ComparisonResult.category].
  now rewrite read_last.
Qed.

Lemma somes_pairs (analyses : list DocumentAnalysis.t)
      (fields years : list string) :
  AnalysisEngine.somes
    (map (fun fy => Comparator.compareOne analyses (fst fy) (snd fy))
         (pairsOf fields years)) =
  flat_map (fun f => AnalysisEngine.somes
                       (map (Comparator.compareOne analyses f) years)) fields.
Proof.
  unfold pairsOf. induction fields as [|f fields IH]; cbn [flat_map];
    [reflexivity|].
  rewrite map_app, somes_app, IH, map_map. reflexivity.
Qed.

Lemma filter_load (h : Heap.t) (l : list pushed) :
  filter ComparisonResult.consistent (map (load h) l) =
  map (load h) (filter p_consistent l).
Proof.
  induction l as [|p l IH]; cbn; [reflexivity|].
  destruct (p_consistent p); cbn; now rewrite IH.
Qed.

Lemma filter_load_not (h : Heap.t) (l : list pushed) :
  filter (fun c => negb (ComparisonResult.consistent c)) (map (load h) l) =
  map (load h) (filter (fun p => negb (p_consistent p)) l).
Proof.
  induction l as [|p l IH]; cbn; [reflexivity|].
  destruct (p_consistent p); cbn; now rewrite IH.
Qed.

(** One call, from any store: the heap only grows, and what is
    returned shows the report of the analyses in the heap the call
    leaves and in every heap that extends it. *)
Lemma run_report (toLocaleString : number -> string)
      (analyses : list DocumentAnalysis.t) (s : store) :
  exists created,
    heap (fst (run toLocaleString analyses s)) = heap s ++ created /\
    forall extra,
      view (heap (fst (run toLocaleString analyses s)) ++ extra)
           (snd (run toLocaleString analyses s))
      = Comparator.report toLocaleString analyses.
Proof.
  unfold run. cbn [fst snd].
  pose proof (fields_advanced analyses
                (allFields (collect analyses (declare s)))
                (collect analyses (declare s))) as A.
  fold (compareAll analyses (collect analyses (declare s))) in A.
  set (s' := compareAll analyses (collect analyses (declare s))) in *.
  rewrite collect_sets in A.
  cbn [heap comparisons allFields allYears declare] in A.
  change (fold_left (JSet.add String.eqb)
            (map ExtractedFigure.label (Comparator.allFigures analyses)) [])
    with (Comparator.allFields analyses) in A.
  change (fold_left (JSet.add String.eqb)
            (map ExtractedFigure.year (Comparator.allFigures analyses)) [])
    with (Comparator.allYears analyses) in A.
  set (pairs := pairsOf (Comparator.allFields analyses)
                        (Comparator.allYears analyses)) in *.
  destruct A as (H & C & _ & _). cbn [app] in C.
  exists (createdFor analyses pairs). split; [exact H|].
  intros extra.
  assert (L : forall more,
             map (load (heap s' ++ more)) (comparisons s')
             = Comparator.generateComparisons analyses).
  { intros more. rewrite H, C, <- app_assoc, load_pushed.
    unfold pairs. apply somes_pairs. }
  unfold view, Comparator.report, summarize.
  cbn [r_documentAnalyses r_comparisons r_summary].
  rewrite (L extra).
  pose proof (L []) as L0. rewrite app_nil_r in L0.
  rewrite <- L0.
  rewrite filter_load, filter_load_not, firstn_map, !length_map, !map_map.
  reflexivity.
Qed.

(** C9. Calling the comparator twice on the same list of analyses
    gives identical reports, whatever the store the first call starts
    from: the variables of the callback are declared anew by each call,
    and every [values] object is created by the call that fills it. The
    second call starts from the store the first one leaves; both
    reports are the report of the analyses, with the same comparisons in
    the same order, the same counts, key discrepancies and consistent
    sections, and the second call changes nothing of what the first
    report shows. The amounts in the key discrepancies are formatted by
    the host's [toLocaleString], the same for both calls. *)
Theorem comparator_idempotent (toLocaleString : number -> string)
        (analyses : list DocumentAnalysis.t) (s : store) :
  let first := run toLocaleString analyses s in
  let second := run toLocaleString analyses (fst first) in
  view (heap (fst first)) (snd first) = Comparator.report toLocaleString analyses /\
  view (heap (fst second)) (snd second) = view (heap (fst first)) (snd first) /\
  view (heap (fst second)) (snd first) = view (heap (fst first)) (snd first).
Proof.
  cbv zeta.
  destruct (run_report toLocaleString analyses s) as (c1 & H1 & V1).
  destruct (run_report toLocaleString analyses
              (fst (run toLocaleString analyses s))) as (c2 & H2 & V2).
  pose proof (V1 []) as A1. rewrite app_nil_r in A1.
  pose proof (V2 []) as A2. rewrite app_nil_r in A2.
  split; [exact A1|]. split.
  - now rewrite A1, A2.
  - rewrite H2, A1. apply V1.
Qed.

End MemoFacts.

(* ================================================================== *)
(** * Properties of the figure extractors *)
(* ================================================================== *)

Module ExtractorFacts.

Import Spec Facts RegexFacts ExtractedFigure AnalysisEngine.

(** ** Searching a string *)

(** Where [find] reports an occurrence, there is one. *)
Lemma find_occurs (sub s : string) (pos i : nat) :
  Str.find sub s pos = Some i ->
  exists k, i = pos + k /\ k <= String.length s /\
            Str.startsWith sub (Str.drop k s) = true.
Proof.
  revert pos. induction s as [|c s IH]; intros pos; cbn.
  - destruct (Str.startsWith sub "") eqn:E; [|discriminate].
    intros [= <-]. exists 0. cbn. repeat split; auto.
  - destruct (Str.startsWith sub (String c s)) eqn:E.
    + intros [= <-]. exists 0. cbn. repeat split; auto. lia.
    + intros H. apply IH in H. destruct H as (k & -> & Hk & Hs).
      exists (S k). cbn. repeat split; auto; lia.
Qed.

(** A result of [indexOf] other than -1 is the offset of an
    occurrence. *)
Lemma indexOf_occurs (text sub : string) (from : Z) :
  Str.indexOf text sub from <> (-1)%Z ->
  exists Y, Str.indexOf text sub from = Z.of_nat Y /\ occursAt text sub Y.
Proof.
  unfold Str.indexOf, occursAt.
  destruct (String.length text <? Z.to_nat from) eqn:L.
  - destruct (Str.startsWith sub "") eqn:E; [|congruence].
    intros _. exists (String.length text). repeat split; auto.
    destruct sub; [reflexivity | discriminate].
  - apply Nat.ltb_ge in L.
    destruct (Str.find sub (Str.drop (Z.to_nat from) text) (Z.to_nat from))
      as [i|] eqn:F; [|congruence].
    intros _. apply find_occurs in F. destruct F as (k & -> & Hk & Hs).
    exists (Z.to_nat from + k). rewrite drop_length in Hk by assumption.
    rewrite drop_add in Hs by assumption. repeat split; auto. lia.
Qed.

(** ** The year of a figure *)

Lemma closer_single (text y : string) (M : Z) (d : option Z) :
  fst (closer text M (y, d) y) = y.
Proof.
  unfold closer.
  destruct (negb _); [|reflexivity].
  destruct (_ && _); reflexivity.
Qed.

Lemma closestYear_single (text y : string) (M : Z) :
  closestYear text [y] M = y.
Proof. unfold closestYear. cbn. apply closer_single. Qed.

(** A candidate with no occurrence within 300 characters of the match
    leaves [closestYear] and [closestDistance] as they are. *)
Lemma closer_far (text y : string) (M : Z) (st : string * option Z) :
  (forall Y, occursAt text y Y -> (300 <= Z.abs (M - Z.of_nat Y))%Z) ->
  closer text M st y = st.
Proof.
  intros Far. unfold closer.
  destruct (Z.eqb_spec (Str.indexOf text y (Z.max 0 (M - 200))) (-1)) as [E|E];
    cbn [negb]; [reflexivity|].
  destruct (indexOf_occurs _ _ _ E) as (Y & -> & HY).
  specialize (Far Y HY).
  replace (Z.abs (Z.of_nat Y - M) <? 300)%Z with false.
  - now rewrite andb_false_r.
  - symmetry. apply Z.ltb_ge. lia.
Qed.

Lemma fold_closer_far (text : string) (years : list string) (M : Z)
      (st : string * option Z) :
  (forall y Y, In y years -> occursAt text y Y ->
               (300 <= Z.abs (M - Z.of_nat Y))%Z) ->
  fold_left (closer text M) years st = st.
Proof.
  induction years as [|y years IH]; intros Far; cbn.
  - reflexivity.
  - rewrite closer_far.
    + apply IH. intros y' Y Hy. apply Far. now right.
    + intros Y. apply Far. now left.
Qed.

Lemma closestYear_far (text : string) (years : list string) (M : Z) :
  (forall y Y, In y years -> occursAt text y Y ->
               (300 <= Z.abs (M - Z.of_nat Y))%Z) ->
  closestYear text years M = firstYear years.
Proof.
  intros Far. unfold closestYear. now rewrite fold_closer_far.
Qed.


Lemma farCheck_sound (text y : string) (M : Z) :
  farCheck text y M = true ->
  forall Y, occursAt text y Y -> (300 <= Z.abs (M - Z.of_nat Y))%Z.
Proof.
  unfold farCheck. rewrite forallb_forall. intros H Y [HY Hs].
  specialize (H Y). rewrite in_seq, Hs in H. cbn in H.
  apply Z.leb_le, H. lia.
Qed.

(** ** The candidate years *)

Lemma fold_add_head (xs l : list string) (a : string) :
  hd EmptyString (fold_left (JSet.add String.eqb) xs (a :: l)) = a.
Proof.
  revert l. induction xs as [|x xs IH]; intros l; cbn.
  - reflexivity.
  - unfold JSet.add at 2. destruct (JSet.has String.eqb (a :: l) x); apply IH.
Qed.

Lemma foundYears_nonempty (currentYear : Z) (text : string) :
  In (firstYear (foundYears currentYear text)) (foundYears currentYear text).
Proof.
  unfold foundYears.
  destruct (JSet.ofList String.eqb (map whole (execAll Regex.year text))) as [|y l].
  - unfold JSet.add at 2. cbn.
    unfold JSet.add.
    destruct (JSet.has String.eqb [Str.ofZ currentYear] (Str.ofZ (currentYear - 1)));
      now left.
  - now left.
Qed.

Lemma foundYears_first (currentYear : Z) (text : string) (m0 : rmatch)
      (rest : list rmatch) :
  execAll Regex.year text = m0 :: rest ->
  firstYear (foundYears currentYear text) = whole m0.
Proof.
  intros E. unfold foundYears. rewrite E. unfold JSet.ofList. cbn [map fold_left].
  unfold JSet.add at 2. cbn [JSet.has existsb app].
  pose proof (fold_add_head (map whole rest) [] (whole m0)) as H.
  pose proof (fold_add_length_ge String.eqb (map whole rest) [whole m0]) as L.
  destruct (fold_left (JSet.add String.eqb) (map whole rest) [whole m0]) eqn:F.
  - cbn in L. lia.
  - cbn. apply (fold_add_head (map whole rest) [] (whole m0)).
Qed.

(** ** The figures emitted *)

Lemma extract_In (currentYear : Z) (text fileName : string) (f : ExtractedFigure.t) :
  In f (extractFinancialFigures currentYear text fileName) <->
  exists e p m, In e patterns /\ In p (e_patterns e) /\ In m (execAll p text) /\
    figureOfMatch text fileName (foundYears currentYear text)
                  (e_category e) (e_field e) m = Some f.
Proof.
  unfold extractFinancialFigures, figuresOfPattern. rewrite in_flat_map. split.
  - intros (e & He & H). apply in_flat_map in H. destruct H as (p & Hp & H).
    apply In_somes, in_map_iff in H. destruct H as (m & E & Hm).
    exists e, p, m. auto.
  - intros (e & p & m & He & Hp & Hm & E).
    exists e. split; [assumption|]. apply in_flat_map.
    exists p. split; [assumption|]. apply In_somes, in_map_iff. eauto.
Qed.

Lemma figureOfMatch_Some (text fileName : string) (years : list string)
      (category field : string) (m : rmatch) (f : ExtractedFigure.t) :
  figureOfMatch text fileName years category field m = Some f ->
  value f = parseFloat (Str.removeCommas (capture m)) /\
  isNaN (value f) = false /\ gtb (value f) zero = true /\
  year f = closestYear text years (Z.of_nat (index m)).
Proof.
  unfold figureOfMatch.
  destruct (negb (isNaN _) && gtb _ zero) eqn:G; [|discriminate].
  intros [= <-]. cbn. apply andb_prop in G. destruct G as [N P].
  apply negb_true_iff in N. auto.
Qed.

Lemma gtb_zero_positive (x : number) :
  gtb x zero = true -> strictlyPositive x.
Proof.
  unfold gtb, zero, strictlyPositive, Infinity.
  destruct x as [s|[]| |[] m e]; cbn; try discriminate; eauto.
Qed.

Lemma dashboard_extract_In (text fileName : string) (g : Dashboard.Figure.t) :
  In g (Dashboard.extractFinancialFigures text fileName) <->
  exists cp p, In cp Dashboard.financialPatterns /\ In p (snd cp) /\
    Dashboard.figureOfPattern text fileName (Dashboard.yearsOf text) (fst cp) p
      = Some g.
Proof.
  unfold Dashboard.extractFinancialFigures. rewrite in_flat_map. split.
  - intros (cp & Hcp & H). apply In_somes, in_map_iff in H.
    destruct H as (p & E & Hp). eauto.
  - intros (cp & p & Hcp & Hp & E). exists cp. split; [assumption|].
    apply In_somes, in_map_iff. eauto.
Qed.

Lemma dashboard_figureOfPattern_Some (text fileName : string)
      (years : list string) (category : string) (p : regex)
      (g : Dashboard.Figure.t) :
  Dashboard.figureOfPattern text fileName years category p = Some g ->
  exists m, firstMatch p text = Some m /\
    Dashboard.Figure.value g = parseFloat (Str.removeCommas (capture m)) /\
    isNaN (Dashboard.Figure.value g) = false.
Proof.
  unfold Dashboard.figureOfPattern.
  destruct (firstMatch p text) as [m|]; [|discriminate].
  destruct (negb (String.eqb (capture m) "")); [|discriminate].
  destruct (isNaN (parseFloat (Str.removeCommas (capture m)))) eqn:N;
    cbn [negb]; [discriminate|].
  intros [= <-]. exists m. cbn. auto.
Qed.

(** ** Worked examples *)

Lemma nearYear_figures :
  extractFinancialFigures 2026 Examples.nearYear "a.pdf" = [Examples.revenueFigure].
Proof. vm_compute. reflexivity. Qed.

Lemma farYear_figures :
  extractFinancialFigures 2026 Examples.farYear "a.pdf" = [Examples.revenueFigure].
Proof. vm_compute. reflexivity. Qed.

(** C2. A figure built from a match at offset M of a pattern of the
    table is emitted by the extractor, and its year is attributed as
    follows. When the text has a single candidate year (which is the case
    when it contains exactly one year token), that year is attributed, in
    particular when it occurs at an offset Y with |M - Y| < 300. When no
    candidate year occurs within 300 characters of M, the first candidate
    in order of first appearance is attributed: the first year token of
    the text when it has one. *)
Theorem year_attribution (currentYear : Z) (text fileName : string)
        (e : entry) (p : regex) (m : rmatch) (f : ExtractedFigure.t) :
  let years := foundYears currentYear text in
  let M := Z.of_nat (index m) in
  In e patterns -> In p (e_patterns e) -> In m (execAll p text) ->
  figureOfMatch text fileName years (e_category e) (e_field e) m = Some f ->
  In f (extractFinancialFigures currentYear text fileName) /\
  (forall token, execAll Regex.year text = [token] -> years = [whole token]) /\
  (forall y, years = [y] ->
     year f = y /\
     (forall Y, occursAt text y Y -> (Z.abs (M - Z.of_nat Y) < 300)%Z ->
                year f = y)) /\
  ((forall y Y, In y years -> occursAt text y Y ->
                (300 <= Z.abs (M - Z.of_nat Y))%Z) ->
   year f = firstYear years) /\
  In (firstYear years) years /\
  (forall first rest, execAll Regex.year text = first :: rest ->
                      firstYear years = whole first).
Proof.
  intros years M He Hp Hm Hf.
  destruct (figureOfMatch_Some _ _ _ _ _ _ _ Hf) as (_ & _ & _ & Hy).
  split; [|split; [|split; [|split; [|split]]]].
  - apply extract_In. exists e, p, m. auto.
  - intros token E. unfold years, foundYears. rewrite E. reflexivity.
  - intros y E. rewrite Hy, E. split; [|intros _ _ _]; apply closestYear_single.
  - intros Far. rewrite Hy. apply closestYear_far, Far.
  - apply foundYears_nonempty.
  - apply foundYears_first.
Qed.

Lemma year_attribution_witness :
  In Examples.revenueFigure (extractFinancialFigures 2026 Examples.nearYear "a.pdf") /\
  year Examples.revenueFigure = "2024" /\
  year Examples.revenueFigure = firstYear (foundYears 2026 Examples.farYear).
Proof.
  pose proof (year_attribution 2026 Examples.nearYear "a.pdf" Examples.revenueEntry
                (pat "revenue") Examples.nearMatch Examples.revenueFigure) as Near.
  pose proof (year_attribution 2026 Examples.farYear "a.pdf" Examples.revenueEntry
                (pat "revenue") Examples.farMatch Examples.revenueFigure) as Far.
  cbv zeta in Near, Far.
  destruct Near as (Emitted & _ & One & _).
  { left. reflexivity. }
  { left. reflexivity. }
  { vm_compute. left. reflexivity. }
  { vm_compute. reflexivity. }
  destruct Far as (_ & _ & _ & Fallback & _).
  { left. reflexivity. }
  { left. reflexivity. }
  { vm_compute. left. reflexivity. }
  { vm_compute. reflexivity. }
  split; [exact Emitted | split].
  - destruct (One "2024") as [_ Within].
    { vm_compute. reflexivity. }
    apply (Within 3).
    + split; [vm_compute; lia | vm_compute; reflexivity].
    + vm_compute. reflexivity.
  - apply Fallback. intros y Y [<- | []].
    apply farCheck_sound. vm_compute. reflexivity.
Defined.

(** C3, as the code has it. Every figure the extractor of AnalysisEngine
    (confidence 0.85) emits has a value that is not NaN and is strictly
    positive: a positive finite number or +Infinity. There, a match whose
    captured group fails to parse, or parses to a value that is not
    greater than zero, produces no figure. In the extractor of
    AnalysisDashboard (confidence 0.9) no emitted value is NaN, and a
    match whose captured group fails to parse produces no figure. *)
Theorem emitted_values_positive (currentYear : Z) (text fileName : string) :
  (forall f, In f (AnalysisEngine.extractFinancialFigures currentYear text fileName) ->
     isNaN (value f) = false /\ gtb (value f) zero = true /\
     strictlyPositive (value f)) /\
  (forall years category field m,
     let v := parseFloat (Str.removeCommas (capture m)) in
     isNaN v = true \/ gtb v zero = false ->
     figureOfMatch text fileName years category field m = None) /\
  (forall g, In g (Dashboard.extractFinancialFigures text fileName) ->
     isNaN (Dashboard.Figure.value g) = false) /\
  (forall years category p m,
     firstMatch p text = Some m ->
     isNaN (parseFloat (Str.removeCommas (capture m))) = true ->
     Dashboard.figureOfPattern text fileName years category p = None).
Proof.
  split; [|split; [|split]].
  - intros f Hf. apply extract_In in Hf.
    destruct Hf as (e & p & m & _ & _ & _ & Hf).
    destruct (figureOfMatch_Some _ _ _ _ _ _ _ Hf) as (_ & N & P & _).
    auto using gtb_zero_positive.
  - intros years category field m v [N | P]; unfold figureOfMatch; fold v.
    + rewrite N. reflexivity.
    + rewrite P, andb_false_r. reflexivity.
  - intros g Hg. apply dashboard_extract_In in Hg.
    destruct Hg as (cp & p & _ & _ & Hg).
    apply dashboard_figureOfPattern_Some in Hg.
    destruct Hg as (m & _ & _ & N). exact N.
  - intros years category p m Hm N. unfold Dashboard.figureOfPattern.
    rewrite Hm, N. destruct (negb (String.eqb (capture m) "")); reflexivity.
Qed.

Lemma emitted_values_positive_witness :
  strictlyPositive (value Examples.revenueFigure) /\
  figureOfMatch "Revenue: 0" "a.pdf" ["2024"] "Income Statement" "Revenue"
    {| index := 0; whole := "Revenue: 0"; capture := "0" |} = None.
Proof.
  destruct (emitted_values_positive 2026 Examples.nearYear "a.pdf") as (Pos & _).
  destruct (emitted_values_positive 2026 "Revenue: 0" "a.pdf") as (_ & Rej & _).
  split.
  - destruct (Pos Examples.revenueFigure) as (_ & _ & P).
    + vm_compute. left. reflexivity.
    + exact P.
  - apply Rej. right. vm_compute. reflexivity.
Defined.

(** The value of a figure need not be finite: an amount of 310 digits is
    read as +Infinity, which is greater than zero and not NaN, and the
    figure is emitted. *)
Lemma emitted_value_not_finite :
  exists f,
    In f (AnalysisEngine.extractFinancialFigures 2026 Examples.hugeAmount "a.pdf") /\
    value f = Infinity /\ isFinite (value f) = false.
Proof.
  eexists. split; [vm_compute; left; reflexivity|].
  split; reflexivity.
Qed.

(** The extractor of AnalysisDashboard has no test for a positive
    value: an amount of zero is emitted. *)
Lemma dashboard_emits_zero :
  exists g,
    In g (Dashboard.extractFinancialFigures "Revenue: 0" "a.pdf") /\
    Dashboard.Figure.value g = zero /\ gtb (Dashboard.Figure.value g) zero = false.
Proof.
  eexists. split; [vm_compute; left; reflexivity|].
  split; reflexivity.
Qed.

End ExtractorFacts.

(* ================================================================== *)
(** * Properties of the aggregators *)
(* ================================================================== *)

Module AggregatorFacts.

Import Spec Facts World Aggregator DocumentAnalysis.

Ltac unfold_calls :=
  unfold analyzeDocument, analyzeBody, Aggregator.extractText,
    Dashboard.extractText, callUpload, callExtractFromUrl,
    callExtractFromBlob, call, bind, tryCatch, ret, throw,
    obtainedText, urlMethod, engineCalls, valid in *.

Ltac crunch := cbv beta iota zeta; cbn [negb andb fst snd app].

Ltac split_outcomes w file :=
  destruct (size file =? 0)%Z; crunch;
  destruct (50 * 1024 * 1024 <? size file)%Z; crunch;
  destruct (supported (Str.extensionOf (name file))); crunch;
  repeat (match goal with
          | |- context [upload w file] =>
              destruct (upload w file) as [url|?]
          | |- context [extractFromUrl w ?u] =>
              destruct (extractFromUrl w u) as [t|?]
          | |- context [extractFromBlob w file] =>
              destruct (extractFromBlob w file) as [t|?]
          | |- context [Str.isBlank ?x] =>
              destruct (Str.isBlank x) eqn:Blank
          end; crunch).

(** The calls made for a document: none for a file that fails the
    checks, else those of the URL-then-blob strategy. *)
Lemma analyzeDocument_calls (w : World.t) (file : File) :
  fst (analyzeDocument w file) =
  if valid file then engineCalls w file else [].
Proof.
  unfold_calls. split_outcomes w file; reflexivity.
Qed.

(** When the body of [analyzeDocument] returns, and what. *)
Lemma analyzeBody_returns (w : World.t) (file : File) (a : DocumentAnalysis.t) :
  snd (analyzeBody w file) = Returns a <->
  valid file = true /\
  exists t, obtainedText w file = Some t /\ Str.isBlank t = false /\
            a = analysisOf w file t.
Proof.
  unfold_calls. split_outcomes w file;
    (split;
     [ intros H;
       first [ discriminate H
             | injection H as <-; split; [reflexivity | exists t; auto] ]
     | intros [V (t' & T & B & ->)];
       first [ discriminate V | discriminate T
             | injection T as <-; congruence ] ]).
Qed.

(** When it throws. *)
Lemma analyzeBody_throws (w : World.t) (file : File) :
  (exists message, snd (analyzeBody w file) = Throws message) <->
  valid file = false \/ obtainedText w file = None \/
  exists t, obtainedText w file = Some t /\ Str.isBlank t = true.
Proof.
  unfold_calls. split_outcomes w file;
    (split;
     [ intros [thrown H]; first [ discriminate H | eauto 6 ]
     | intros [V | [T | (t' & T & B)]];
       first [ discriminate V | discriminate T
             | injection T as <-; congruence | eauto ] ]).
Qed.

Lemma analyzeDocument_eq (w : World.t) (file : File) :
  snd (analyzeDocument w file) =
  match snd (analyzeBody w file) with
  | Returns a => a
  | Throws message =>
      {| fileName := name file; extractedFigures := [];
         extractionStatus := failed; errorMessage := Some message |}
  end.
Proof.
  unfold analyzeDocument.
  destruct (analyzeBody w file) as [log [a|message]]; reflexivity.
Qed.

Lemma analysisOf_status (w : World.t) (file : File) (t : string) :
  fileName (analysisOf w file t) = name file /\
  extractionStatus (analysisOf w file t) <> failed /\
  (extractionStatus (analysisOf w file t) = success <->
   extractedFigures (analysisOf w file t) <> []) /\
  (extractionStatus (analysisOf w file t) = partial <->
   AnalysisEngine.extractFinancialFigures (currentYear w) t (name file) = []).
Proof.
  unfold analysisOf. cbn [fileName extractionStatus extractedFigures].
  destruct (AnalysisEngine.extractFinancialFigures (currentYear w) t (name file));
    cbn [List.length Nat.ltb Nat.leb]; repeat split; congruence.
Qed.

(** When a document is failed. *)
Lemma analyzeDocument_failed_iff (w : World.t) (file : File) :
  extractionStatus (snd (analyzeDocument w file)) = failed <->
  valid file = false \/ obtainedText w file = None \/
  exists t, obtainedText w file = Some t /\ Str.isBlank t = true.
Proof.
  rewrite <- analyzeBody_throws, analyzeDocument_eq.
  destruct (snd (analyzeBody w file)) as [a|message] eqn:E.
  - apply analyzeBody_returns in E. destruct E as (_ & t & _ & _ & ->).
    destruct (analysisOf_status w file t) as (_ & NF & _).
    split; [contradiction | intros [? ?]; discriminate].
  - cbn. split; eauto.
Qed.

Lemma obtainedText_None (w : World.t) (file : File) :
  obtainedText w file = None <->
  throws (urlMethod w file) = true /\ throws (extractFromBlob w file) = true.
Proof.
  unfold obtainedText.
  destruct (urlMethod w file); cbn.
  - split; [discriminate | intros [? _]; discriminate].
  - destruct (extractFromBlob w file); cbn.
    + split; [discriminate | intros [_ ?]; discriminate].
    + tauto.
Qed.

(** C4, as the code has it. The analysis of a file carries its name and
    - has status success exactly when it has at least one figure;
    - has status failed exactly when the body of [analyzeDocument]
      throws, which is when the file fails the checks made before any
      call, or both the URL method (upload and extraction from the URL)
      and the blob method throw, or the text obtained is blank; a failed
      analysis has no figure and carries the message of the error;
    - has status partial exactly when the file passes the checks, a text
      that is not blank is obtained, and the extractor finds no figure in
      it. *)
Theorem status_classification (w : World.t) (file : File) :
  let a := snd (analyzeDocument w file) in
  fileName a = name file /\
  (extractionStatus a = success <-> extractedFigures a <> []) /\
  (extractionStatus a = failed <->
   exists message, snd (analyzeBody w file) = Throws message) /\
  (extractionStatus a = failed <->
   valid file = false \/ obtainedText w file = None \/
   exists t, obtainedText w file = Some t /\ Str.isBlank t = true) /\
  (extractionStatus a = failed ->
   extractedFigures a = [] /\
   exists message, snd (analyzeBody w file) = Throws message /\
                   errorMessage a = Some message) /\
  (extractionStatus a = partial <->
   valid file = true /\
   exists t, obtainedText w file = Some t /\ Str.isBlank t = false /\
     AnalysisEngine.extractFinancialFigures (currentYear w) t (name file) = []).
Proof.
  cbv zeta.
  split; [|split; [|split; [|split; [|split]]]].
  - rewrite analyzeDocument_eq.
    destruct (snd (analyzeBody w file)) as [a|message] eqn:E; [|reflexivity].
    apply analyzeBody_returns in E. destruct E as (_ & t & _ & _ & ->).
    apply analysisOf_status.
  - rewrite analyzeDocument_eq.
    destruct (snd (analyzeBody w file)) as [a|message] eqn:E.
    + apply analyzeBody_returns in E. destruct E as (_ & t & _ & _ & ->).
      apply analysisOf_status.
    + cbn. split; [discriminate | congruence].
  - rewrite analyzeBody_throws. apply analyzeDocument_failed_iff.
  - apply analyzeDocument_failed_iff.
  - intros F. pose proof F as F'.
    apply analyzeDocument_failed_iff, analyzeBody_throws in F'.
    destruct F' as [message E]. rewrite analyzeDocument_eq, E. cbn. eauto.
  - rewrite analyzeDocument_eq.
    destruct (snd (analyzeBody w file)) as [a|message] eqn:E.
    + apply analyzeBody_returns in E. destruct E as (V & t & T & B & ->).
      destruct (analysisOf_status w file t) as (_ & _ & _ & P).
      rewrite P. split.
      * intros F. split; [assumption|]. exists t. auto.
      * intros (_ & t' & T' & _ & F). congruence.
    + cbn. split; [discriminate|].
      intros (V & t & T & B & _).
      assert (X : exists m, snd (analyzeBody w file) = Throws m) by eauto.
      apply analyzeBody_throws in X.
      destruct X as [X | [X | (t' & X & B')]]; congruence.
Qed.

Lemma status_classification_witness :
  extractedFigures (snd (analyzeDocument (Examples.served Examples.twoReports)
                                         Examples.emptyFile)) = [] /\
  exists message,
    errorMessage (snd (analyzeDocument (Examples.served Examples.twoReports)
                                       Examples.emptyFile)) = Some message.
Proof.
  destruct (status_classification (Examples.served Examples.twoReports)
              Examples.emptyFile) as (_ & _ & _ & _ & F & _).
  destruct F as (Hf & message & _ & Hm).
  - vm_compute. reflexivity.
  - split; [exact Hf | exists message; exact Hm].
Defined.

(** An error of the upload does not fail the document: the blob method
    still yields its text and the status is success. And a document is
    failed without any error of upload or extraction, and without any
    call, when the file is empty. *)
Lemma failed_is_not_upload_or_extraction_error :
  (upload (Examples.storageDown Examples.twoReports) (Examples.pdf "a.pdf")
   = Throws "storage unavailable" /\
   extractionStatus
     (snd (analyzeDocument (Examples.storageDown Examples.twoReports)
                           (Examples.pdf "a.pdf"))) = success) /\
  (fst (analyzeDocument (Examples.served Examples.twoReports) Examples.emptyFile)
   = [] /\
   extractionStatus
     (snd (analyzeDocument (Examples.served Examples.twoReports)
                           Examples.emptyFile)) = failed).
Proof. vm_compute. repeat split; reflexivity. Qed.

(** C5, as the code has it. In AnalysisEngine the calls for a file that
    passes the checks are the upload, then the extraction from the URL if
    the upload returned, then the extraction from the blob exactly when
    the upload or the extraction from the URL threw; a text returned by
    the URL method is kept as it is, blank or not. The document is failed
    exactly when the file fails the checks, or both methods throw, or the
    text obtained is blank. In AnalysisDashboard the upload comes first
    and its error ends the whole run; then the URL, then the blob when
    the URL throws, and the sample text, not a failure, when both
    throw. *)
Theorem extraction_strategy (w : World.t) (i : nat) (file : File) :
  fst (Aggregator.extractText w file) = engineCalls w file /\
  fst (analyzeDocument w file) = (if valid file then engineCalls w file else []) /\
  (In (ExtractFromBlob file) (fst (analyzeDocument w file)) <->
   valid file = true /\ throws (urlMethod w file) = true) /\
  (forall t, urlMethod w file = Returns t -> obtainedText w file = Some t) /\
  (extractionStatus (snd (analyzeDocument w file)) = failed <->
   valid file = false \/
   (throws (urlMethod w file) = true /\ throws (extractFromBlob w file) = true) \/
   exists t, obtainedText w file = Some t /\ Str.isBlank t = true) /\
  Dashboard.extractText w i file =
    match upload w file with
    | Throws e => ([Upload file], Throws e)
    | Returns url =>
        match extractFromUrl w url with
        | Returns t => ([Upload file; ExtractFromUrl url], Returns t)
        | Throws _ =>
            ([Upload file; ExtractFromUrl url; ExtractFromBlob file],
             match extractFromBlob w file with
             | Returns t => Returns t
             | Throws _ => Returns (Dashboard.sampleText i (name file))
             end)
        end
    end.
Proof.
  split; [|split; [|split; [|split; [|split]]]].
  - unfold_calls.
    destruct (upload w file) as [url|?];
      [destruct (extractFromUrl w url) as [t|?]|];
      try (destruct (extractFromBlob w file) as [t|?]); reflexivity.
  - apply analyzeDocument_calls.
  - rewrite analyzeDocument_calls. unfold engineCalls, urlMethod.
    destruct (valid file); cbn.
    + destruct (upload w file) as [url|?];
        [destruct (extractFromUrl w url) as [t|?]|]; cbn;
        intuition (try discriminate; auto).
    + intuition discriminate.
  - intros t E. unfold obtainedText. now rewrite E.
  - rewrite analyzeDocument_failed_iff, obtainedText_None. reflexivity.
  - unfold_calls.
    destruct (upload w file) as [url|?];
      [destruct (extractFromUrl w url) as [t|?]|];
      try (destruct (extractFromBlob w file) as [t|?]); reflexivity.
Qed.

Lemma extraction_strategy_witness :
  obtainedText (Examples.served Examples.twoReports) (Examples.pdf "a.pdf")
  = Some "Revenue: $1,000,000 (2024)".
Proof.
  destruct (extraction_strategy (Examples.served Examples.twoReports) 0
              (Examples.pdf "a.pdf")) as (_ & _ & _ & Kept & _).
  apply Kept. vm_compute. reflexivity.
Defined.

(** The URL method returns an empty text without throwing, and the blob
    method would return the text of the document: the blob method is not
    called, and the document is failed although no method threw. *)
Lemma blank_url_text_fails_without_fallback :
  let w := Examples.emptyByUrl Examples.twoReports in
  let file := Examples.pdf "a.pdf" in
  urlMethod w file = Returns EmptyString /\
  extractFromBlob w file = Returns "Revenue: $1,000,000 (2024)" /\
  fst (analyzeDocument w file) = [Upload file; ExtractFromUrl "a.pdf"] /\
  extractionStatus (snd (analyzeDocument w file)) = failed.
Proof. vm_compute. repeat split; reflexivity. Qed.

End AggregatorFacts.

(* ================================================================== *)
(** * Properties of the comparator of AnalysisDashboard *)
(* ================================================================== *)

Module DashboardFacts.

Import Spec Facts World Dashboard Dashboard.Figure.

Lemma extractAll_two_example :
  extractAll (Examples.served Examples.twoReports) 0 Examples.twoFiles Obj.empty
  = ([Upload (Examples.pdf "a.pdf"); ExtractFromUrl "a.pdf";
      Upload (Examples.pdf "b.pdf"); ExtractFromUrl "b.pdf"],
     Returns Examples.twoExtracted).
Proof. vm_compute. reflexivity. Qed.

Lemma In_discrepanciesOf (l : list finding) (d : Discrepancy) :
  In d (discrepanciesOf l) <-> In (FoundDiscrepancy d) l.
Proof.
  induction l as [|[m|d'|] l IH]; cbn.
  - tauto.
  - rewrite IH. split; [auto | intros [H|H]; [discriminate | auto]].
  - rewrite IH. split; intros [H|H]; auto; left; congruence.
  - rewrite IH. split; [auto | intros [H|H]; [discriminate | auto]].
Qed.

Lemma In_matchesOf (l : list finding) (m : Match) :
  In m (matchesOf l) <-> In (FoundMatch m) l.
Proof.
  induction l as [|[m'|d|] l IH]; cbn.
  - tauto.
  - rewrite IH. split; intros [H|H]; auto; left; congruence.
  - rewrite IH. split; [auto | intros [H|H]; [discriminate | auto]].
  - rewrite IH. split; [auto | intros [H|H]; [discriminate | auto]].
Qed.

(** Each item of [figuresForCategoryYear] pairs a document with its
    first figure of the category and the year. *)
Lemma found_item (data : Obj.t (list Figure.t)) (cat yr n : string)
      (g : Figure.t) :
  In (n, g) (figuresForCategoryYear data cat yr) ->
  exists figs, In (n, figs) data /\
    find (fun f => String.eqb (category f) cat && String.eqb (year f) yr) figs
    = Some g.
Proof.
  unfold figuresForCategoryYear, Obj.entries. intros H.
  apply In_somes, in_map_iff in H. destruct H as ([n' figs] & E & Hin).
  cbn [fst snd] in E.
  destruct (find _ figs) as [g'|] eqn:F; [|discriminate].
  injection E as <- <-. eauto.
Qed.

Lemma found_figure (data : Obj.t (list Figure.t)) (cat yr n : string)
      (g : Figure.t) :
  In (n, g) (figuresForCategoryYear data cat yr) ->
  In g (figuresOf data) /\ category g = cat /\ year g = yr.
Proof.
  intros H. apply found_item in H. destruct H as (figs & Hin & F).
  apply find_some in F. destruct F as [Hg E].
  apply andb_prop in E. destruct E as [Ec Ey].
  apply String.eqb_eq in Ec, Ey. repeat split; auto.
  unfold figuresOf, Obj.values. apply in_flat_map.
  exists figs. split; [|assumption].
  apply in_map_iff. exists (n, figs). auto.
Qed.

Section Compare.
Variable toLocaleString : number -> string.

Lemma findings_In (data : Obj.t (list Figure.t)) (cat yr : string) :
  In cat (allCategories data) -> In yr (allYears data) ->
  In (compareOne toLocaleString data cat yr) (findings toLocaleString data).
Proof.
  intros Hc Hy. unfold findings. apply in_flat_map.
  exists cat. split; [assumption|]. apply in_map_iff. eauto.
Qed.

Lemma buildReport_Completed (files : list File) (data : Obj.t (list Figure.t))
      (r : AnalysisReport) :
  buildReport toLocaleString files data = Completed r ->
  figuresOf data <> [] /\
  discrepancies r = discrepanciesOf (findings toLocaleString data) /\
  matches r = matchesOf (findings toLocaleString data) /\
  matchCount (summary r) = List.length (matches r) /\
  discrepancyCount (summary r) = List.length (discrepancies r) /\
  consistencyScore (summary r) =
    mul (div (ofNat (matchCount (summary r)))
             (add (ofNat (matchCount (summary r)))
                  (ofNat (discrepancyCount (summary r)))))
        (ofZ 100).
Proof.
  unfold buildReport.
  destruct (figuresOf data) as [|g l]; cbn [List.length Nat.eqb]; [discriminate|].
  intros [= <-]. cbn. repeat split. discriminate.
Qed.

(** C8. For every category and year for which at least two documents
    have a figure, with values that are not all the same, the run ends
    with a report whose discrepancies contain the record of that category
    and year: its variance is the largest of the values minus the
    smallest, its entries give for each document its name and the value
    and the location of its first figure of that category and year, and
    its suggestion names the smallest and the largest value as the
    range. The values of the figures are never NaN, so that SameValueZero
    and numeric equality agree on them. *)
Theorem discrepancy_record (files : list File) (data : Obj.t (list Figure.t))
        (cat yr : string) :
  let found := figuresForCategoryYear data cat yr in
  let values := map (fun item => value (snd item)) found in
  2 <= List.length found ->
  ~ allSame values ->
  exists r, buildReport toLocaleString files data = Completed r /\
    let d := mkDiscrepancy toLocaleString cat yr found in
    In d (discrepancies r) /\
    d_category d = cat /\ d_year d = yr /\
    d_variance d = sub (Num.max values) (Num.min values) /\
    map dv_documentName (d_values d) = map fst found /\
    map dv_value (d_values d) = values /\
    map dv_location (d_values d) = map (fun item => location (snd item)) found /\
    d_suggestion d =
      (cat ++ " (" ++ yr ++ ") values differ across documents. Range: " ++
       toLocaleString (Num.min values) ++ " - " ++
       toLocaleString (Num.max values) ++ " (variance: " ++
       toLocaleString (d_variance d) ++
       "). Please verify which figure is correct.")%string /\
    (forall n g, In (n, g) found ->
       exists figs, In (n, figs) data /\
         find (fun f => String.eqb (category f) cat && String.eqb (year f) yr)
              figs = Some g).
Proof.
  intros found values Two Differ.
  assert (Hitem : exists n g, In (n, g) found).
  { destruct found as [|[n g] l]; [cbn in Two; lia|]. exists n, g. now left. }
  destruct Hitem as (n & g & Hng).
  destruct (found_figure _ _ _ _ _ Hng) as (Hg & Hc & Hy).
  assert (Hcat : In cat (allCategories data)).
  { unfold allCategories. apply ofList_In, in_map_iff. eauto. }
  assert (Hyr : In yr (allYears data)).
  { unfold allYears. apply ofList_In, in_map_iff. eauto. }
  assert (Hcmp : compareOne toLocaleString data cat yr =
                 FoundDiscrepancy (mkDiscrepancy toLocaleString cat yr found)).
  { unfold compareOne. fold found. fold values.
    replace (1 <? List.length found) with true
      by (symmetry; apply Nat.ltb_lt; lia).
    destruct (Nat.eqb_spec
                (List.length (JSet.ofList sameValueZero values)) 1) as [E|E];
      [|reflexivity].
    exfalso. apply Differ.
    apply ComparatorFacts.unique_one_allSame; [|exact E].
    unfold values. destruct found; [cbn in Two; lia | discriminate]. }
  destruct (buildReport toLocaleString files data) as [r|err] eqn:B.
  - exists r. split; [reflexivity|].
    destruct (buildReport_Completed _ _ _ B) as (_ & D & _).
    cbv zeta. split; [|split; [|split; [|split; [|split; [|split; [|split; [|split]]]]]]].
    + rewrite D. apply In_discrepanciesOf. rewrite <- Hcmp.
      apply findings_In; assumption.
    + reflexivity.
    + reflexivity.
    + reflexivity.
    + cbn. rewrite map_map. reflexivity.
    + cbn. rewrite map_map. reflexivity.
    + cbn. rewrite map_map. reflexivity.
    + reflexivity.
    + intros n' g' H. eapply found_item, H.
  - exfalso. unfold buildReport in B.
    destruct (figuresOf data); [contradiction | discriminate].
Qed.

(** C7, as the code has it. The score of a report is
    matchCount / (matchCount + discrepancyCount) * 100, computed on
    numbers without any test of the divisor; when both counts are 0 it is
    NaN. The report view shows [consistencyScore || 0], which is 0
    then. *)
Theorem consistency_score_formula (files : list File)
        (data : Obj.t (list Figure.t)) (r : AnalysisReport) :
  buildReport toLocaleString files data = Completed r ->
  matchCount (summary r) = List.length (matches r) /\
  discrepancyCount (summary r) = List.length (discrepancies r) /\
  consistencyScore (summary r) =
    mul (div (ofNat (matchCount (summary r)))
             (add (ofNat (matchCount (summary r)))
                  (ofNat (discrepancyCount (summary r)))))
        (ofZ 100) /\
  (matchCount (summary r) = 0 -> discrepancyCount (summary r) = 0 ->
   consistencyScore (summary r) = NaN /\ shownScore (summary r) = zero).
Proof.
  intros B. destruct (buildReport_Completed _ _ _ B) as (_ & _ & _ & M & D & S).
  split; [exact M|]. split; [exact D|]. split; [exact S|].
  intros M0 D0. unfold shownScore. rewrite S, M0, D0. split; reflexivity.
Qed.

End Compare.

Lemma discrepancy_record_witness :
  exists r d,
    snd (analyzeDocuments Examples.hostLocale
           (Examples.served Examples.twoReports) Examples.twoFiles) = Completed r /\
    discrepancies r = [d] /\
    d_variance d = ofZ 200000.
Proof.
  destruct (discrepancy_record Examples.hostLocale Examples.twoFiles
              Examples.twoExtracted "Revenue" "2024") as (r & B & D & _ & _ & V & _).
  - vm_compute. lia.
  - intros Same.
    specialize (Same (ofZ 1000000) (ofZ 1200000)).
    assert (E : sameValueZero (ofZ 1000000) (ofZ 1200000) = false)
      by (vm_compute; reflexivity).
    rewrite Same in E; [discriminate | vm_compute; auto | vm_compute; auto].
  - exists r, (mkDiscrepancy Examples.hostLocale "Revenue" "2024"
                 (figuresForCategoryYear Examples.twoExtracted "Revenue" "2024")).
    split; [|split].
    + unfold analyzeDocuments. rewrite extractAll_two_example. exact B.
    + revert B. vm_compute. intros [= <-]. reflexivity.
    + rewrite V. vm_compute. reflexivity.
Defined.

Lemma consistency_score_formula_witness :
  exists r,
    buildReport Examples.hostLocale Examples.twoFiles Examples.twoExtracted
    = Completed r /\
    consistencyScore (summary r) = mul (div (ofNat 0) (add (ofNat 0) (ofNat 1))) (ofZ 100).
Proof.
  eexists. split; [vm_compute; reflexivity|].
  destruct (consistency_score_formula Examples.hostLocale Examples.twoFiles
              Examples.twoExtracted _ eq_refl) as (_ & _ & S & _).
  exact S.
Defined.

(** Two documents with no line item in common: the run ends with a
    report, no match and no discrepancy, and the score stored in the
    report is NaN, neither 0 nor undefined. *)
Lemma consistency_score_unguarded :
  exists r,
    snd (analyzeDocuments Examples.hostLocale
           (Examples.served Examples.disjointReports) Examples.twoFiles)
    = Completed r /\
    matchCount (summary r) = 0 /\ discrepancyCount (summary r) = 0 /\
    consistencyScore (summary r) = NaN /\
    isNaN (consistencyScore (summary r)) = true.
Proof.
  eexists. split; [vm_compute; reflexivity|].
  repeat split; reflexivity.
Qed.

(** When both extraction methods throw, the aggregator of
    AnalysisDashboard reads the sample text in place of the document. *)
Lemma dashboard_falls_back_to_sample_text :
  Dashboard.extractText Examples.unreadable 0 (Examples.pdf "a.pdf") =
  ([Upload (Examples.pdf "a.pdf"); ExtractFromUrl "a.pdf";
    ExtractFromBlob (Examples.pdf "a.pdf")],
   Returns (sampleText 0 "a.pdf")).
Proof. reflexivity. Qed.

End DashboardFacts.

(* ================================================================== *)
(** * Further properties of the extractor of AnalysisEngine *)
(* ================================================================== *)

Module ExtractorExtras.

Import Spec Spec2 Facts RegexFacts ExtractorFacts ExtractedFigure AnalysisEngine.

(** ** The loop of the year attribution *)

Lemma closer_seenAt (text year : string) (M : Z) (st : string * option Z) :
  closer text M st year =
  match seenAt text year M with
  | Some d =>
      match snd st with
      | None => (year, Some d)
      | Some d0 => if (d <? d0)%Z then (year, Some d) else st
      end
  | None => st
  end.
Proof.
  unfold closer, seenAt.
  destruct (Str.indexOf text year (Z.max 0 (M - 200)) =? -1)%Z; cbn [negb];
    [reflexivity|].
  destruct (Z.abs (Str.indexOf text year (Z.max 0 (M - 200)) - M) <? 300)%Z;
    destruct (snd st) as [d0|]; cbn; try reflexivity.
  - now rewrite andb_true_r.
  - now rewrite andb_false_r.
Qed.

(** The invariant is kept by one round, hence by the loop. *)
Lemma closer_keeps (text : string) (M : Z) (initial y : string)
      (seen : list string) (st : string * option Z) :
  closest text M initial seen st ->
  closest text M initial (seen ++ [y]) (closer text M st y).
Proof.
  unfold closest. rewrite closer_seenAt.
  destruct st as [cy cd]. cbn [fst snd].
  destruct (seenAt text y M) as [dy|] eqn:Sy.
  - destruct cd as [d0|].
    + intros (Hin & Hs & Hmin).
      destruct (Z.ltb_spec dy d0) as [L|L]; cbn [fst snd].
      * split; [apply in_or_app; right; now left|]. split; [assumption|].
        intros c d' Hc Hd. apply in_app_or in Hc. destruct Hc as [Hc | [<- | []]].
        -- specialize (Hmin c d' Hc Hd). lia.
        -- rewrite Sy in Hd. injection Hd as <-. lia.
      * split; [apply in_or_app; now left|]. split; [assumption|].
        intros c d' Hc Hd. apply in_app_or in Hc. destruct Hc as [Hc | [<- | []]].
        -- exact (Hmin c d' Hc Hd).
        -- rewrite Sy in Hd. injection Hd as <-. lia.
    + intros (Hinit & Hnone). cbn [fst snd].
      split; [apply in_or_app; right; now left|]. split; [assumption|].
      intros c d' Hc Hd. apply in_app_or in Hc. destruct Hc as [Hc | [<- | []]].
      * rewrite (Hnone c Hc) in Hd. discriminate.
      * rewrite Sy in Hd. injection Hd as <-. lia.
  - destruct cd as [d0|]; cbn [fst snd].
    + intros (Hin & Hs & Hmin).
      split; [apply in_or_app; now left|]. split; [assumption|].
      intros c d' Hc Hd. apply in_app_or in Hc. destruct Hc as [Hc | [<- | []]].
      * exact (Hmin c d' Hc Hd).
      * congruence.
    + intros (Hinit & Hnone). split; [assumption|].
      intros c Hc. apply in_app_or in Hc. destruct Hc as [Hc | [<- | []]]; auto.
Qed.

Lemma fold_closer_keeps (text : string) (M : Z) (initial : string)
      (years seen : list string) (st : string * option Z) :
  closest text M initial seen st ->
  closest text M initial (seen ++ years) (fold_left (closer text M) years st).
Proof.
  revert seen st. induction years as [|y years IH]; intros seen st H; cbn.
  - now rewrite app_nil_r.
  - replace (seen ++ y :: years) with ((seen ++ [y]) ++ years)
      by (now rewrite <- app_assoc).
    apply IH, closer_keeps, H.
Qed.

Lemma closestYear_closest (text : string) (M : Z) (years : list string) :
  closest text M (firstYear years) years
          (fold_left (closer text M) years (firstYear years, None)).
Proof.
  apply (fold_closer_keeps text M (firstYear years) years []).
  split; [reflexivity | intros c []].
Qed.

(** X1. A figure built from a match at offset M of a pattern of the
    table is emitted, and its year is chosen as follows among the
    candidate years. It is always one of the candidates, hence a year
    token of the text when the text has one. Each candidate is looked up
    once, at its first occurrence at or after 200 characters before M,
    and counts when that occurrence is less than 300 characters from M:
    the year of the figure is a candidate that counts at the least such
    distance from M, and the first candidate when none counts. *)
Theorem closest_year_is_nearest (currentYear : Z) (text fileName : string)
        (e : entry) (p : regex) (m : rmatch) (f : ExtractedFigure.t) :
  let years := foundYears currentYear text in
  let M := Z.of_nat (index m) in
  In e patterns -> In p (e_patterns e) -> In m (execAll p text) ->
  figureOfMatch text fileName years (e_category e) (e_field e) m = Some f ->
  In f (extractFinancialFigures currentYear text fileName) /\
  In (year f) years /\
  (execAll Regex.year text <> [] ->
   exists token, In token (execAll Regex.year text) /\ year f = whole token) /\
  ((forall c, In c years -> seenAt text c M = None) ->
   year f = firstYear years) /\
  (forall c d, In c years -> seenAt text c M = Some d ->
     exists dy, seenAt text (year f) M = Some dy /\ (dy <= d)%Z).
Proof.
  intros years M He Hp Hm Hf. unfold years, M in *. clear years M.
  split; [apply extract_In; exists e, p, m; auto|].
  destruct (figureOfMatch_Some _ _ _ _ _ _ _ Hf) as (_ & _ & _ & Hy).
  pose proof (closestYear_closest text (Z.of_nat (index m))
                (foundYears currentYear text)) as C.
  unfold closestYear in Hy. unfold closest in C. rewrite <- Hy in C.
  assert (Hin : In (year f) (foundYears currentYear text)).
  { destruct (snd (fold_left _ _ _)) as [d|].
    - apply C.
    - destruct C as [-> _]. apply foundYears_nonempty. }
  split; [exact Hin|]. split; [|split].
  - intros Some_token. unfold foundYears in Hin.
    destruct (JSet.ofList String.eqb (map whole (execAll Regex.year text)))
      as [|y l] eqn:E.
    + exfalso. destruct (execAll Regex.year text) as [|t ts];
        [congruence|].
      unfold JSet.ofList in E. cbn [map fold_left] in E.
      pose proof (fold_add_length_ge String.eqb (map whole ts)
                    (JSet.add String.eqb [] (whole t))) as L.
      rewrite E in L. cbn in L. lia.
    + rewrite <- E in Hin. apply ofList_In, in_map_iff in Hin.
      destruct Hin as (token & <- & Ht). eauto.
  - intros None_seen.
    destruct (snd (fold_left _ _ _)) as [d|].
    + destruct C as (Hc & Hs & _). rewrite (None_seen _ Hc) in Hs. discriminate.
    + apply C.
  - intros c d Hc Hd.
    destruct (snd (fold_left _ _ _)) as [dy|].
    + destruct C as (_ & Hs & Hmin). exists dy. split; [assumption|]. eauto.
    + destruct C as (_ & Hnone). rewrite (Hnone c Hc) in Hd. discriminate.
Qed.

(** In the text of the example the amount stands at offset 18, the year
    2023 at distance 15 and the year 2024 at distance 6: the figure gets
    a year seen at a distance of at most 15, and never the first
    candidate for want of a year in range. *)
Lemma closest_year_is_nearest_witness :
  In Examples2.twoYearsFigure
     (extractFinancialFigures 2026 Examples2.twoYears "a.pdf") /\
  seenAt Examples2.twoYears "2023" 18 = Some 15%Z /\
  exists dy,
    seenAt Examples2.twoYears (year Examples2.twoYearsFigure) 18 = Some dy /\
    (dy <= 15)%Z.
Proof.
  pose proof (closest_year_is_nearest 2026 Examples2.twoYears "a.pdf"
                Examples.revenueEntry (pat "revenue") Examples2.twoYearsMatch
                Examples2.twoYearsFigure) as H.
  cbv zeta in H.
  destruct H as (Emitted & _ & _ & _ & Nearest).
  { left. reflexivity. }
  { left. reflexivity. }
  { vm_compute. left. reflexivity. }
  { vm_compute. reflexivity. }
  split; [exact Emitted|]. split; [vm_compute; reflexivity|].
  apply (Nearest "2023").
  - vm_compute. left. reflexivity.
  - vm_compute. reflexivity.
Defined.

(** ** What a figure carries *)

Lemma table_entry (e e' : entry) :
  In e patterns -> In e' patterns ->
  In (e_category e) statements /\
  (e_field e = e_field e' -> e_category e = e_category e').
Proof.
  intros He He'.
  assert (T : tableCheck = true) by reflexivity.
  unfold tableCheck in T. rewrite forallb_forall in T.
  specialize (T e He). apply andb_prop in T. destruct T as [T1 T2]. split.
  - apply existsb_exists in T1. destruct T1 as (c & Hc & E).
    apply String.eqb_eq in E. now subst.
  - rewrite forallb_forall in T2. specialize (T2 e' He'). intros E.
    rewrite E, String.eqb_refl in T2. cbn in T2. now apply String.eqb_eq.
Qed.

Lemma figure_entry (currentYear : Z) (text fileName : string)
      (f : ExtractedFigure.t) :
  In f (extractFinancialFigures currentYear text fileName) ->
  exists e, In e patterns /\ category f = e_category e /\ label f = e_field e /\
            documentName f = fileName /\ confidence f = baseConfidence.
Proof.
  intros Hf. apply extract_In in Hf.
  destruct Hf as (e & p & m & He & _ & _ & Hf).
  exists e. split; [assumption|].
  unfold figureOfMatch in Hf.
  destruct (negb _ && _); [|discriminate].
  injection Hf as <-. cbn. auto.
Qed.

(** X2. Every figure of the extractor carries the name of the file it
    was asked for and the confidence 0.85; its category and label are
    those of an entry of the table, so the category is one of the three
    statements; and figures with the same label, of any two texts, have
    the same category. *)
Theorem figure_metadata (currentYear currentYear' : Z)
        (text fileName text' fileName' : string) (f g : ExtractedFigure.t) :
  In f (extractFinancialFigures currentYear text fileName) ->
  In g (extractFinancialFigures currentYear' text' fileName') ->
  documentName f = fileName /\
  confidence f = baseConfidence /\
  (exists e, In e patterns /\ category f = e_category e /\ label f = e_field e) /\
  In (category f) statements /\
  (label f = label g -> category f = category g).
Proof.
  intros Hf Hg.
  destruct (figure_entry _ _ _ _ Hf) as (e & He & Hc & Hl & Hd & Hk).
  destruct (figure_entry _ _ _ _ Hg) as (e' & He' & Hc' & Hl' & _).
  destruct (table_entry e e' He He') as [Hs Hfun].
  repeat split; auto.
  - eauto.
  - now rewrite Hc.
  - intros E. rewrite Hc, Hc'. apply Hfun. congruence.
Qed.

Lemma figure_metadata_witness :
  In (category Examples.revenueFigure) statements /\
  category Examples.revenueFigure = category Examples2.twoYearsFigure.
Proof.
  destruct (figure_metadata 2026 2026 Examples.nearYear "a.pdf"
              Examples2.twoYears "a.pdf"
              Examples.revenueFigure Examples2.twoYearsFigure)
    as (_ & _ & _ & Hs & Hsame).
  - vm_compute. left. reflexivity.
  - vm_compute. left. reflexivity.
  - split; [exact Hs | apply Hsame; reflexivity].
Defined.


(** ** The extension of a file name *)

Lemma string_app_assoc (a b c : string) :
  ((a ++ b) ++ c)%string = (a ++ (b ++ c))%string.
Proof. induction a as [|x a IH]; cbn; congruence. Qed.

Lemma string_app_nil (a : string) : (a ++ "")%string = a.
Proof. induction a as [|x a IH]; cbn; congruence. Qed.

Lemma toLowerCase_app (a b : string) :
  Str.toLowerCase (a ++ b) = (Str.toLowerCase a ++ Str.toLowerCase b)%string.
Proof. induction a as [|x a IH]; cbn; congruence. Qed.

Lemma lowerChar_dot (c : ascii) :
  Ascii.eqb (Str.lowerChar c) "."%char = Ascii.eqb c "."%char.
Proof. destruct c as [[] [] [] [] [] [] [] []]; reflexivity. Qed.

Lemma noDot_toLowerCase (s : string) :
  noDot (Str.toLowerCase s) = noDot s.
Proof.
  unfold noDot. induction s as [|c s IH]; cbn; [reflexivity|].
  now rewrite lowerChar_dot, IH.
Qed.

Lemma lastSegment_noDot (s acc : string) :
  noDot s = true -> Str.lastSegment acc s = (acc ++ s)%string.
Proof.
  unfold noDot. revert acc. induction s as [|c s IH]; intros acc H; cbn in *.
  - now rewrite string_app_nil.
  - apply andb_prop in H. destruct H as [Hc Hs].
    apply negb_true_iff in Hc. rewrite Hc, IH by assumption.
    now rewrite string_app_assoc.
Qed.

Lemma lastSegment_after_dot (a b acc : string) :
  Str.lastSegment acc (a ++ String "."%char b) = Str.lastSegment "" b.
Proof.
  revert acc. induction a as [|c a IH]; intros acc; cbn.
  - reflexivity.
  - destruct (Ascii.eqb c "."%char); apply IH.
Qed.

(** X3. The extension of a file name is what follows its last dot, in
    lower case; a name without a dot is its own extension. So the check
    of the extension does not depend on the case of the letters, and
    accepts a file named [pdf], [docx] or [xlsx] without any dot. *)
Theorem extension_is_after_last_dot (base ext : string) :
  noDot ext = true ->
  Str.extensionOf (base ++ "." ++ ext) = Str.toLowerCase ext /\
  Str.extensionOf ext = Str.toLowerCase ext /\
  Aggregator.supported (Str.extensionOf (base ++ "." ++ ext))
  = Aggregator.supported (Str.toLowerCase ext) /\
  Aggregator.supported (Str.extensionOf ext)
  = Aggregator.supported (Str.toLowerCase ext).
Proof.
  intros H.
  assert (A : Str.extensionOf (base ++ "." ++ ext) = Str.toLowerCase ext).
  { unfold Str.extensionOf. rewrite toLowerCase_app.
    change (Str.toLowerCase ("." ++ ext))
      with (String "."%char (Str.toLowerCase ext)).
    rewrite lastSegment_after_dot, lastSegment_noDot; [reflexivity|].
    now rewrite noDot_toLowerCase. }
  assert (B : Str.extensionOf ext = Str.toLowerCase ext).
  { unfold Str.extensionOf. rewrite lastSegment_noDot; [reflexivity|].
    now rewrite noDot_toLowerCase. }
  rewrite A, B. auto.
Qed.

Lemma extension_is_after_last_dot_witness :
  Str.extensionOf "Annual.Report.PDF" = "pdf" /\ Str.extensionOf "PDF" = "pdf".
Proof.
  destruct (extension_is_after_last_dot "Annual.Report" "PDF") as (A & B & _).
  - reflexivity.
  - split; [exact A | exact B].
Defined.

(** ** The loop over [exec] *)

Lemma execFrom_inOrder (r : regex) :
  consuming r = true ->
  forall n s pos,
    String.length s <= n ->
    inOrder pos (pos + String.length s) (execFrom r s pos 0) /\
    List.length (execFrom r s pos 0) <= String.length s.
Proof.
  intros C. induction n as [|n IH]; intros s pos Hn.
  - destruct s; [|cbn in Hn; lia].
    rewrite execFrom_search by assumption.
    destruct (search r "" pos) as [m|] eqn:F; [|cbn; auto].
    apply (search_bounds r _ _ _ C) in F. cbn in F. lia.
  - rewrite execFrom_search by assumption.
    destruct (search r s pos) as [m|] eqn:F; [|cbn; split; [auto | lia]].
    destruct (search_bounds r _ _ _ C F) as (L & Lt & Le).
    cbv zeta. cbn [inOrder List.length].
    set (e := index m + String.length (whole m)) in *.
    assert (D : String.length (Str.drop (e - pos) s) = String.length s - (e - pos))
      by (apply drop_length; lia).
    destruct (IH (Str.drop (e - pos) s) e) as [O N]; [lia|].
    rewrite D in O, N.
    replace (e + (String.length s - (e - pos))) with (pos + String.length s)
      in O by lia.
    repeat split; auto; lia.
Qed.

(** X4. For every pattern of the table, the loop
    [while ((match = pattern.exec(text)) !== null)] ends: given as many
    rounds as the text has characters plus one, or any larger number, it
    stops on [null] with the same matches. These matches come in
    increasing order, none is empty, they do not overlap and lie within
    the text; so there are at most as many as the text has characters. *)
Theorem exec_loop_ends (e : entry) (p : regex) (text : string) (fuel : nat) :
  In e patterns -> In p (e_patterns e) ->
  String.length text < fuel ->
  execLoop fuel p text 0 = execAll p text /\
  execLoop fuel p text 0 = execLoop (S (String.length text)) p text 0 /\
  inOrder 0 (String.length text) (execAll p text) /\
  List.length (execAll p text) <= String.length text.
Proof.
  intros He Hp Hfuel.
  assert (C : consuming p = true).
  { destruct patterns_consuming as [T _]. rewrite forallb_forall in T.
    specialize (T e He). rewrite forallb_forall in T. exact (T p Hp). }
  rewrite !execLoop_execAll by (assumption || lia).
  destruct (execFrom_inOrder p C (String.length text) text 0) as [O N]; [lia|].
  repeat split; assumption.
Qed.

Lemma exec_loop_ends_witness :
  execLoop 100 (pat "revenue") Examples.nearYear 0 = [Examples.nearMatch].
Proof.
  destruct (exec_loop_ends Examples.revenueEntry (pat "revenue")
              Examples.nearYear 100) as (E & _).
  - left. reflexivity.
  - left. reflexivity.
  - vm_compute. lia.
  - rewrite E. vm_compute. reflexivity.
Defined.

End ExtractorExtras.



(* ================================================================== *)
(** * Further properties of the aggregators and of the list of files *)
(* ================================================================== *)

Module AggregatorExtras.

Import Spec Spec2 Facts World Aggregator DocumentAnalysis AggregatorFacts.

(** ** The batch *)

Lemma startAnalysis_fold (w : World.t) (files : list File)
      (acc : list event * list DocumentAnalysis.t) :
  fold_left (fun acc file =>
               let '(log, analysis) := analyzeDocument w file in
               (fst acc ++ log, snd acc ++ [analysis]))
            files acc
  = (fst acc ++ flat_map (fun file => fst (analyzeDocument w file)) files,
     snd acc ++ map (fun file => snd (analyzeDocument w file)) files).
Proof.
  revert acc. induction files as [|file files IH]; intros [log results]; cbn.
  - now rewrite !app_nil_r.
  - rewrite IH. destruct (analyzeDocument w file) as [l a]; cbn.
    now rewrite <- !app_assoc.
Qed.

Lemma analyzeDocument_fileName (w : World.t) (file : File) :
  fileName (snd (analyzeDocument w file)) = name file.
Proof.
  rewrite analyzeDocument_eq.
  destruct (snd (analyzeBody w file)) as [a|message] eqn:E; [|reflexivity].
  apply analyzeBody_returns in E. destruct E as (_ & t & _ & _ & ->).
  reflexivity.
Qed.

(** X5. The batch analyses every file, whatever happens to the others:
    it returns one analysis per file, in the order of the files and under
    their names, each the analysis of that file alone, and its calls are
    those of the files one after the other. A failed document does not
    end the batch. *)
Theorem batch_analyses_every_file (w : World.t) (files : list File) :
  snd (startAnalysis w files) = map (fun file => snd (analyzeDocument w file)) files /\
  fst (startAnalysis w files) = flat_map (fun file => fst (analyzeDocument w file)) files /\
  List.length (snd (startAnalysis w files)) = List.length files /\
  map fileName (snd (startAnalysis w files)) = map name files.
Proof.
  unfold startAnalysis. rewrite startAnalysis_fold. cbn [fst snd app].
  repeat split.
  - now rewrite length_map.
  - rewrite map_map. apply map_ext. intros file. apply analyzeDocument_fileName.
Qed.

(** X6. The analysis of a file has no error message exactly when its
    status is success: a partial analysis carries the message that no
    figure was found, a failed one the message of the error. *)
Theorem error_message_unless_success (w : World.t) (file : File) :
  let a := snd (analyzeDocument w file) in
  (errorMessage a = None <-> extractionStatus a = success) /\
  (extractionStatus a = partial ->
   errorMessage a = Some "No financial figures found in document. Please ensure the document contains financial data with clear labels and values.").
Proof.
  cbv zeta. rewrite analyzeDocument_eq.
  destruct (snd (analyzeBody w file)) as [a|message] eqn:E.
  - apply analyzeBody_returns in E. destruct E as (_ & t & _ & _ & ->).
    unfold analysisOf. cbn [errorMessage extractionStatus].
    destruct (AnalysisEngine.extractFinancialFigures (currentYear w) t (name file));
      cbn; repeat split; auto; discriminate.
  - cbn. repeat split; discriminate.
Qed.

Lemma error_message_unless_success_witness :
  errorMessage (snd (analyzeDocument
                       (Examples.served [("a.pdf", "Minutes of the meeting")])
                       (Examples.pdf "a.pdf")))
  = Some "No financial figures found in document. Please ensure the document contains financial data with clear labels and values.".
Proof.
  destruct (error_message_unless_success
              (Examples.served [("a.pdf", "Minutes of the meeting")])
              (Examples.pdf "a.pdf")) as [_ P].
  apply P. vm_compute. reflexivity.
Defined.

(** ** The warning of handleFilesChange *)

Lemma isInvalid_valid (file : File) :
  App.isInvalid file = negb (valid file).
Proof.
  unfold App.isInvalid, valid.
  destruct (size file =? 0)%Z, (50 * 1024 * 1024 <? size file)%Z,
    (supported (Str.extensionOf (name file))); reflexivity.
Qed.

(** X7. The files that [handleFilesChange] warns about are exactly those
    that [analyzeDocument] rejects before any call: each of them ends as
    a failed analysis without any upload or extraction, and no warning is
    shown exactly when every file passes the checks of
    [analyzeDocument]. *)
Theorem warning_matches_validation (w : World.t) (newFiles : list File) :
  (forall file, In file (App.invalidFiles newFiles) <->
                In file newFiles /\ valid file = false) /\
  (forall file, In file (App.invalidFiles newFiles) ->
                fst (analyzeDocument w file) = [] /\
                extractionStatus (snd (analyzeDocument w file)) = failed) /\
  (App.filesWarning newFiles = None <->
   forall file, In file newFiles -> valid file = true).
Proof.
  assert (A : forall file, In file (App.invalidFiles newFiles) <->
                           In file newFiles /\ valid file = false).
  { intros file. unfold App.invalidFiles. rewrite filter_In, isInvalid_valid.
    now rewrite negb_true_iff. }
  split; [exact A|]. split.
  - intros file H. apply A in H. destruct H as [_ V]. split.
    + rewrite analyzeDocument_calls, V. reflexivity.
    + apply analyzeDocument_failed_iff. now left.
  - unfold App.filesWarning.
    remember (App.invalidFiles newFiles) as bads eqn:E.
    destruct bads as [|bad l]; cbn.
    + split; [|reflexivity]. intros _ file Hin.
      destruct (valid file) eqn:V; [reflexivity|].
      assert (H : In file []) by (apply A; auto).
      destruct H.
    + split; [discriminate|]. intros H.
      assert (B : In bad (bad :: l)) by now left.
      apply A in B. destruct B as [Hin V]. rewrite (H bad Hin) in V. discriminate.
Qed.

Lemma warning_matches_validation_witness :
  fst (analyzeDocument (Examples.served Examples.twoReports) Examples2.bigFile) = [] /\
  extractionStatus
    (snd (analyzeDocument (Examples.served Examples.twoReports) Examples2.bigFile))
  = failed.
Proof.
  destruct (warning_matches_validation (Examples.served Examples.twoReports)
              [Examples2.smallFile; Examples2.bigFile]) as (_ & F & _).
  apply F. vm_compute. left. reflexivity.
Defined.

(** ** The notification at the end of the batch *)

Lemma count_zero {A} (p : A -> bool) (l : list A) :
  List.length (filter p l) = 0 <-> forall x, In x l -> p x = false.
Proof.
  induction l as [|a l IH]; cbn.
  - split; [intros _ x [] | reflexivity].
  - destruct (p a) eqn:E; cbn.
    + split; [discriminate|]. intros H. specialize (H a (or_introl eq_refl)).
      congruence.
    + rewrite IH. split.
      * intros H x [<- | Hx]; auto.
      * intros H x Hx. apply H. now right.
Qed.

Lemma hasStatus_spec (st : ExtractionStatus) (r : DocumentAnalysis.t) :
  App.hasStatus st r = true <-> extractionStatus r = st.
Proof.
  unfold App.hasStatus. destruct (extractionStatus r), st; split;
    (reflexivity || discriminate).
Qed.

Lemma status_counts (results : list DocumentAnalysis.t) :
  App.successCount results + App.partialCount results + App.failedCount results
  = List.length results.
Proof.
  unfold App.successCount, App.partialCount, App.failedCount.
  induction results as [|r results IH]; cbn [filter List.length]; [reflexivity|].
  pose proof (hasStatus_spec success r) as S.
  pose proof (hasStatus_spec partial r) as P.
  pose proof (hasStatus_spec failed r) as F.
  destruct (App.hasStatus success r), (App.hasStatus partial r),
    (App.hasStatus failed r), (extractionStatus r);
    cbn [List.length]; try lia;
    (destruct S as [S1 S2], P as [P1 P2], F as [F1 F2];
     try (specialize (S1 eq_refl); discriminate);
     try (specialize (P1 eq_refl); discriminate);
     try (specialize (F1 eq_refl); discriminate);
     try (specialize (S2 eq_refl); discriminate);
     try (specialize (P2 eq_refl); discriminate);
     try (specialize (F2 eq_refl); discriminate)).
Qed.

(** X8. At the end of the batch every analysis is counted once, as
    success, partial or failed. The notification says that the analysis
    failed exactly when every document is failed, which includes an empty
    batch; that it is partially complete exactly when some document is
    failed and some is not; and that it is complete, the only case that
    is not shown as an error, exactly when no document is failed and
    there is at least one. *)
Theorem completion_toast (results : list DocumentAnalysis.t) :
  let toast := App.handleAnalysisComplete results in
  App.successCount results + App.partialCount results + App.failedCount results
  = List.length results /\
  (App.title toast = "Analysis Failed" <->
   forall r, In r results -> extractionStatus r = failed) /\
  (App.title toast = "Analysis Partially Complete" <->
   (exists r, In r results /\ extractionStatus r = failed) /\
   (exists r, In r results /\ extractionStatus r <> failed)) /\
  (App.title toast = "Analysis Complete" <->
   results <> [] /\ forall r, In r results -> extractionStatus r <> failed) /\
  (App.destructive toast = false <-> App.title toast = "Analysis Complete").
Proof.
  cbv zeta. split; [apply status_counts|].
  assert (AllFailed :
            (App.successCount results =? 0) && (App.partialCount results =? 0) = true
            <-> forall r, In r results -> extractionStatus r = failed).
  { rewrite andb_true_iff, !Nat.eqb_eq.
    unfold App.successCount, App.partialCount. rewrite !count_zero. split.
    - intros [S P] r Hr. specialize (S r Hr). specialize (P r Hr).
      destruct (extractionStatus r) eqn:E; try reflexivity.
      + assert (X : App.hasStatus success r = true) by now apply hasStatus_spec.
        congruence.
      + assert (X : App.hasStatus partial r = true) by now apply hasStatus_spec.
        congruence.
    - intros H. split; intros r Hr; specialize (H r Hr);
        destruct (App.hasStatus _ r) eqn:E; try reflexivity;
        apply hasStatus_spec in E; congruence. }
  assert (NoneFailed :
            (0 <? App.failedCount results) = false
            <-> forall r, In r results -> extractionStatus r <> failed).
  { rewrite Nat.ltb_ge. unfold App.failedCount. split.
    - intros H r Hr E.
      assert (Z : List.length (filter (App.hasStatus failed) results) = 0) by lia.
      rewrite count_zero in Z. specialize (Z r Hr).
      apply hasStatus_spec in E. congruence.
    - intros H.
      assert (Z : List.length (filter (App.hasStatus failed) results) = 0).
      { apply count_zero. intros r Hr. specialize (H r Hr).
        destruct (App.hasStatus failed r) eqn:E; [|reflexivity].
        apply hasStatus_spec in E. contradiction. }
      lia. }
  unfold App.handleAnalysisComplete.
  destruct ((App.successCount results =? 0) && (App.partialCount results =? 0))
    eqn:AF.
  - assert (F : forall r, In r results -> extractionStatus r = failed)
      by now apply AllFailed.
    cbn [App.title App.destructive]. repeat split; try discriminate; auto.
    + intros [_ [r [Hr N]]]. specialize (F r Hr). contradiction.
    + intros [Ne H]. destruct results as [|r l]; [congruence|].
      exfalso. apply (H r); [now left | apply F; now left].
  - assert (NF : ~ forall r, In r results -> extractionStatus r = failed).
    { intros H. apply AllFailed in H. congruence. }
    assert (Ex : exists r, In r results /\ extractionStatus r <> failed).
    { clear - NF. induction results as [|r l IH].
      - exfalso. apply NF. intros r [].
      - destruct (extractionStatus r) eqn:E.
        + exists r. split; [now left | congruence].
        + exists r. split; [now left | congruence].
        + destruct IH as (r' & Hr' & N).
          * intros H. apply NF. intros x [<- | Hx]; auto.
          * exists r'. split; [now right | assumption]. }
    destruct (0 <? App.failedCount results) eqn:FC;
      cbn [App.title App.destructive].
    + assert (SF : exists r, In r results /\ extractionStatus r = failed).
      { clear - FC. apply Nat.ltb_lt in FC. unfold App.failedCount in FC.
        destruct (filter (App.hasStatus failed) results) as [|r l] eqn:E;
          [cbn in FC; lia|].
        assert (H : In r (filter (App.hasStatus failed) results))
          by (rewrite E; now left).
        apply filter_In in H. destruct H as [Hr Hs].
        apply hasStatus_spec in Hs. eauto. }
      repeat split; try discriminate; auto.
      * intros H. contradiction.
      * intros [_ H]. destruct SF as (r & Hr & E). specialize (H r Hr).
        contradiction.
    + assert (H : forall r, In r results -> extractionStatus r <> failed)
        by now apply NoneFailed.
      repeat split; try discriminate; auto.
      * intros F. contradiction.
      * intros [[r [Hr E]] _]. specialize (H r Hr). contradiction.
      * intros ->. destruct Ex as (r & [] & _).
Qed.

Lemma completion_toast_witness :
  App.title (App.handleAnalysisComplete []) = "Analysis Failed" /\
  App.title (App.handleAnalysisComplete Examples.twoAnalyses) = "Analysis Complete".
Proof.
  destruct (completion_toast []) as (_ & F & _).
  destruct (completion_toast Examples.twoAnalyses) as (_ & _ & _ & C & _).
  split.
  - apply F. intros r [].
  - apply C. split; [vm_compute; discriminate|].
    vm_compute. intros r [<- | [<- | []]]; discriminate.
Defined.

(** ** The list of files *)

Lemma accepts_spec (files : list File) (file : File) :
  Upload.accepts files file = true <->
  valid file = true /\ Upload.isDuplicate files file = false.
Proof.
  unfold Upload.accepts, valid.
  destruct (size file =? 0)%Z, (50 * 1024 * 1024 <? size file)%Z,
    (supported (Str.extensionOf (name file))),
    (Upload.isDuplicate files file); cbn; intuition discriminate.
Qed.

Lemma engineCalls_first (w : World.t) (file : File) :
  exists rest, engineCalls w file = Upload file :: rest.
Proof.
  unfold engineCalls.
  destruct (upload w file) as [url|]; [destruct (extractFromUrl w url)|]; eauto.
Qed.

(** X9. The later DocumentUpload keeps the files it has, in their
    order, and adds after them the selected files that are not empty, not
    above 50 MB, have a supported extension and do not repeat the name
    and size of a file already in the list. Every file it adds passes the
    checks of [analyzeDocument], whose first call for it is the upload;
    so if the files of the list pass these checks, those of the new list
    do. The earlier DocumentUpload only checks the extension. *)
Theorem added_files_pass_validation (w : World.t) (files selectedFiles : list File) :
  (exists added,
     Upload.addFiles files selectedFiles = files ++ added /\
     added = filter (Upload.accepts files) selectedFiles /\
     forall file, In file added ->
       In file selectedFiles /\ valid file = true /\
       Upload.isDuplicate files file = false /\
       exists rest, fst (analyzeDocument w file) = World.Upload file :: rest) /\
  ((forall file, In file files -> valid file = true) ->
   forall file, In file (Upload.addFiles files selectedFiles) -> valid file = true) /\
  (forall file, In file (Upload.handleFileSelect files selectedFiles) <->
     In file files \/
     (In file selectedFiles /\ Upload.hasSupportedExtension file = true)).
Proof.
  assert (A : forall file, In file (filter (Upload.accepts files) selectedFiles) ->
                In file selectedFiles /\ valid file = true /\
                Upload.isDuplicate files file = false).
  { intros file H. apply filter_In in H. destruct H as [Hin Hacc].
    apply accepts_spec in Hacc. tauto. }
  assert (E : Upload.addFiles files selectedFiles =
              files ++ filter (Upload.accepts files) selectedFiles).
  { unfold Upload.addFiles.
    destruct (filter (Upload.accepts files) selectedFiles); cbn;
      [now rewrite app_nil_r | reflexivity]. }
  split; [|split].
  - exists (filter (Upload.accepts files) selectedFiles).
    split; [exact E|]. split; [reflexivity|].
    intros file H. destruct (A file H) as (Hin & V & D).
    repeat split; auto.
    rewrite analyzeDocument_calls, V. apply engineCalls_first.
  - intros Hfiles file H. rewrite E in H. apply in_app_or in H.
    destruct H as [H|H]; [auto | apply A in H; tauto].
  - intros file. unfold Upload.handleFileSelect. cbv zeta.
    rewrite in_app_iff, filter_In. reflexivity.
Qed.

Lemma added_files_pass_validation_witness :
  Upload.addFiles [Examples2.smallFile]
    [Examples2.smallFile; Examples2.bigFile; Examples2.textFile;
     Examples.emptyFile; Examples.pdf "b.pdf"]
  = [Examples2.smallFile; Examples.pdf "b.pdf"] /\
  valid (Examples.pdf "b.pdf") = true.
Proof.
  destruct (added_files_pass_validation (Examples.served Examples.twoReports)
              [Examples2.smallFile]
              [Examples2.smallFile; Examples2.bigFile; Examples2.textFile;
               Examples.emptyFile; Examples.pdf "b.pdf"])
    as (_ & Keep & _).
  split; [vm_compute; reflexivity|].
  apply Keep.
  - intros file [<- | []]. vm_compute. reflexivity.
  - vm_compute. right. left. reflexivity.
Defined.

Lemma dropIndex_spec (files : list File) :
  forall i index,
    i <= index ->
    Upload.dropIndex i index files =
    firstn (index - i) files ++ skipn (S (index - i)) files.
Proof.
  induction files as [|file files IH]; intros i index H; cbn [Upload.dropIndex].
  - now rewrite firstn_nil, skipn_nil.
  - destruct (Nat.eqb_spec i index) as [-> | N].
    + rewrite Nat.sub_diag. cbn [firstn skipn app].
      destruct files as [|g files']; [reflexivity|].
      cbn [Upload.dropIndex]. 
      assert (D : forall l j, index < j -> Upload.dropIndex j index l = l).
      { clear. induction l as [|x l IHl]; intros j Hj; cbn; [reflexivity|].
        destruct (Nat.eqb_spec j index); [lia|]. rewrite IHl by lia. reflexivity. }
      change (Upload.dropIndex (S index) index (g :: files') = g :: files').
      apply D. lia.
    + rewrite IH by lia.
      replace (index - i) with (S (index - S i)) by lia.
      reflexivity.
Qed.

(** X10. [removeFile] removes the file at the given position and no
    other: the files before it and the files after it stay, in their
    order. A position beyond the end leaves the list as it is. Files that
    pass the checks of [analyzeDocument] still do after a removal. *)
Theorem remove_file_at_index (files : list File) (index : nat) :
  Upload.removeFile files index = firstn index files ++ skipn (S index) files /\
  (index < List.length files ->
   List.length (Upload.removeFile files index) = List.length files - 1) /\
  (List.length files <= index -> Upload.removeFile files index = files) /\
  (forall file, In file (Upload.removeFile files index) -> In file files).
Proof.
  assert (E : Upload.removeFile files index
              = firstn index files ++ skipn (S index) files).
  { unfold Upload.removeFile. rewrite dropIndex_spec by lia.
    now rewrite Nat.sub_0_r. }
  rewrite E. repeat split.
  - intros H. rewrite length_app, length_firstn, length_skipn. lia.
  - intros H. rewrite firstn_all2 by assumption.
    rewrite skipn_all2 by lia. apply app_nil_r.
  - intros file H. rewrite <- (firstn_skipn index files).
    apply in_app_or in H. apply in_or_app. destruct H as [H|H]; [now left|].
    right. replace (S index) with (1 + index) in H by lia.
    rewrite <- skipn_skipn in H.
    destruct (skipn index files) as [|x l]; [destruct H|]. now right.
Qed.

Lemma remove_file_at_index_witness :
  Upload.removeFile Examples.twoFiles 0 = [Examples.pdf "b.pdf"] /\
  Upload.removeFile Examples.twoFiles 2 = Examples.twoFiles.
Proof.
  destruct (remove_file_at_index Examples.twoFiles 0) as (A & _).
  destruct (remove_file_at_index Examples.twoFiles 2) as (_ & _ & B & _).
  split; [rewrite A; reflexivity | apply B; vm_compute; lia].
Defined.

(** ** The earlier analyzeDocument *)

Ltac unfold_legacy :=
  unfold Legacy.analyzeDocument, Legacy.analyzeBody, Legacy.extractText,
    analyzeDocument, analyzeBody, Aggregator.extractText,
    callUpload, callExtractFromUrl, callExtractFromBlob, call, bind,
    tryCatch, ret, throw, obtainedText, urlMethod, valid in *.

Ltac legacy_leaf :=
  cbn [throws extractionStatus];
  first
    [ solve [split; [intros _; right; right; eauto | reflexivity]]
    | solve [split; [intros _; right; left; auto | reflexivity]]
    | solve [split;
             [ intros F; exfalso; revert F; unfold Legacy.analysisOf;
               cbn [extractionStatus]; destruct (0 <? _); discriminate
             | intros [F | [[F1 F2] | (t' & E & F)]];
               first [discriminate | congruence] ]] ].

Lemma legacy_analysisOf (w : World.t) (file : File) (t : string) :
  fileName (Legacy.analysisOf w file t) = fileName (analysisOf w file t) /\
  extractedFigures (Legacy.analysisOf w file t)
  = extractedFigures (analysisOf w file t) /\
  extractionStatus (Legacy.analysisOf w file t)
  = extractionStatus (analysisOf w file t).
Proof. repeat split. Qed.

(** X11. The earlier [analyzeDocument] makes no check of the file and
    uploads before its inner [try]: an error of the upload fails the
    document after that single call, with no attempt on the blob. For a
    file that passes the checks of the later version and whose upload
    returns, both versions make the same calls and return the same name,
    figures and status. The earlier version fails a document exactly when
    the upload throws, or both extractions throw, or the text is
    blank. *)
Theorem versions_agree (w : World.t) (file : File) :
  (throws (upload w file) = true ->
   Legacy.analyzeDocument w file =
   ([World.Upload file],
    {| fileName := name file; extractedFigures := [];
       extractionStatus := failed;
       errorMessage := match upload w file with
                       | Throws message => Some message
                       | Returns _ => None
                       end |})) /\
  (valid file = true -> throws (upload w file) = false ->
   fst (Legacy.analyzeDocument w file) = fst (analyzeDocument w file) /\
   fileName (snd (Legacy.analyzeDocument w file))
   = fileName (snd (analyzeDocument w file)) /\
   extractedFigures (snd (Legacy.analyzeDocument w file))
   = extractedFigures (snd (analyzeDocument w file)) /\
   extractionStatus (snd (Legacy.analyzeDocument w file))
   = extractionStatus (snd (analyzeDocument w file))) /\
  (extractionStatus (snd (Legacy.analyzeDocument w file)) = failed <->
   throws (upload w file) = true \/
   (throws (urlMethod w file) = true /\ throws (extractFromBlob w file) = true) \/
   exists t, obtainedText w file = Some t /\ Str.isBlank t = true).
Proof.
  split; [|split].
  - unfold_legacy. destruct (upload w file); cbn; [discriminate | reflexivity].
  - unfold_legacy. intros V U. revert V.
    destruct (size file =? 0)%Z; [discriminate|].
    destruct (50 * 1024 * 1024 <? size file)%Z; [discriminate|].
    destruct (supported (Str.extensionOf (name file))); [|discriminate].
    intros _. crunch.
    destruct (upload w file) as [url|]; [|discriminate]. crunch.
    destruct (extractFromUrl w url) as [t|]; crunch;
      [|destruct (extractFromBlob w file) as [t|]; crunch];
      try (destruct (Str.isBlank t); crunch);
      repeat split; apply legacy_analysisOf.
  - unfold_legacy.
    destruct (upload w file) as [url|]; crunch.
    + destruct (extractFromUrl w url) as [t|]; crunch;
        [|destruct (extractFromBlob w file) as [t|]; crunch];
        try (destruct (Str.isBlank t) eqn:B; crunch);
        legacy_leaf.
    + cbn [throws extractionStatus]. split; auto.
Qed.

Lemma versions_agree_witness :
  extractionStatus
    (snd (Legacy.analyzeDocument (Examples.storageDown Examples.twoReports)
            (Examples.pdf "a.pdf"))) = failed /\
  extractedFigures
    (snd (Legacy.analyzeDocument (Examples.served Examples.twoReports)
            (Examples.pdf "a.pdf")))
  = extractedFigures
      (snd (analyzeDocument (Examples.served Examples.twoReports)
              (Examples.pdf "a.pdf"))).
Proof.
  destruct (versions_agree (Examples.storageDown Examples.twoReports)
              (Examples.pdf "a.pdf")) as (Down & _).
  destruct (versions_agree (Examples.served Examples.twoReports)
              (Examples.pdf "a.pdf")) as (_ & Same & _).
  split.
  - rewrite Down; reflexivity.
  - apply Same; reflexivity.
Defined.

End AggregatorExtras.



(* ================================================================== *)
(** * Further properties of the comparator and of the exports *)
(* ================================================================== *)

Module ComparatorExtras.

Import Spec Spec2 Facts Comparator ComparatorFacts.
Import DocumentAnalysis ComparisonResult CrossCheckReport.

(** ** When a comparison is emitted *)

Lemma count_one {V} (o : Obj.t (option V)) (k : string) (v : V) :
  Obj.get o k = Some (Some v) -> 1 <= count o.
Proof.
  unfold count, Obj.values.
  induction o as [|[k' v'] o IH]; cbn; [discriminate|].
  destruct (String.eqb k' k).
  - intros [= ->]. cbn. lia.
  - intros H. specialize (IH H). destruct v'; cbn; lia.
Qed.

Lemma count_two {V} (o : Obj.t (option V)) (k1 k2 : string) (v1 v2 : V) :
  k1 <> k2 ->
  Obj.get o k1 = Some (Some v1) -> Obj.get o k2 = Some (Some v2) ->
  2 <= count o.
Proof.
  intros N. induction o as [|[k' v'] o IH]; cbn; [discriminate|].
  destruct (String.eqb_spec k' k1) as [-> | N1];
    destruct (String.eqb_spec k1 k2) as [E | N2]; try contradiction.
  - intros [= ->] H2. apply count_one in H2.
    unfold count, Obj.values in *. cbn. lia.
  - destruct (String.eqb_spec k' k2) as [-> | N3].
    + intros H1 [= ->]. apply count_one in H1.
      unfold count, Obj.values in *. cbn. lia.
    + intros H1 H2. specialize (IH H1 H2).
      unfold count, Obj.values in *. destruct v'; cbn; lia.
Qed.

Lemma lastNamed_In (analyses : list DocumentAnalysis.t) (n : string)
      (a : DocumentAnalysis.t) :
  lastNamed analyses n = Some a -> In a analyses /\ fileName a = n.
Proof.
  unfold lastNamed. intros H. apply find_some in H. destruct H as [Hin E].
  apply in_rev in Hin. apply String.eqb_eq in E. auto.
Qed.

Lemma hasValue_figure (f y : string) (a : DocumentAnalysis.t) :
  hasValue f y a = true ->
  exists fig, In fig (extractedFigures a) /\
              ExtractedFigure.label fig = f /\ ExtractedFigure.year fig = y.
Proof.
  unfold hasValue, figuresFor.
  destruct (filter (isFor f y) (extractedFigures a)) as [|fig l] eqn:E;
    [discriminate|].
  intros _. exists fig.
  assert (H : In fig (filter (isFor f y) (extractedFigures a)))
    by (rewrite E; now left).
  apply filter_In in H. destruct H as [Hin M].
  unfold isFor in M. apply andb_prop in M. destruct M as [M1 M2].
  apply String.eqb_eq in M1, M2. auto.
Qed.

Lemma figure_in_sets (analyses : list DocumentAnalysis.t)
      (a : DocumentAnalysis.t) (fig : ExtractedFigure.t) :
  In a analyses -> In fig (extractedFigures a) ->
  In (ExtractedFigure.label fig) (allFields analyses) /\
  In (ExtractedFigure.year fig) (allYears analyses).
Proof.
  intros Ha Hf.
  assert (H : In fig (allFigures analyses)).
  { unfold allFigures. apply in_flat_map. eauto. }
  unfold allFields, allYears. split; apply ofList_In, in_map, H.
Qed.

Lemma compareOne_emits (analyses : list DocumentAnalysis.t) (f y : string) :
  2 <= count (Obj.props (fst (gather analyses f y))) ->
  exists c, compareOne analyses f y = Some c.
Proof.
  unfold compareOne, count, nonNullValues.
  destruct (gather analyses f y) as [vals cat]. cbn [fst]. intros H.
  apply Nat.leb_le in H. rewrite H. eauto.
Qed.

(** X12. When two documents with different file names, neither of them
    [__proto__], each have a figure for a field and a year, the
    comparator emits the comparison of that field and year, with the
    value of each of the two under its name. A document stands here for
    the last analysis of its name. *)
Theorem comparison_emitted (toLocaleString : number -> string)
        (analyses : list DocumentAnalysis.t) (f y : string)
        (a b : DocumentAnalysis.t) :
  lastNamed analyses (fileName a) = Some a ->
  lastNamed analyses (fileName b) = Some b ->
  fileName a <> fileName b ->
  fileName a <> "__proto__" -> fileName b <> "__proto__" ->
  hasValue f y a = true -> hasValue f y b = true ->
  exists c,
    In c (comparisons (report toLocaleString analyses)) /\
    field c = f /\ year c = y /\
    Obj.get (Obj.props (values c)) (fileName a) = Some (entryOf f y a) /\
    Obj.get (Obj.props (values c)) (fileName b) = Some (entryOf f y b).
Proof.
  intros La Lb N Pa Pb Ha Hb.
  destruct (hasValue_figure _ _ _ Ha) as (fa & Ia & Ela & Eya).
  destruct (lastNamed_In _ _ _ La) as [Ina _].
  destruct (figure_in_sets analyses a fa Ina Ia) as [Hf Hy].
  rewrite Ela in Hf. rewrite Eya in Hy.
  assert (Ga : Obj.get (Obj.props (fst (gather analyses f y))) (fileName a)
               = Some (entryOf f y a)).
  { rewrite (gather_get _ _ _ _ Pa), La. reflexivity. }
  assert (Gb : Obj.get (Obj.props (fst (gather analyses f y))) (fileName b)
               = Some (entryOf f y b)).
  { rewrite (gather_get _ _ _ _ Pb), Lb. reflexivity. }
  destruct (compareOne_emits analyses f y) as [c Hc].
  { apply hasValue_entry in Ha, Hb.
    destruct Ha as [va Ea]. destruct Hb as [vb Eb].
    rewrite Ea in Ga. rewrite Eb in Gb.
    exact (count_two _ (fileName a) (fileName b) va vb N Ga Gb). }
  destruct (compareOne_Some _ _ _ _ Hc) as (Ef & Ey & Ev & _).
  exists c. split.
  - cbn. apply generateComparisons_In. eauto.
  - rewrite Ev. auto.
Qed.

Lemma comparison_emitted_witness :
  exists c,
    In c (comparisons (report Examples.hostLocale Examples.sameName)) /\
    field c = "Revenue" /\ year c = "2024".
Proof.
  destruct (comparison_emitted Examples.hostLocale Examples.sameName
              "Revenue" "2024"
              (Examples.analysisNamed "a.pdf"
                 [Examples.figureOf "a.pdf" "Revenue" "2024" 12])
              (Examples.analysisNamed "b.pdf"
                 [Examples.figureOf "b.pdf" "Revenue" "2024" 10]))
    as (c & Hc & Hf & Hy & _).
  - reflexivity.
  - reflexivity.
  - discriminate.
  - discriminate.
  - discriminate.
  - reflexivity.
  - reflexivity.
  - exists c. auto.
Defined.

(** ** One comparison for a field and a year *)

Lemma ofList_NoDup (xs : list string) : NoDup (JSet.ofList String.eqb xs).
Proof. apply fold_add_NoDup. constructor. Qed.

Lemma row_pairs (analyses : list DocumentAnalysis.t) (f : string)
      (years : list string) :
  NoDup years ->
  NoDup (map pairOf (AnalysisEngine.somes (map (compareOne analyses f) years))) /\
  forall k, In k (map pairOf
                    (AnalysisEngine.somes (map (compareOne analyses f) years))) ->
            fst k = f /\ In (snd k) years.
Proof.
  induction years as [|y years IH]; intros ND; cbn.
  - split; [constructor | intros k []].
  - inversion ND as [|? ? Hy ND']; subst. destruct (IH ND') as [IH1 IH2].
    destruct (compareOne analyses f y) as [c|] eqn:E; cbn.
    + destruct (compareOne_Some _ _ _ _ E) as (Ef & Ey & _).
      assert (K : pairOf c = (f, y)) by (unfold pairOf; congruence).
      split.
      * constructor; [|assumption]. intros H. apply IH2 in H.
        rewrite K in H. cbn in H. tauto.
      * intros k [<- | H]; [rewrite K; cbn; auto|].
        apply IH2 in H. tauto.
    + split; [assumption|]. intros k H. apply IH2 in H. tauto.
Qed.

Lemma table_pairs (analyses : list DocumentAnalysis.t)
      (fields years : list string) :
  NoDup fields -> NoDup years ->
  NoDup (map pairOf
           (flat_map (fun f => AnalysisEngine.somes
                                 (map (compareOne analyses f) years)) fields)) /\
  forall k, In k (map pairOf
                    (flat_map (fun f => AnalysisEngine.somes
                                          (map (compareOne analyses f) years))
                              fields)) ->
            In (fst k) fields /\ In (snd k) years.
Proof.
  intros NF NY. induction fields as [|f fields IH]; cbn.
  - split; [constructor | intros k []].
  - inversion NF as [|? ? Hf NF']; subst. destruct (IH NF') as [IH1 IH2].
    destruct (row_pairs analyses f years NY) as [R1 R2].
    rewrite map_app. split.
    + apply NoDup_app; [assumption | assumption |].
      intros k H1 H2. apply R2 in H1. apply IH2 in H2.
      destruct H1 as [<- _]. tauto.
    + intros k H. apply in_app_or in H. destruct H as [H|H].
      * apply R2 in H. destruct H as [<- ?]. auto.
      * apply IH2 in H. tauto.
Qed.

(** X13. The comparator emits at most one comparison for a field and a
    year: the pairs of field and year of its comparisons are all
    different, each made of a label and of a year that occur in the
    figures of the documents. *)
Theorem one_comparison_per_pair (toLocaleString : number -> string)
        (analyses : list DocumentAnalysis.t) :
  NoDup (map pairOf (comparisons (report toLocaleString analyses))) /\
  (forall c, In c (comparisons (report toLocaleString analyses)) ->
     In (field c) (map ExtractedFigure.label (allFigures analyses)) /\
     In (year c) (map ExtractedFigure.year (allFigures analyses))) /\
  List.length (comparisons (report toLocaleString analyses))
  <= List.length (allFields analyses) * List.length (allYears analyses).
Proof.
  cbn [comparisons report]. unfold generateComparisons.
  destruct (table_pairs analyses (allFields analyses) (allYears analyses))
    as [ND Hin]; try apply ofList_NoDup.
  split; [exact ND|]. split.
  - intros c Hc.
    assert (K : In (pairOf c)
                   (map pairOf
                      (flat_map (fun f => AnalysisEngine.somes
                                            (map (compareOne analyses f)
                                                 (allYears analyses)))
                                (allFields analyses))))
      by (apply in_map, Hc).
    apply Hin in K. cbn in K. unfold allFields, allYears in K.
    rewrite !ofList_In in K. exact K.
  - clear. induction (allFields analyses) as [|f fields IH]; cbn; [lia|].
    rewrite length_app.
    assert (L : forall l : list (option ComparisonResult.t),
                List.length (AnalysisEngine.somes l) <= List.length l).
    { induction l as [|[x|] l IHl]; cbn; lia. }
    specialize (L (map (compareOne analyses f) (allYears analyses))).
    rewrite length_map in L. lia.
Qed.

End ComparatorExtras.

(* ================================================================== *)
(** * The view of the report and the two exports *)
(* ================================================================== *)

Module ExportExtras.

Import World Spec Spec2 Facts Comparator ComparatorFacts.
Import DocumentAnalysis ComparisonResult CrossCheckReport.

(** ** The category of a comparison *)

Lemma gather_category (analyses : list DocumentAnalysis.t) (f y : string) :
  categorised analyses -> In (snd (gather analyses f y)) statements.
Proof.
  induction analyses as [|a l IH] using rev_ind; intros C.
  - cbn. auto.
  - rewrite gather_snoc. unfold visit. cbn [snd].
    destruct (findFigure a f y) as [fig|] eqn:E.
    + unfold findFigure in E. apply find_some in E.
      apply (C a fig); [apply in_or_app; cbn; auto | tauto].
    + apply IH. intros a' fig Ha. apply C, in_or_app. auto.
Qed.

Lemma comparisons_categorised (analyses : list DocumentAnalysis.t)
      (c : ComparisonResult.t) :
  categorised analyses -> In c (generateComparisons analyses) ->
  In (category c) statements.
Proof.
  intros C Hc. apply generateComparisons_In in Hc.
  destruct Hc as (f & y & _ & _ & E).
  destruct (compareOne_Some _ _ _ _ E) as (_ & _ & _ & -> & _).
  now apply gather_category.
Qed.

Lemma engine_categorised (w : World.t) (files : list File) :
  categorised (snd (Aggregator.startAnalysis w files)).
Proof.
  unfold Aggregator.startAnalysis.
  rewrite AggregatorExtras.startAnalysis_fold. cbn [fst snd app].
  intros a fig Ha Hfig. apply in_map_iff in Ha. destruct Ha as (file & <- & _).
  rewrite AggregatorFacts.analyzeDocument_eq in Hfig.
  destruct (snd (Aggregator.analyzeBody w file)) as [a|thrown] eqn:E.
  - apply AggregatorFacts.analyzeBody_returns in E.
    destruct E as (_ & t & _ & _ & ->). cbn in Hfig.
    destruct (ExtractorExtras.figure_entry _ _ _ _ Hfig) as (e & He & -> & _).
    apply (ExtractorExtras.table_entry e e He He).
  - destruct Hfig.
Qed.

(** ** The three groups of the view *)

Lemma categoryComparisons_cons (c : ComparisonResult.t)
      (comps : list ComparisonResult.t) (cat : string) :
  App.categoryComparisons (c :: comps) cat =
  App.categoryComparisons [c] cat ++ App.categoryComparisons comps cat.
Proof.
  unfold App.categoryComparisons. cbn [filter].
  destruct (String.eqb (category c) cat); reflexivity.
Qed.

Lemma pushInto_grouped (l1 l2 l3 : list ComparisonResult.t)
      (c : ComparisonResult.t) :
  In (category c) statements ->
  ReportView.pushInto (grouped l1 l2 l3) c =
  Returns (grouped (l1 ++ App.categoryComparisons [c] "Income Statement")
                   (l2 ++ App.categoryComparisons [c] "Balance Sheet")
                   (l3 ++ App.categoryComparisons [c] "Cash Flow Statement")).
Proof.
  unfold ReportView.pushInto, App.categoryComparisons. cbn [filter].
  intros [E | [E | [E | []]]]; rewrite <- E; cbn; now rewrite !app_nil_r.
Qed.

Lemma pushAll_grouped (comps l1 l2 l3 : list ComparisonResult.t) :
  (forall c, In c comps -> In (category c) statements) ->
  ReportView.pushAll (grouped l1 l2 l3) comps =
  Returns (grouped (l1 ++ App.categoryComparisons comps "Income Statement")
                   (l2 ++ App.categoryComparisons comps "Balance Sheet")
                   (l3 ++ App.categoryComparisons comps "Cash Flow Statement")).
Proof.
  revert l1 l2 l3. induction comps as [|c comps IH]; intros l1 l2 l3 H.
  - cbn. now rewrite !app_nil_r.
  - cbn [ReportView.pushAll]. rewrite pushInto_grouped by (apply H; cbn; auto).
    rewrite IH by (intros c' Hc'; apply H; cbn; auto).
    rewrite !(categoryComparisons_cons c comps), !app_assoc. reflexivity.
Qed.

Lemma pushInto_foreign (l1 l2 l3 : list ComparisonResult.t)
      (c : ComparisonResult.t) :
  ~ In (category c) statements ->
  exists e, ReportView.pushInto (grouped l1 l2 l3) c = Throws e.
Proof.
  intros N. unfold ReportView.pushInto, grouped. cbn [Obj.get].
  destruct (String.eqb_spec "Income Statement" (category c)) as [E|_];
    [exfalso; apply N; cbn; auto|].
  destruct (String.eqb_spec "Balance Sheet" (category c)) as [E|_];
    [exfalso; apply N; cbn; auto|].
  destruct (String.eqb_spec "Cash Flow Statement" (category c)) as [E|_];
    [exfalso; apply N; cbn; auto|].
  destruct (Obj.inherited (category c)); eauto.
Qed.

Lemma pushAll_foreign (comps l1 l2 l3 : list ComparisonResult.t) :
  (exists c, In c comps /\ ~ In (category c) statements) ->
  exists e, ReportView.pushAll (grouped l1 l2 l3) comps = Throws e.
Proof.
  revert l1 l2 l3. induction comps as [|c comps IH]; intros l1 l2 l3 (x & Hx & N).
  - destruct Hx.
  - cbn [ReportView.pushAll].
    destruct (in_dec string_dec (category c) statements) as [K|K].
    + rewrite pushInto_grouped by exact K. apply IH.
      destruct Hx as [-> | Hx]; [contradiction | eauto].
    + destruct (pushInto_foreign l1 l2 l3 c K) as [e ->]. eauto.
Qed.

(** X14. For the analyses of any batch of files, in any world, the view
    of the report groups the comparisons without an error: each of the
    three statements gets the comparisons of its category, in their
    order, and no comparison is left out of the three groups. *)
Theorem view_groups_engine_results (toLocaleString : number -> string)
        (w : World.t) (files : list File) :
  let comps :=
    comparisons (report toLocaleString (snd (Aggregator.startAnalysis w files))) in
  ReportView.groupedComparisons comps =
  Returns (grouped (App.categoryComparisons comps "Income Statement")
                   (App.categoryComparisons comps "Balance Sheet")
                   (App.categoryComparisons comps "Cash Flow Statement")) /\
  forall c, In c comps ->
    exists cat, In cat statements /\ In c (App.categoryComparisons comps cat).
Proof.
  cbv zeta. cbn [comparisons report].
  set (analyses := snd (Aggregator.startAnalysis w files)).
  assert (C : forall c, In c (generateComparisons analyses) ->
                        In (category c) statements).
  { intros c. apply comparisons_categorised, engine_categorised. }
  split.
  - unfold ReportView.groupedComparisons.
    change ReportView.emptyGroups with (grouped [] [] []).
    now rewrite pushAll_grouped.
  - intros c Hc. exists (category c). split; [auto|].
    unfold App.categoryComparisons. apply filter_In. split; [assumption|].
    apply String.eqb_refl.
Qed.

(** X15. The view of the report throws when a comparison has a category
    that is none of the three statements, which happens for analyses
    whose figures carry such a category. *)
Theorem view_throws_on_unknown_category (comps : list ComparisonResult.t) :
  (exists c, In c comps /\ ~ In (category c) statements) ->
  exists e, ReportView.groupedComparisons comps = Throws e.
Proof.
  unfold ReportView.groupedComparisons.
  change ReportView.emptyGroups with (grouped [] [] []).
  apply pushAll_foreign.
Qed.

Lemma view_throws_on_unknown_category_witness :
  exists e,
    ReportView.groupedComparisons
      (generateComparisons [Examples2.oddCategory "a.docx";
                            Examples2.oddCategory "b.docx"]) = Throws e.
Proof.
  destruct (view_throws_on_unknown_category
              (generateComparisons [Examples2.oddCategory "a.docx";
                                    Examples2.oddCategory "b.docx"]))
    as [e He].
  - eexists. split.
    + vm_compute. left. reflexivity.
    + vm_compute. intros [E | [E | [E | []]]]; discriminate E.
  - exists e. exact He.
Defined.

(** ** The text report *)

Lemma detailed_permutation (comps : list ComparisonResult.t) :
  (forall c, In c comps -> In (category c) statements) ->
  Permutation (App.detailed comps) comps.
Proof.
  unfold App.detailed, App.categories. cbn [flat_map]. rewrite app_nil_r.
  induction comps as [|c comps IH]; intros H.
  - cbn. constructor.
  - assert (P : Permutation
                  (App.categoryComparisons comps "Income Statement" ++
                   App.categoryComparisons comps "Balance Sheet" ++
                   App.categoryComparisons comps "Cash Flow Statement") comps)
      by (apply IH; intros c' Hc'; apply H; cbn; auto).
    rewrite !(categoryComparisons_cons c comps).
    unfold App.categoryComparisons at 1 3 5. cbn [filter].
    destruct (H c (or_introl eq_refl)) as [E | [E | [E | []]]];
      rewrite <- E; cbn [String.eqb Ascii.eqb Bool.eqb app].
    + now constructor.
    + symmetry. apply Permutation_cons_app. now symmetry.
    + symmetry. rewrite app_assoc. apply Permutation_cons_app.
      rewrite <- app_assoc. now symmetry.
Qed.

(** X16. For the analyses of any batch of files, the detailed part of
    the text report shows every comparison exactly once: the comparisons
    it goes through, statement after statement, are a permutation of the
    comparisons of the report. *)
Theorem text_report_shows_every_comparison (w : World.t) (files : list File) :
  let comps := generateComparisons (snd (Aggregator.startAnalysis w files)) in
  Permutation (App.detailed comps) comps.
Proof.
  cbv zeta. apply detailed_permutation.
  intros c. apply comparisons_categorised, engine_categorised.
Qed.

(** ** The CSV file *)

Lemma lastNamed_exists (l : list DocumentAnalysis.t) (a : DocumentAnalysis.t) :
  In a l -> exists a', lastNamed l (fileName a) = Some a'.
Proof.
  intros Ha. unfold lastNamed.
  destruct (find _ (rev l)) as [a'|] eqn:E; [eauto|].
  apply find_none with (x := a) in E; [|now apply -> in_rev].
  now rewrite String.eqb_refl in E.
Qed.

Lemma mapM_returns {A B} (f : A -> outcome B) (g : A -> B) (l : list A) :
  (forall x, In x l -> f x = Returns (g x)) ->
  App.mapM f l = Returns (map g l).
Proof.
  induction l as [|x l IH]; intros H; cbn; [reflexivity|].
  rewrite H by (cbn; auto). rewrite IH by (intros y Hy; apply H; cbn; auto).
  reflexivity.
Qed.

Section Csv.
Variable numberToString : number -> string.
Variable inheritedText : string -> string.

Lemma csvCell_returns (analyses : list DocumentAnalysis.t)
      (c : ComparisonResult.t) (a : DocumentAnalysis.t) :
  In c (generateComparisons analyses) -> In a analyses ->
  fileName a <> "__proto__" ->
  App.csvCell numberToString inheritedText c (fileName a) =
  Returns (cellText numberToString
             (shownValue analyses (field c) (year c) (fileName a))).
Proof.
  intros Hc Ha N. apply generateComparisons_In in Hc.
  destruct Hc as (f & y & _ & _ & E).
  destruct (compareOne_Some _ _ _ _ E) as (-> & -> & Ev & _).
  unfold App.csvCell, Obj.lookup, shownValue.
  rewrite Ev, (gather_get _ _ _ _ N).
  destruct (lastNamed_exists analyses a Ha) as [a' ->]. cbn.
  destruct (entryOf _ _ a'); reflexivity.
Qed.

Lemma csvRow_returns (analyses : list DocumentAnalysis.t)
      (c : ComparisonResult.t) :
  (forall a, In a analyses -> fileName a <> "__proto__") ->
  In c (generateComparisons analyses) ->
  App.csvRow numberToString inheritedText (map fileName analyses) c =
  Returns (csvLine numberToString analyses c).
Proof.
  intros P Hc. unfold App.csvRow, csvLine.
  rewrite (mapM_returns _
             (fun n => cellText numberToString
                         (shownValue analyses (field c) (year c) n))).
  - now rewrite map_map.
  - intros n Hn. apply in_map_iff in Hn. destruct Hn as (a & <- & Ha).
    apply csvCell_returns; auto.
Qed.

(** X17. When no analysis is named [__proto__], the export to CSV does
    not throw. Before they are joined, its rows are a header and one row
    for each comparison, all of the same length: year, field, category,
    one cell for each analysis and the verdict. The cell of an analysis
    shows the value of the last analysis of that file name, and is empty
    when it has none. *)
Theorem csv_rows_are_rectangular (analyses : list DocumentAnalysis.t) :
  (forall a, In a analyses -> fileName a <> "__proto__") ->
  let rows :=
    App.csvHeader (map fileName analyses)
    :: map (csvLine numberToString analyses) (generateComparisons analyses) in
  App.csvRows numberToString inheritedText analyses = Returns rows /\
  List.length rows = 1 + List.length (generateComparisons analyses) /\
  forall row, In row rows -> List.length row = 4 + List.length analyses.
Proof.
  intros P. cbv zeta. split; [|split].
  - unfold App.csvRows.
    rewrite (mapM_returns _ (csvLine numberToString analyses)); [reflexivity|].
    intros c Hc. now apply csvRow_returns.
  - cbn. now rewrite length_map.
  - intros row [<- | H].
    + unfold App.csvHeader. rewrite !length_app, length_map. cbn. lia.
    + apply in_map_iff in H. destruct H as (c & <- & _).
      unfold csvLine. rewrite !length_app, length_map. cbn. lia.
Qed.

End Csv.

Lemma csv_rows_are_rectangular_witness :
  App.csvRows Examples.hostLocale Examples2.objectText Examples.twoAnalyses =
  Returns [ ["Year"; "Field"; "Category"; "a.pdf"; "b.pdf"; "Consistent"];
            ["2024"; App.quoted "Revenue"; App.quoted "Income Statement";
             "#"; "#"; "No"] ].
Proof.
  destruct (csv_rows_are_rectangular Examples.hostLocale Examples2.objectText
              Examples.twoAnalyses) as (R & _).
  - intros a [<- | [<- | []]]; discriminate.
  - rewrite R. vm_compute. reflexivity.
Defined.

(** The files the upload accepts are never named [__proto__], so that
    no analysis of the application is. *)
Lemma supported_name_plain (n : string) :
  Aggregator.supported (Str.extensionOf n) = true -> n <> "__proto__".
Proof. intros H ->. vm_compute in H. discriminate H. Qed.

(** With a document named [__proto__] the export misbehaves: when that
    document has no figure the prototype of [values] becomes [null] and
    the export throws; when it has one, its cell shows
    [Object.prototype] in place of a number. *)
Lemma csv_with_proto_name :
  App.csvRows Examples.hostLocale Examples2.objectText Examples2.protoEmpty
  = Throws "TypeError: Cannot read properties of undefined (reading 'toString')" /\
  App.csvRows Examples.hostLocale Examples2.objectText Examples2.protoNamed
  = Returns [ ["Year"; "Field"; "Category"; "a.pdf"; "b.pdf"; "__proto__";
               "Consistent"];
              ["2024"; App.quoted "Revenue"; App.quoted "Income Statement";
               "#"; "#"; "[object Object]"; "Yes"] ].
Proof. split; vm_compute; reflexivity. Qed.

(** ** The lists of the summary *)

Lemma filter_split {A} (p : A -> bool) (l : list A) :
  List.length (filter (fun x => negb (p x)) l) =
  List.length l - List.length (filter p l).
Proof.
  induction l as [|x l IH]; [reflexivity|].
  pose proof (filter_length_le p l) as L.
  cbn [filter]. destruct (p x); cbn [negb List.length]; lia.
Qed.

(** X18. The summary of the report lists the first five discrepancies
    and no more, the text report the first ten: with more discrepancies
    than that, the count is larger than the list. *)
Theorem key_discrepancies_capped (toLocaleString : number -> string)
        (bullet : string) (analyses : list DocumentAnalysis.t) :
  let s := summary (report toLocaleString analyses) in
  List.length (keyDiscrepancies s) = Nat.min 5 (discrepancyCount s) /\
  List.length (App.keyLines toLocaleString bullet (generateComparisons analyses))
  = Nat.min 10 (discrepancyCount s).
Proof.
  cbv zeta. cbn [summary report keyDiscrepancies discrepancyCount].
  unfold App.keyLines. rewrite !length_map, !length_firstn, filter_split.
  auto.
Qed.

(** ** Documents without figures *)

Lemma no_figures (analyses : list DocumentAnalysis.t) :
  ReportView.hasAnyFinancialData analyses = false -> allFigures analyses = [].
Proof.
  unfold ReportView.hasAnyFinancialData, allFigures.
  induction analyses as [|a l IH]; cbn; [reflexivity|].
  intros H. apply orb_false_elim in H. destruct H as [H1 H2].
  rewrite (IH H2). destruct (extractedFigures a); [reflexivity | discriminate].
Qed.

(** X19. When the view finds no figure in any document and shows that
    no financial data was found, the report it does not show is empty:
    no comparison, and a summary of zeros and empty lists. *)
Theorem no_data_no_comparisons (toLocaleString : number -> string)
        (analyses : list DocumentAnalysis.t) :
  ReportView.hasAnyFinancialData analyses = false ->
  report toLocaleString analyses =
  {| documentAnalyses := analyses;
     comparisons := [];
     summary := {| totalComparisons := 0; consistentCount := 0;
                   discrepancyCount := 0; keyDiscrepancies := [];
                   consistentSections := [] |} |}.
Proof.
  intros H. unfold report, generateComparisons, allFields.
  rewrite (no_figures analyses H). reflexivity.
Qed.

Lemma no_data_no_comparisons_witness :
  comparisons (report Examples.hostLocale Examples2.noFigures) = [].
Proof.
  rewrite (no_data_no_comparisons Examples.hostLocale Examples2.noFigures).
  - reflexivity.
  - reflexivity.
Defined.

End ExportExtras.

(* ================================================================== *)
(** * Further properties of AnalysisDashboard and of its table *)
(* ================================================================== *)

Module DashboardExtras.

Import Spec Spec2 Facts World Dashboard Dashboard.Figure DashboardFacts.

(** ** When the batch is abandoned *)

Lemma extractText_outcome (w : World.t) (i : nat) (file : File) :
  fst (extractText w i file) = dashboardCalls w file /\
  match upload w file with
  | Returns _ => exists t, snd (extractText w i file) = Returns t
  | Throws e => snd (extractText w i file) = Throws e
  end.
Proof.
  unfold extractText, dashboardCalls, bind, tryCatch, callUpload,
    callExtractFromUrl, callExtractFromBlob, call, ret.
  destruct (upload w file) as [url|e]; [|auto].
  destruct (extractFromUrl w url) as [t|e]; cbn [fst snd app]; [eauto|].
  destruct (extractFromBlob w file) as [t|e']; cbn [fst snd app]; eauto.
Qed.

Lemma extractAll_outcome (w : World.t) (files : list File) :
  forall i data,
    fst (extractAll w i files data) =
      flat_map (dashboardCalls w) (attempted w files) /\
    ((exists e, snd (extractAll w i files data) = Throws e) <->
     (exists file e, In file files /\ upload w file = Throws e)).
Proof.
  induction files as [|file files IH]; intros i data.
  - cbn. split; [reflexivity|]. split.
    + intros [e H]. discriminate H.
    + intros (file & e & [] & _).
  - cbn [extractAll attempted flat_map].
    destruct (extractText_outcome w i file) as [L O].
    destruct (extractText w i file) as [log [t|e]] eqn:T; cbn [fst snd] in L, O.
    + destruct (upload w file) as [url|e] eqn:U; [|discriminate O].
      unfold bind.
      specialize (IH (S i) (Obj.setObject data (name file)
                              (extractFinancialFigures t (name file)))).
      destruct (extractAll w (S i) files _) as [log' r]. cbn [fst snd] in *.
      destruct IH as [IL IO]. split.
      * cbn [flat_map]. now rewrite L, IL.
      * rewrite IO. split.
        -- intros (f & e & Hf & Hu). exists f, e. cbn. auto.
        -- intros (f & e & [<- | Hf] & Hu); [congruence | eauto].
    + destruct (upload w file) as [url|e'] eqn:U.
      * destruct O as [t O]. discriminate O.
      * unfold bind. cbn [fst snd flat_map]. split.
        -- now rewrite L, app_nil_r.
        -- split; [|eauto]. intros _. exists file, e'. cbn. auto.
Qed.

Section Compare.
Variable toLocaleString : number -> string.

(** X20. The run of AnalysisDashboard is abandoned with the message
    that the analysis failed exactly when the upload of one of the files
    throws; a text that cannot be extracted never abandons it. The calls
    made are those for the files up to the first one whose upload
    throws: no later file is touched. *)
Theorem dashboard_abandons_on_upload_error (w : World.t) (files : list File) :
  (snd (analyzeDocuments toLocaleString w files) =
     Failed "Analysis failed. Please try again or contact support if the issue persists."
   <-> exists file e, In file files /\ upload w file = Throws e) /\
  fst (analyzeDocuments toLocaleString w files) =
    flat_map (dashboardCalls w) (attempted w files).
Proof.
  unfold analyzeDocuments.
  destruct (extractAll_outcome w files 0 Obj.empty) as [L O].
  destruct (extractAll w 0 files Obj.empty) as [log [data|e]];
    cbn [fst snd] in *.
  - split; [|exact L]. rewrite <- O. split.
    + unfold buildReport.
      destruct (List.length (figuresOf data) =? 0); intros H;
        [|discriminate H].
      injection H as H. cbn [append] in H. discriminate H.
    + intros [e H]. discriminate H.
  - split; [|exact L]. rewrite <- O. split; eauto.
Qed.

(** ** What the report lists *)

Lemma compareOne_discrepancy (data : Obj.t (list Figure.t)) (cat yr : string)
      (d : Discrepancy) :
  compareOne toLocaleString data cat yr = FoundDiscrepancy d ->
  d = mkDiscrepancy toLocaleString cat yr (figuresForCategoryYear data cat yr) /\
  2 <= List.length (figuresForCategoryYear data cat yr) /\
  ~ allSame (valuesOf (figuresForCategoryYear data cat yr)).
Proof.
  unfold compareOne, valuesOf.
  set (found := figuresForCategoryYear data cat yr).
  destruct (1 <? List.length found) eqn:L; [|discriminate].
  apply Nat.ltb_lt in L.
  destruct (Nat.eqb_spec
              (List.length
                 (JSet.ofList sameValueZero
                    (map (fun item => value (snd item)) found))) 1) as [E|E];
    [discriminate|].
  intros [= <-]. split; [reflexivity|]. split; [lia|].
  intros Same. apply E. apply ComparatorFacts.unique_one_allSame; [|exact Same].
  destruct found; [cbn in L; lia | discriminate].
Qed.

Lemma fold_add_incl {A} (same : A -> A -> bool) (xs l : list A) (x : A) :
  In x (fold_left (JSet.add same) xs l) -> In x l \/ In x xs.
Proof.
  revert l. induction xs as [|y xs IH]; intros l H; cbn in *; [auto|].
  apply IH in H. destruct H as [H|H]; [|auto].
  unfold JSet.add in H. destruct (JSet.has same l y); [auto|].
  apply in_app_or in H. destruct H as [H|[<-|[]]]; auto.
Qed.

Lemma compareOne_match (data : Obj.t (list Figure.t)) (cat yr : string)
      (m : Match) :
  compareOne toLocaleString data cat yr = FoundMatch m ->
  m_category m = cat /\ m_year m = yr /\
  m_documents m = map fst (figuresForCategoryYear data cat yr) /\
  2 <= List.length (figuresForCategoryYear data cat yr) /\
  allSame (valuesOf (figuresForCategoryYear data cat yr)) /\
  In (m_value m) (valuesOf (figuresForCategoryYear data cat yr)).
Proof.
  unfold compareOne, valuesOf.
  set (found := figuresForCategoryYear data cat yr).
  set (values := map (fun item => value (snd item)) found).
  destruct (1 <? List.length found) eqn:L; [|discriminate].
  apply Nat.ltb_lt in L.
  destruct (Nat.eqb_spec (List.length (JSet.ofList sameValueZero values)) 1)
    as [E|E]; [|discriminate].
  intros [= <-]. cbn [m_category m_year m_documents m_value].
  repeat split; try lia.
  - apply ComparatorFacts.unique_one_allSame; [|exact E].
    unfold values. destruct found; [cbn in L; lia | discriminate].
  - destruct (JSet.ofList sameValueZero values) as [|v l] eqn:U;
      [discriminate E|]. cbn [hd].
    assert (H : In v (JSet.ofList sameValueZero values))
      by (rewrite U; cbn; auto).
    unfold JSet.ofList in H. apply fold_add_incl in H.
    destruct H as [[]|H]. exact H.
Qed.

Lemma findings_inv (data : Obj.t (list Figure.t)) (f : finding) :
  In f (findings toLocaleString data) ->
  exists cat yr, In cat (allCategories data) /\ In yr (allYears data) /\
                 compareOne toLocaleString data cat yr = f.
Proof.
  unfold findings. intros H. apply in_flat_map in H.
  destruct H as (cat & Hc & H). apply in_map_iff in H.
  destruct H as (yr & E & Hy). eauto.
Qed.

(** The list the comparison gathers holds every document that has a
    figure for the line item and the year, with the first such figure. *)
Lemma found_holders (data : Obj.t (list Figure.t)) (cat yr : string) :
  map fst (figuresForCategoryYear data cat yr) = holders data cat yr /\
  valuesOf (figuresForCategoryYear data cat yr) = heldValues data cat yr.
Proof.
  unfold figuresForCategoryYear, holders, heldValues, valuesOf, Obj.entries.
  induction data as [|[n figs] data [IH1 IH2]]; [split; reflexivity|].
  cbn [map filter flat_map fst snd].
  rewrite ComparatorFacts.find_filter.
  change (fun f => String.eqb (category f) cat && String.eqb (year f) yr)
    with (carries cat yr).
  assert (E : existsb (carries cat yr) figs =
              match filter (carries cat yr) figs with
              | [] => false
              | _ :: _ => true
              end).
  { clear. induction figs as [|g figs IH]; cbn; [reflexivity|].
    destruct (carries cat yr g); [reflexivity | exact IH]. }
  rewrite E. destruct (filter (carries cat yr) figs) as [|g l];
    cbn [hd_error AnalysisEngine.somes map fst snd app].
  - split; assumption.
  - split; f_equal; assumption.
Qed.

(** X21. What the report of AnalysisDashboard lists is real. A
    discrepancy names a line item and a year for which at least two
    documents have a figure and the values they give are not all the
    same; it lists every document that has such a figure, with the value
    of its first one, and its variance is the largest of these values
    minus the smallest. A match is for a line item and a year for which
    at least two documents have a figure, all giving the same value,
    which is the value of the match; its documents are all those that
    have the figure. *)
Theorem dashboard_findings_are_real (files : list File)
        (data : Obj.t (list Figure.t)) (r : AnalysisReport) :
  buildReport toLocaleString files data = Completed r ->
  (forall d, In d (discrepancies r) ->
     let names := holders data (d_category d) (d_year d) in
     let values := heldValues data (d_category d) (d_year d) in
     2 <= List.length names /\ ~ allSame values /\
     map dv_documentName (d_values d) = names /\
     map dv_value (d_values d) = values /\
     d_variance d = sub (Num.max values) (Num.min values)) /\
  (forall m, In m (matches r) ->
     let names := holders data (m_category m) (m_year m) in
     let values := heldValues data (m_category m) (m_year m) in
     2 <= List.length names /\ allSame values /\
     m_documents m = names /\ In (m_value m) values).
Proof.
  intros B. destruct (buildReport_Completed _ _ _ _ B) as (_ & D & M & _).
  split.
  - intros d Hd. rewrite D in Hd. apply In_discrepanciesOf, findings_inv in Hd.
    destruct Hd as (cat & yr & _ & _ & E).
    destruct (compareOne_discrepancy _ _ _ _ E) as (Ed & Two & Differ).
    destruct (found_holders data cat yr) as [Names Values].
    assert (Ec : d_category d = cat) by (rewrite Ed; reflexivity).
    assert (Ey : d_year d = yr) by (rewrite Ed; reflexivity).
    cbv zeta. rewrite Ec, Ey, <- Names, <- Values, length_map.
    split; [exact Two|]. split; [exact Differ|].
    rewrite Ed. unfold mkDiscrepancy, valuesOf.
    cbn [d_values d_variance]. rewrite !map_map. auto.
  - intros m Hm. rewrite M in Hm. apply In_matchesOf, findings_inv in Hm.
    destruct Hm as (cat & yr & _ & _ & E).
    destruct (compareOne_match _ _ _ _ E) as (Ec & Ey & Docs & Two & Same & V).
    destruct (found_holders data cat yr) as [Names Values].
    cbv zeta. rewrite Ec, Ey, <- Names, <- Values, length_map. auto.
Qed.

(** ** The table of DiscrepancyReport *)

Lemma ofList_length_pos {A} (same : A -> A -> bool) (l : list A) :
  l <> [] -> 1 <= List.length (JSet.ofList same l).
Proof.
  destruct l as [|v l]; [congruence|]. intros _.
  unfold JSet.ofList. cbn [fold_left].
  pose proof (fold_add_length_ge same l (JSet.add same [] v)) as H.
  cbn in H. exact H.
Qed.

Lemma ofList_length_le {A} (same : A -> A -> bool) (l : list A) :
  List.length (JSet.ofList same l) <= List.length l.
Proof.
  unfold JSet.ofList.
  assert (G : forall xs acc,
             List.length (fold_left (JSet.add same) xs acc)
             <= List.length acc + List.length xs).
  { induction xs as [|x xs IH]; intros acc; cbn; [lia|].
    specialize (IH (JSet.add same acc x)).
    pose proof (add_length same acc x). lia. }
  apply (G l []).
Qed.

(** X22. The table of DiscrepancyReport, which computes its cells from
    the figures anew, agrees with the report: a cell is flagged exactly
    when the analysis recorded a discrepancy for its category and year,
    and then shows the variance of that record; a cell that is not
    flagged shows the variance 0. *)
Theorem table_agrees_with_report (data : Obj.t (list Figure.t))
        (cat yr : string) (cell : DiscrepancyReport.Cell) :
  DiscrepancyReport.cellOf data cat yr = Some cell ->
  let d := mkDiscrepancy toLocaleString cat yr
             (figuresForCategoryYear data cat yr) in
  DiscrepancyReport.data cell = figuresForCategoryYear data cat yr /\
  (DiscrepancyReport.hasDiscrepancy cell = true <->
   compareOne toLocaleString data cat yr = FoundDiscrepancy d) /\
  DiscrepancyReport.variance cell =
    (if DiscrepancyReport.hasDiscrepancy cell then d_variance d else ofZ 0).
Proof.
  unfold DiscrepancyReport.cellOf, compareOne.
  set (found := figuresForCategoryYear data cat yr).
  set (values := map (fun item => value (snd item)) found).
  destruct (0 <? List.length found) eqn:L; [|discriminate].
  apply Nat.ltb_lt in L. intros [= <-].
  cbn [DiscrepancyReport.data DiscrepancyReport.hasDiscrepancy
       DiscrepancyReport.variance].
  assert (P : 1 <= List.length (JSet.ofList sameValueZero values)).
  { apply ofList_length_pos. unfold values.
    destruct found; [cbn in L; lia | discriminate]. }
  assert (Q : List.length (JSet.ofList sameValueZero values)
              <= List.length found).
  { pose proof (ofList_length_le sameValueZero values) as H.
    unfold values in H at 2. now rewrite length_map in H. }
  cbv zeta. split; [reflexivity|]. split.
  - split.
    + intros H. apply Nat.ltb_lt in H.
      replace (1 <? List.length found) with true
        by (symmetry; apply Nat.ltb_lt; lia).
      replace (List.length (JSet.ofList sameValueZero values) =? 1) with false
        by (symmetry; apply Nat.eqb_neq; lia).
      reflexivity.
    + destruct (1 <? List.length found); [|discriminate].
      destruct (Nat.eqb_spec
                  (List.length (JSet.ofList sameValueZero values)) 1) as [E|E];
        [discriminate|].
      intros _. apply Nat.ltb_lt. lia.
  - destruct (1 <? List.length (JSet.ofList sameValueZero values)); reflexivity.
Qed.

End Compare.

Lemma dashboard_findings_are_real_witness :
  exists r d,
    buildReport Examples.hostLocale Examples.twoFiles Examples.twoExtracted
    = Completed r /\
    In d (discrepancies r) /\
    map dv_documentName (d_values d) = ["a.pdf"; "b.pdf"] /\
    map dv_value (d_values d) = [ofZ 1000000; ofZ 1200000].
Proof.
  destruct (buildReport Examples.hostLocale Examples.twoFiles
              Examples.twoExtracted) as [r|err] eqn:B;
    [|vm_compute in B; discriminate B].
  destruct (dashboard_findings_are_real Examples.hostLocale Examples.twoFiles
              Examples.twoExtracted r B) as [D _].
  assert (H : exists d, In d (discrepancies r) /\
                        d_category d = "Revenue" /\ d_year d = "2024").
  { revert B. vm_compute. intros [= <-]. eexists. split; [left; reflexivity|].
    split; reflexivity. }
  destruct H as (d & Hd & Ec & Ey). exists r, d.
  destruct (D d Hd) as (_ & _ & Names & Values & _).
  rewrite Ec, Ey in Names, Values.
  split; [reflexivity|]. split; [exact Hd|]. split.
  - rewrite Names. reflexivity.
  - rewrite Values. reflexivity.
Defined.

Lemma table_agrees_with_report_witness :
  exists cell,
    DiscrepancyReport.cellOf Examples.twoExtracted "Revenue" "2024" = Some cell /\
    DiscrepancyReport.hasDiscrepancy cell = true /\
    DiscrepancyReport.variance cell = ofZ 200000.
Proof.
  destruct (DiscrepancyReport.cellOf Examples.twoExtracted "Revenue" "2024")
    as [cell|] eqn:C; [|vm_compute in C; discriminate C].
  destruct (table_agrees_with_report Examples.hostLocale Examples.twoExtracted
              "Revenue" "2024" cell C) as (_ & F & V).
  exists cell. split; [reflexivity|].
  assert (H : DiscrepancyReport.hasDiscrepancy cell = true).
  { apply F. vm_compute. reflexivity. }
  split; [exact H|]. rewrite V, H. vm_compute. reflexivity.
Defined.

End DashboardExtras.

(* ================================================================== *)
(** * The amounts of the extractor of AnalysisDashboard *)
(* ================================================================== *)

Module AmountExtras.

Import Spec Spec2 Facts RegexFacts ExtractorFacts Dashboard Dashboard.Figure.

(** ** The sign of a parsed literal *)

Lemma round_aux_unsigned (m e : Z) (l : SpecFloat.location) :
  signed (binary_round_aux prec emax false m e l) = false.
Proof.
  unfold binary_round_aux.
  destruct (shr_fexp prec emax m e l) as [mrs e'].
  destruct (shr_fexp prec emax _ e' loc_Exact) as [mrs2 e2].
  destruct (shr_m mrs2); [reflexivity | | reflexivity].
  destruct (Z.leb e2 (emax - prec)); reflexivity.
Qed.

Lemma ofRatio_unsigned (n : Z) (d : positive) : signed (ofRatio n d) = false.
Proof.
  destruct n as [|p|p]; [reflexivity | | reflexivity].
  unfold ofRatio, div, SFdiv.
  destruct (SFdiv_core_binary prec emax (Z.pos p) 0 (Z.pos d) 0) as [[mz ez] lz].
  apply round_aux_unsigned.
Qed.

Lemma unsignedLiteral_unsigned (s : string) : signed (unsignedLiteral s) = false.
Proof.
  unfold unsignedLiteral.
  destruct (Str.startsWith "Infinity" s); [reflexivity|].
  destruct (digits s 0 0) as [[i ni] rest].
  destruct (match rest with
            | EmptyString => (i, 0, rest)
            | String c r => if Ascii.eqb c "." then digits r i 0 else (i, 0, rest)
            end) as [[m nf] rest'].
  destruct (ni + nf =? 0); [reflexivity|].
  unfold scale. destruct (exponent rest' - Z.of_nat nf)%Z;
    apply ofRatio_unsigned.
Qed.

Lemma digit_plain (c : ascii) :
  Str.isDigit c = true ->
  Str.isSpace c = false /\ Ascii.eqb c "-" = false /\ Ascii.eqb c "+" = false.
Proof.
  destruct c as [[] [] [] [] [] [] [] []]; intros H;
    first [discriminate H | repeat split; reflexivity].
Qed.

Lemma parseFloat_digits (s : string) :
  Str.forallb Str.isDigit s = true -> signed (parseFloat s) = false.
Proof.
  destruct s as [|c s]; [reflexivity|]. cbn [Str.forallb]. intros H.
  apply andb_prop in H. destruct H as [Hc _].
  destruct (digit_plain c Hc) as (S & M & P).
  unfold parseFloat. cbn [skipSpace]. rewrite S, M, P.
  apply unsignedLiteral_unsigned.
Qed.

Lemma removeCommas_digits (c : string) :
  Str.forallb digitComma c = true ->
  Str.forallb Str.isDigit (Str.removeCommas c) = true.
Proof.
  induction c as [|x c IH]; [reflexivity|]. cbn [Str.forallb Str.removeCommas].
  intros H. apply andb_prop in H. destruct H as [Hx Hc].
  unfold digitComma, isComma in Hx.
  destruct (Ascii.eqb x ","); [auto|].
  rewrite orb_false_r in Hx. cbn [Str.forallb]. rewrite Hx. cbn. auto.
Qed.

(** ** What the group of a pattern captures *)

Lemma star_steps (p : ascii -> bool) (s : string) :
  forall pos cap k res,
    star p s pos cap k = Some res ->
    exists n, k (Str.drop n s) (pos + n) cap = Some res /\
              Str.forallb p (Str.take n s) = true.
Proof.
  induction s as [|c s IH]; intros pos cap k res; cbn [star].
  - intros H. exists 0. rewrite Nat.add_0_r. auto.
  - destruct (p c) eqn:Pc.
    + destruct (star p s (S pos) cap k) as [r|] eqn:E.
      * intros [= ->]. apply IH in E. destruct E as (n & K & A).
        exists (S n). cbn [Str.drop Str.take Str.forallb].
        rewrite Nat.add_succ_r, Pc, A. auto.
      * intros H. exists 0. rewrite Nat.add_0_r. auto.
    + intros H. exists 0. rewrite Nat.add_0_r. auto.
Qed.

Lemma run_groupFree (r : regex) :
  groupFree r = true ->
  forall s pos cap k res,
    run r s pos cap k = Some res -> exists s' pos', k s' pos' cap = Some res.
Proof.
  induction r as [p|r1 IH1 r2 IH2|r1 IH1|p|p|r1 IH1];
    cbn [groupFree]; intros G s pos cap k res; cbn [run].
  - destruct s as [|c s]; [discriminate|].
    destruct (p c); [eauto | discriminate].
  - apply andb_prop in G. destruct G as [G1 G2]. intros H.
    apply (IH1 G1) in H. destruct H as (s1 & pos1 & H).
    apply (IH2 G2) in H. exact H.
  - destruct (run r1 s pos cap k) as [x|] eqn:E.
    + intros [= ->]. apply (IH1 G) in E. exact E.
    + eauto.
  - intros H. apply star_steps in H. destruct H as (n & H & _). eauto.
  - destruct s as [|c s]; [discriminate|].
    destruct (p c); [|discriminate].
    intros H. apply star_steps in H. destruct H as (n & H & _). eauto.
  - discriminate G.
Qed.

Lemma run_litI (w : string) (rest : regex) :
  forall s pos cap k res,
    run (litI w rest) s pos cap k = Some res ->
    exists s' pos', run rest s' pos' cap k = Some res.
Proof.
  induction w as [|c w IH]; intros s pos cap k res; cbn [litI].
  - eauto.
  - unfold chrI. cbn [run]. destruct s as [|x s]; [discriminate|].
    destruct (Ascii.eqb (Str.foldChar x) (Str.foldChar c)); [|discriminate].
    apply IH.
Qed.

Lemma run_group_plus (p : ascii -> bool) (s : string) (pos : nat)
      (cap : option string) (k : cont) (res : Regex.result) :
  run (Group (Plus p)) s pos cap k = Some res ->
  exists s' pos' c, k s' pos' (Some c) = Some res /\ Str.forallb p c = true.
Proof.
  cbn [run]. destruct s as [|x s]; [discriminate|].
  destruct (p x) eqn:Px; [|discriminate].
  intros H. apply star_steps in H. destruct H as (n & H & A).
  replace (S pos + n - pos) with (S n) in H by lia.
  cbn [Str.take] in H.
  exists (Str.drop n s), (S pos + n), (String x (Str.take n s)).
  split; [exact H|]. cbn [Str.forallb]. now rewrite Px, A.
Qed.

Lemma run_cat (r1 r2 : regex) (s : string) (pos : nat) (cap : option string)
      (k : cont) :
  run (Cat r1 r2) s pos cap k =
  run r1 s pos cap (fun s' pos' cap' => run r2 s' pos' cap' k).
Proof. reflexivity. Qed.

Lemma matchHere_capture (r : regex) (s : string) (pos : nat) (res : Regex.result) :
  amountLast r -> matchHere r s pos = Some res ->
  exists c, snd res = Some c /\ Str.forallb digitComma c = true.
Proof.
  intros (word & middle & G & ->). unfold matchHere. intros H.
  apply run_litI in H. destruct H as (s1 & pos1 & H). rewrite run_cat in H.
  apply (run_groupFree middle G) in H. destruct H as (s2 & pos2 & H).
  cbv beta in H. rewrite run_cat in H.
  apply (run_groupFree (Opt (chr "$")) eq_refl) in H.
  destruct H as (s3 & pos3 & H). cbv beta in H.
  apply run_group_plus in H. destruct H as (s4 & pos4 & c & H & A).
  injection H as <-. exists c. auto.
Qed.

Lemma search_capture (r : regex) (s : string) :
  amountLast r ->
  forall pos m, search r s pos = Some m ->
                Str.forallb digitComma (capture m) = true.
Proof.
  intros A. induction s as [|x s IH]; intros pos m; cbn [search].
  - destruct (matchHere r EmptyString pos) as [res|] eqn:E; [|discriminate].
    intros [= <-]. destruct (matchHere_capture _ _ _ _ A E) as (c & Ec & Hc).
    destruct res as [e cap]. cbn [snd] in Ec. subst cap. exact Hc.
  - destruct (matchHere r (String x s) pos) as [res|] eqn:E.
    + intros [= <-]. destruct (matchHere_capture _ _ _ _ A E) as (c & Ec & Hc).
      destruct res as [e cap]. cbn [snd] in Ec. subst cap. exact Hc.
    + apply IH.
Qed.

Ltac each_pattern H :=
  repeat (destruct H as [<- | H];
          [unfold amountLast, pat, patLoose; do 2 eexists;
           split; [|reflexivity]; reflexivity|]);
  destruct H.

Lemma financialPatterns_amountLast (cp : string * list regex) (p : regex) :
  In cp financialPatterns -> In p (snd cp) -> amountLast p.
Proof.
  unfold financialPatterns. cbn [In]. intros Hcp Hp.
  repeat (destruct Hcp as [<- | Hcp]; [cbn [snd In] in Hp; each_pattern Hp|]).
  destruct Hcp.
Qed.

Lemma figureOfPattern_fields (text fileName : string) (years : list string)
      (cat : string) (p : regex) (g : Figure.t) :
  figureOfPattern text fileName years cat p = Some g ->
  exists m, firstMatch p text = Some m /\
    value g = parseFloat (Str.removeCommas (capture m)) /\
    isNaN (value g) = false /\ category g = cat /\
    documentName g = fileName /\ confidence g = highConfidence.
Proof.
  unfold figureOfPattern.
  destruct (firstMatch p text) as [m|]; [|discriminate].
  destruct (negb (String.eqb (capture m) "")); [|discriminate].
  destruct (isNaN (parseFloat (Str.removeCommas (capture m)))) eqn:N;
    cbn [negb]; [discriminate|].
  intros [= <-]. exists m. cbn [value category documentName confidence].
  repeat split. exact N.
Qed.

Lemma somes_length {A} (l : list (option A)) :
  List.length (AnalysisEngine.somes l) <= List.length l.
Proof. induction l as [|[x|] l IH]; cbn; lia. Qed.

(** X23. The extractor of AnalysisDashboard reads at most one figure
    for each of its fourteen patterns, from the first match of the
    pattern. The value of a figure is never NaN and never negative: an
    amount written with a minus sign is not read. Every figure carries
    the name of the file, the confidence 0.9 and one of the six line
    items as its category. *)
Theorem dashboard_figures_are_unsigned (text fileName : string) :
  List.length (extractFinancialFigures text fileName) <= 14 /\
  forall g, In g (extractFinancialFigures text fileName) ->
    isNaN (value g) = false /\ signed (value g) = false /\
    documentName g = fileName /\ confidence g = highConfidence /\
    In (category g) (map fst financialPatterns).
Proof.
  split.
  - unfold extractFinancialFigures, financialPatterns. cbn [flat_map fst snd].
    rewrite !length_app.
    repeat match goal with
           | |- context [List.length (AnalysisEngine.somes ?l)] =>
               let H := fresh "L" in
               pose proof (somes_length l) as H;
               generalize dependent (List.length (AnalysisEngine.somes l));
               intros
           end.
    cbn [List.length map] in *. lia.
  - intros g Hg. apply dashboard_extract_In in Hg.
    destruct Hg as (cp & p & Hcp & Hp & E).
    destruct (figureOfPattern_fields _ _ _ _ _ _ E) as (m & F & V & N & C & D & K).
    repeat split; auto.
    + rewrite V. apply parseFloat_digits, removeCommas_digits.
      apply (search_capture p text (financialPatterns_amountLast cp p Hcp Hp) 0 m F).
    + rewrite C. now apply in_map.
Qed.

Lemma dashboard_figures_are_unsigned_witness :
  signed (value (Examples.revenueOf "a.pdf" 1000000)) = false.
Proof.
  destruct (dashboard_figures_are_unsigned "Revenue: $1,000,000 (2024)" "a.pdf")
    as [_ H].
  destruct (H (Examples.revenueOf "a.pdf" 1000000)) as (_ & S & _).
  - vm_compute. left. reflexivity.
  - exact S.
Defined.

End AmountExtras.
